(** * cuMpSGEMM: kernel-module dispatch and exponent-statistics control surface

    A shallow embedding of
    - [src/handle.cu]: [cuMpSGEMM_create], [gen_module_code], the two
      [launch_kernel] overloads, [cumpsgemm::gemm] and
      [cumpsgemm::gemm_stridedBatch];
    - [python/src/main.cpp]: [get_lose_ratio], and its predecessor
      [get_lost_rate];
    - [include/cumpsgemm/hijack_control.hpp]: the dynamic-launch-flag
      interface.

    Conventions.  Unsigned machine integers are values of [Z] reduced with
    [u32] / [u64] wherever the source computes in that width.  Device
    pointers are [Z] addresses counted in elements of the pointee type, a
    null pointer is [None].  Behaviour the C++ standard leaves undefined
    (division by zero, reading a table slot nobody wrote) is the [None] of
    the [option] monad. *)

From Stdlib Require Import ZArith QArith Qminmax Lia List Bool SpecFloat String.
From stdpp Require Import base option list gmap.

Local Open Scope Z_scope.

(** ** Machine integers *)

Definition u32 (x : Z) : Z := x mod 2 ^ 32.
Definition u64 (x : Z) : Z := x mod 2 ^ 64.

Definition is_u32 (x : Z) : Prop := 0 <= x < 2 ^ 32.
Definition is_u64 (x : Z) : Prop := 0 <= x < 2 ^ 64.

(** ** Enumerations of the public interface *)

Inductive cublasStatus_t :=
| CUBLAS_STATUS_SUCCESS
| CUBLAS_STATUS_INTERNAL_ERROR.

(** [CUBLAS_OP_CONJG] stands for the enumerators that fall into the
    [default] branches of [gen_module_code]. *)
Inductive cublasOperation_t :=
| CUBLAS_OP_N
| CUBLAS_OP_T
| CUBLAS_OP_C
| CUBLAS_OP_CONJG.

(** The enumerators exported by [PYBIND11_MODULE] in main.cpp. *)
Inductive cuMpSGEMM_compute_mode_t :=
| CUMPSGEMM_CUBLAS
| CUMPSGEMM_FP16TCEC
| CUMPSGEMM_TF32TCEC
| CUMPSGEMM_FP16TC
| CUMPSGEMM_TF32TC
| CUMPSGEMM_CUBLAS_SIMT
| CUMPSGEMM_CUBLAS_FP16TC
| CUMPSGEMM_CUBLAS_TF32TC
| CUMPSGEMM_DRY_RUN
| CUMPSGEMM_AUTO.

(** The template parameter [T] of [gen_module_code], [gemm] and
    [gemm_stridedBatch]. *)
Inductive element_t := float_t | cuComplex_t.

#[global] Instance cublasOperation_eq_dec : EqDecision cublasOperation_t.
Proof. solve_decision. Defined.
#[global] Instance compute_mode_eq_dec : EqDecision cuMpSGEMM_compute_mode_t.
Proof. solve_decision. Defined.
#[global] Instance element_eq_dec : EqDecision element_t.
Proof. solve_decision. Defined.
#[global] Instance cublasStatus_eq_dec : EqDecision cublasStatus_t.
Proof. solve_decision. Defined.

(** ** Module codes

    The tokens the registration macros paste into
    [cumpsgemm::kernel_module_code::<token>]. *)

Inductive tc_t := half | tf32.
Inductive ec_t := with_ec | without_ec.
Inductive op_t := col_major | row_major | conjugate.
Inductive gemm_type := s | c.

#[global] Instance tc_eq_dec : EqDecision tc_t.
Proof. solve_decision. Defined.
#[global] Instance ec_eq_dec : EqDecision ec_t.
Proof. solve_decision. Defined.
#[global] Instance op_eq_dec : EqDecision op_t.
Proof. solve_decision. Defined.
#[global] Instance gemm_type_eq_dec : EqDecision gemm_type.
Proof. solve_decision. Defined.

(** The constants of namespace [cumpsgemm::kernel_module_code].  They are
    declared in handle.hpp, which is not among the sources, so the
    dispatcher is parametrised by them. *)
Module kernel_module_code.
Record constants := {
  half : Z;
  tf32 : Z;
  with_ec : Z;
  without_ec : Z;
  op_a_col_major : Z;
  op_a_row_major : Z;
  op_a_conjugate : Z;
  op_b_col_major : Z;
  op_b_row_major : Z;
  op_b_conjugate : Z;
  s : Z;
  c : Z;
  max_code : Z
}.
End kernel_module_code.

Abbreviation code_t := Z (only parsing).

(** [cumpsgemm::kernel_module_code::<token>] for each macro token. *)
Definition tc_code (K : kernel_module_code.constants) (t : tc_t) : code_t :=
  match t with
  | half => kernel_module_code.half K
  | tf32 => kernel_module_code.tf32 K
  end.

Definition ec_code (K : kernel_module_code.constants) (e : ec_t) : code_t :=
  match e with
  | with_ec => kernel_module_code.with_ec K
  | without_ec => kernel_module_code.without_ec K
  end.

Definition op_a_code (K : kernel_module_code.constants) (o : op_t) : code_t :=
  match o with
  | col_major => kernel_module_code.op_a_col_major K
  | row_major => kernel_module_code.op_a_row_major K
  | conjugate => kernel_module_code.op_a_conjugate K
  end.

Definition op_b_code (K : kernel_module_code.constants) (o : op_t) : code_t :=
  match o with
  | col_major => kernel_module_code.op_b_col_major K
  | row_major => kernel_module_code.op_b_row_major K
  | conjugate => kernel_module_code.op_b_conjugate K
  end.

Definition gemm_type_code (K : kernel_module_code.constants) (g : gemm_type) : code_t :=
  match g with
  | s => kernel_module_code.s K
  | c => kernel_module_code.c K
  end.

(** One mask per axis of a signature. *)
Record code_masks := {
  mask_tc : Z; mask_ec : Z; mask_a : Z; mask_b : Z; mask_kind : Z
}.

(** Modelled from the spec: "Signatures are disjoint bit-fields".  Each of
    the five axes owns a mask, the masks do not overlap, and the values of
    one axis differ.  handle.hpp, which fixes the actual bits, is missing. *)
Record disjoint_bit_fields (K : kernel_module_code.constants) (M : code_masks) : Prop := {
  tc_ec : Z.land (mask_tc M) (mask_ec M) = 0;
  tc_a : Z.land (mask_tc M) (mask_a M) = 0;
  tc_b : Z.land (mask_tc M) (mask_b M) = 0;
  tc_kind : Z.land (mask_tc M) (mask_kind M) = 0;
  ec_a : Z.land (mask_ec M) (mask_a M) = 0;
  ec_b : Z.land (mask_ec M) (mask_b M) = 0;
  ec_kind : Z.land (mask_ec M) (mask_kind M) = 0;
  a_b : Z.land (mask_a M) (mask_b M) = 0;
  a_kind : Z.land (mask_a M) (mask_kind M) = 0;
  b_kind : Z.land (mask_b M) (mask_kind M) = 0;
  in_tc : forall t, Z.land (tc_code K t) (mask_tc M) = tc_code K t;
  in_ec : forall e, Z.land (ec_code K e) (mask_ec M) = ec_code K e;
  in_a : forall o, Z.land (op_a_code K o) (mask_a M) = op_a_code K o;
  in_b : forall o, Z.land (op_b_code K o) (mask_b M) = op_b_code K o;
  in_kind : forall g, Z.land (gemm_type_code K g) (mask_kind M) = gemm_type_code K g;
  tc_distinct : forall t t', tc_code K t = tc_code K t' -> t = t';
  ec_distinct : forall e e', ec_code K e = ec_code K e' -> e = e';
  a_distinct : forall o o', op_a_code K o = op_a_code K o' -> o = o';
  b_distinct : forall o o', op_b_code K o = op_b_code K o' -> o = o';
  kind_distinct : forall g g', gemm_type_code K g = gemm_type_code K g' -> g = g'
}.

(** [gen_module_code<T>(op_A, op_B, compute_mode)]; the trailing [assert]
    compiles away under NDEBUG and is kept as [gen_module_code_assert]. *)
Definition gen_module_code (K : kernel_module_code.constants) (T : element_t)
    (op_A op_B : cublasOperation_t) (compute_mode : cuMpSGEMM_compute_mode_t)
  : code_t :=
  let code := 0 in
  let code :=
    match compute_mode with
    | CUMPSGEMM_FP16TC =>
        Z.lor code (Z.lor (kernel_module_code.half K) (kernel_module_code.without_ec K))
    | CUMPSGEMM_FP16TCEC =>
        Z.lor code (Z.lor (kernel_module_code.half K) (kernel_module_code.with_ec K))
    | CUMPSGEMM_TF32TC =>
        Z.lor code (Z.lor (kernel_module_code.tf32 K) (kernel_module_code.without_ec K))
    | CUMPSGEMM_TF32TCEC =>
        Z.lor code (Z.lor (kernel_module_code.tf32 K) (kernel_module_code.with_ec K))
    | _ => code
    end in
  let code :=
    match op_A with
    | CUBLAS_OP_N => Z.lor code (kernel_module_code.op_a_col_major K)
    | CUBLAS_OP_T => Z.lor code (kernel_module_code.op_a_row_major K)
    | CUBLAS_OP_C => Z.lor code (kernel_module_code.op_a_conjugate K)
    | _ => code
    end in
  let code :=
    match op_B with
    | CUBLAS_OP_N => Z.lor code (kernel_module_code.op_b_col_major K)
    | CUBLAS_OP_T => Z.lor code (kernel_module_code.op_b_row_major K)
    | CUBLAS_OP_C => Z.lor code (kernel_module_code.op_b_conjugate K)
    | _ => code
    end in
  match T with
  | float_t => Z.lor code (kernel_module_code.s K)
  | cuComplex_t => Z.lor code (kernel_module_code.c K)
  end.

Definition gen_module_code_assert (K : kernel_module_code.constants) (code : code_t) : bool :=
  code <=? kernel_module_code.max_code K.

(** The signatures the public entry points pass on: the four tensor-core
    compute modes, the three cuBLAS operations, and no conjugation for
    [float] ([cuMpSGEMM_sgemm] and [cuMpSGEMM_sgemm_strided_batch] assert
    [op_A != CUBLAS_OP_C] and [op_B != CUBLAS_OP_C]). *)
Definition valid_compute_mode (compute_mode : cuMpSGEMM_compute_mode_t) : bool :=
  match compute_mode with
  | CUMPSGEMM_FP16TC | CUMPSGEMM_FP16TCEC | CUMPSGEMM_TF32TC | CUMPSGEMM_TF32TCEC => true
  | _ => false
  end.

Definition valid_op (T : element_t) (op : cublasOperation_t) : bool :=
  match op, T with
  | CUBLAS_OP_N, _ | CUBLAS_OP_T, _ => true
  | CUBLAS_OP_C, cuComplex_t => true
  | _, _ => false
  end.

Definition valid_signature (T : element_t) (op_A op_B : cublasOperation_t)
    (compute_mode : cuMpSGEMM_compute_mode_t) : bool :=
  valid_op T op_A && valid_op T op_B && valid_compute_mode compute_mode.

Definition signature : Type :=
  element_t * cublasOperation_t * cublasOperation_t * cuMpSGEMM_compute_mode_t.

Definition signature_code (K : kernel_module_code.constants) (sg : signature) : code_t :=
  let '(T, op_A, op_B, compute_mode) := sg in gen_module_code K T op_A op_B compute_mode.

Definition signature_valid (sg : signature) : bool :=
  let '(T, op_A, op_B, compute_mode) := sg in valid_signature T op_A op_B compute_mode.

Definition all_signatures : list signature :=
  T ← [float_t; cuComplex_t];
  op_A ← [CUBLAS_OP_N; CUBLAS_OP_T; CUBLAS_OP_C; CUBLAS_OP_CONJG];
  op_B ← [CUBLAS_OP_N; CUBLAS_OP_T; CUBLAS_OP_C; CUBLAS_OP_CONJG];
  compute_mode ← [CUMPSGEMM_CUBLAS; CUMPSGEMM_FP16TCEC; CUMPSGEMM_TF32TCEC;
                  CUMPSGEMM_FP16TC; CUMPSGEMM_TF32TC; CUMPSGEMM_CUBLAS_SIMT;
                  CUMPSGEMM_CUBLAS_FP16TC; CUMPSGEMM_CUBLAS_TF32TC;
                  CUMPSGEMM_DRY_RUN; CUMPSGEMM_AUTO];
  [(T, op_A, op_B, compute_mode)].

Definition valid_signatures : list signature :=
  filter (fun sg => signature_valid sg = true) all_signatures.

(** ** Kernel modules, stream operations and the handle *)

Module cumpsgemm.
(** [struct gemm_module], restricted to the members handle.cu reads. *)
Record gemm_module := {
  kernel_func : Z;
  smem_m : Z;
  smem_n : Z;
  smem_size : Z;
  block_size : Z
}.
End cumpsgemm.

(** A value of the element type [T]: [float], or [cuComplex] as a pair. *)
Inductive scalar :=
| real (x : spec_float)
| complex (re im : spec_float).

(** The argument list of [kernel_ptr<<<...>>>(...)] common to both
    [launch_kernel] overloads. *)
Record kernel_args := {
  arg_m : Z; arg_n : Z; arg_k : Z;
  arg_alpha : scalar;
  arg_a_ptr : Z; arg_lda : Z;
  arg_b_ptr : Z; arg_ldb : Z;
  arg_beta : scalar;
  arg_c_ptr : Z; arg_ldc : Z;
  arg_ignore_threshold : spec_float;
  arg_lost_threshold : spec_float;
  arg_total_counter : option Z;
  arg_lost_counter : option Z
}.

(** What gets enqueued on [handle->cuda_stream]. *)
Inductive stream_op :=
| gemm_kernel (T : element_t) (func grid_size block_size smem_size : Z) (args : kernel_args)
| gemm_stridedBatch_kernel (T : element_t) (func grid_size block_size smem_size : Z)
    (args : kernel_args) (stridea strideb stridec num_blocks_per_gemm : Z)
| init_counter_op (buffer_id : Z)
| download_exp_stats_op (buffer_id : Z).

Definition is_gemm_kernel (o : stream_op) : bool :=
  match o with gemm_kernel _ _ _ _ _ _ => true | _ => false end.

Definition is_gemm_stridedBatch_kernel (o : stream_op) : bool :=
  match o with gemm_stridedBatch_kernel _ _ _ _ _ _ _ _ _ _ => true | _ => false end.

Definition is_kernel (o : stream_op) : bool :=
  is_gemm_kernel o || is_gemm_stridedBatch_kernel o.

(** [struct cuMpSGEMM_handle], restricted to the members handle.cu touches.
    The two module tables are indexed by [(code, stage)]; a slot that was
    never written has no entry.  [current_buffer_id] and [buffer_length]
    are the state of the exp_stats ring (see below), and [cuda_stream] is
    the sequence of operations issued on the stream so far, oldest first.
    handle.hpp is not among the sources; the integer members are taken as
    [unsigned], like the locals of handle.cu. *)
Record cuMpSGEMM_handle := {
  gemm_module : gmap (Z * nat) cumpsgemm.gemm_module;
  gemm_stridedBatch_module : gmap (Z * nat) cumpsgemm.gemm_module;
  num_kernel_candidates : Z;
  num_sms : Z;
  exp_stats_enabled : bool;
  counter_init_disabled : bool;
  dev_total_counter_buffer : Z;
  dev_lost_counter_buffer : Z;
  ignore_threshold : spec_float;
  lost_threshold : spec_float;
  current_buffer_id : Z;
  buffer_length : Z;
  cuda_stream : list stream_op
}.

(** A [cuMpSGEMM_handle_t] is a pointer to a handle; [None] is [nullptr]. *)
Definition cuMpSGEMM_handle_t : Type := option cuMpSGEMM_handle.

Definition set_gemm_module (f : gmap (Z * nat) cumpsgemm.gemm_module -> gmap (Z * nat) cumpsgemm.gemm_module)
    (h : cuMpSGEMM_handle) : cuMpSGEMM_handle :=
  {| gemm_module := f (gemm_module h);
     gemm_stridedBatch_module := gemm_stridedBatch_module h;
     num_kernel_candidates := num_kernel_candidates h;
     num_sms := num_sms h;
     exp_stats_enabled := exp_stats_enabled h;
     counter_init_disabled := counter_init_disabled h;
     dev_total_counter_buffer := dev_total_counter_buffer h;
     dev_lost_counter_buffer := dev_lost_counter_buffer h;
     ignore_threshold := ignore_threshold h;
     lost_threshold := lost_threshold h;
     current_buffer_id := current_buffer_id h;
     buffer_length := buffer_length h;
     cuda_stream := cuda_stream h |}.

Definition set_gemm_stridedBatch_module
    (f : gmap (Z * nat) cumpsgemm.gemm_module -> gmap (Z * nat) cumpsgemm.gemm_module)
    (h : cuMpSGEMM_handle) : cuMpSGEMM_handle :=
  {| gemm_module := gemm_module h;
     gemm_stridedBatch_module := f (gemm_stridedBatch_module h);
     num_kernel_candidates := num_kernel_candidates h;
     num_sms := num_sms h;
     exp_stats_enabled := exp_stats_enabled h;
     counter_init_disabled := counter_init_disabled h;
     dev_total_counter_buffer := dev_total_counter_buffer h;
     dev_lost_counter_buffer := dev_lost_counter_buffer h;
     ignore_threshold := ignore_threshold h;
     lost_threshold := lost_threshold h;
     current_buffer_id := current_buffer_id h;
     buffer_length := buffer_length h;
     cuda_stream := cuda_stream h |}.

Definition set_counter_init_disabled (v : bool) (h : cuMpSGEMM_handle) : cuMpSGEMM_handle :=
  {| gemm_module := gemm_module h;
     gemm_stridedBatch_module := gemm_stridedBatch_module h;
     num_kernel_candidates := num_kernel_candidates h;
     num_sms := num_sms h;
     exp_stats_enabled := exp_stats_enabled h;
     counter_init_disabled := v;
     dev_total_counter_buffer := dev_total_counter_buffer h;
     dev_lost_counter_buffer := dev_lost_counter_buffer h;
     ignore_threshold := ignore_threshold h;
     lost_threshold := lost_threshold h;
     current_buffer_id := current_buffer_id h;
     buffer_length := buffer_length h;
     cuda_stream := cuda_stream h |}.

Definition set_current_buffer_id (v : Z) (h : cuMpSGEMM_handle) : cuMpSGEMM_handle :=
  {| gemm_module := gemm_module h;
     gemm_stridedBatch_module := gemm_stridedBatch_module h;
     num_kernel_candidates := num_kernel_candidates h;
     num_sms := num_sms h;
     exp_stats_enabled := exp_stats_enabled h;
     counter_init_disabled := counter_init_disabled h;
     dev_total_counter_buffer := dev_total_counter_buffer h;
     dev_lost_counter_buffer := dev_lost_counter_buffer h;
     ignore_threshold := ignore_threshold h;
     lost_threshold := lost_threshold h;
     current_buffer_id := v;
     buffer_length := buffer_length h;
     cuda_stream := cuda_stream h |}.

(** Issue one operation on [handle->cuda_stream]. *)
Definition enqueue (o : stream_op) (h : cuMpSGEMM_handle) : cuMpSGEMM_handle :=
  {| gemm_module := gemm_module h;
     gemm_stridedBatch_module := gemm_stridedBatch_module h;
     num_kernel_candidates := num_kernel_candidates h;
     num_sms := num_sms h;
     exp_stats_enabled := exp_stats_enabled h;
     counter_init_disabled := counter_init_disabled h;
     dev_total_counter_buffer := dev_total_counter_buffer h;
     dev_lost_counter_buffer := dev_lost_counter_buffer h;
     ignore_threshold := ignore_threshold h;
     lost_threshold := lost_threshold h;
     current_buffer_id := current_buffer_id h;
     buffer_length := buffer_length h;
     cuda_stream := cuda_stream h ++ [o] |}.

(** ** The exp_stats ring

    exp_stats.hpp and its implementation are not among the sources. *)
Module exp_stats.
(** Modelled from the spec: [cumpsgemm::exp_stats::get_next_buffer_id],
    "advance() -> slot_id (monotonic, wrapping cursor)". *)
Definition get_next_buffer_id (h : cuMpSGEMM_handle) : cuMpSGEMM_handle :=
  set_current_buffer_id ((current_buffer_id h + 1) mod buffer_length h) h.

(** Modelled from the spec: [cumpsgemm::exp_stats::get_current_buffer_id],
    the slot the cursor is at. *)
Definition get_current_buffer_id (h : cuMpSGEMM_handle) : Z :=
  current_buffer_id h.

(** Modelled from the spec: [cumpsgemm::exp_stats::init_counter],
    "zero(slot_id)", issued on the handle's stream. *)
Definition init_counter (h : cuMpSGEMM_handle) (buffer_id : Z) : cuMpSGEMM_handle :=
  enqueue (init_counter_op buffer_id) h.

(** Modelled from the spec: [cumpsgemm::exp_stats::download_exp_stats], the
    "download" step that makes the slot's values visible for a later
    host-side read. *)
Definition download_exp_stats (h : cuMpSGEMM_handle) (buffer_id : Z) : cuMpSGEMM_handle :=
  enqueue (download_exp_stats_op buffer_id) h.
End exp_stats.

(** ** Handle creation *)

(** The first macro argument: the table of the new handle that is written. *)
Inductive module_list_t :=
| handle_gemm_module
| handle_gemm_stridedBatch_module.

(** One invocation of a registration macro, with the macro's arguments in
    the macro's order: [module_list], [io_t], [tc_t], [ec], [op_a], [op_b],
    [smem_m], [smem_n], [smem_k], [frag_m], [frag_n], [frag_k],
    [block_size], [gemm_type], [stage]. *)
Inductive registration :=
| SET_GEMM_KERNEL_MODULE (module_list : module_list_t) (io_t : element_t)
    (tc : tc_t) (ec : ec_t) (op_a op_b : op_t)
    (smem_m smem_n smem_k frag_m frag_n frag_k block_size : Z)
    (gt : gemm_type) (stage : nat)
| SET_GEMM_STRIDEDBATCH_KERNEL_MODULE (module_list : module_list_t) (io_t : element_t)
    (tc : tc_t) (ec : ec_t) (op_a op_b : op_t)
    (smem_m smem_n smem_k frag_m frag_n frag_k block_size : Z)
    (gt : gemm_type) (stage : nat).

(** The template arguments of [generate_gemm_module] and
    [generate_gemm_stridedBatch_module]. *)
Record module_template := {
  tpl_io_t : element_t;
  tpl_smem_m : Z; tpl_smem_n : Z; tpl_smem_k : Z;
  tpl_frag_m : Z; tpl_frag_n : Z; tpl_frag_k : Z;
  tpl_block_size : Z;
  tpl_op_a : op_t; tpl_op_b : op_t;
  tpl_tc : tc_t; tpl_ec : ec_t
}.

(** The two module generators live in cumpsgemm_kernel.cuh, which is not
    among the sources; creation takes them as parameters. *)
Record module_generators := {
  generate_gemm_module : module_template -> cumpsgemm.gemm_module;
  generate_gemm_stridedBatch_module : module_template -> cumpsgemm.gemm_module
}.

(** The index expression of both macros,
    [tc_t | ec | op_a_##op_a | op_b_##op_b | gemm_type]. *)
Definition macro_code (K : kernel_module_code.constants)
    (tc : tc_t) (ec : ec_t) (op_a op_b : op_t) (gt : gemm_type) : code_t :=
  Z.lor (Z.lor (Z.lor (Z.lor (tc_code K tc) (ec_code K ec)) (op_a_code K op_a))
               (op_b_code K op_b))
        (gemm_type_code K gt).

Definition store_module (module_list : module_list_t) (key : Z * nat)
    (m : cumpsgemm.gemm_module) (h : cuMpSGEMM_handle) : cuMpSGEMM_handle :=
  match module_list with
  | handle_gemm_module => set_gemm_module (insert key m) h
  | handle_gemm_stridedBatch_module => set_gemm_stridedBatch_module (insert key m) h
  end.

(** Expansion of one macro invocation: [module_list[code][stage] = generate...<...>()]. *)
Definition register (K : kernel_module_code.constants) (G : module_generators)
    (r : registration) (h : cuMpSGEMM_handle) : cuMpSGEMM_handle :=
  match r with
  | SET_GEMM_KERNEL_MODULE module_list io_t tc ec op_a op_b
      smem_m smem_n smem_k frag_m frag_n frag_k block_size gt stage =>
      store_module module_list (macro_code K tc ec op_a op_b gt, stage)
        (generate_gemm_module G
           {| tpl_io_t := io_t; tpl_smem_m := smem_m; tpl_smem_n := smem_n;
              tpl_smem_k := smem_k; tpl_frag_m := frag_m; tpl_frag_n := frag_n;
              tpl_frag_k := frag_k; tpl_block_size := block_size;
              tpl_op_a := op_a; tpl_op_b := op_b; tpl_tc := tc; tpl_ec := ec |}) h
  | SET_GEMM_STRIDEDBATCH_KERNEL_MODULE module_list io_t tc ec op_a op_b
      smem_m smem_n smem_k frag_m frag_n frag_k block_size gt stage =>
      store_module module_list (macro_code K tc ec op_a op_b gt, stage)
        (generate_gemm_stridedBatch_module G
           {| tpl_io_t := io_t; tpl_smem_m := smem_m; tpl_smem_n := smem_n;
              tpl_smem_k := smem_k; tpl_frag_m := frag_m; tpl_frag_n := frag_n;
              tpl_frag_k := frag_k; tpl_block_size := block_size;
              tpl_op_a := op_a; tpl_op_b := op_b; tpl_tc := tc; tpl_ec := ec |}) h
  end.

(** The body of [cuMpSGEMM_create] below [// set kernel modules], in source
    order. *)
Definition kernel_module_registrations : list registration := [
  SET_GEMM_KERNEL_MODULE handle_gemm_module float_t     half with_ec    col_major col_major 64 64 32 32 32 16 128 s 0;
  SET_GEMM_KERNEL_MODULE handle_gemm_module float_t     half with_ec    col_major col_major 64 64 32 32 32 16 128 s 1;
  SET_GEMM_KERNEL_MODULE handle_gemm_module float_t     tf32 with_ec    col_major col_major 64 64 32 32 32 16 128 s 0;
  SET_GEMM_KERNEL_MODULE handle_gemm_module float_t     tf32 with_ec    col_major col_major 64 64 32 32 32 16 128 s 1;
  SET_GEMM_KERNEL_MODULE handle_gemm_module float_t     half without_ec col_major col_major 64 64 32 32 32 16 128 s 0;
  SET_GEMM_KERNEL_MODULE handle_gemm_module float_t     half without_ec col_major col_major 64 64 32 32 32 16 128 s 1;
  SET_GEMM_KERNEL_MODULE handle_gemm_module float_t     tf32 without_ec col_major col_major 64 64 32 32 32 16 128 s 0;
  SET_GEMM_KERNEL_MODULE handle_gemm_module float_t     tf32 without_ec col_major col_major 64 64 32 32 32 16 128 s 1;
  SET_GEMM_KERNEL_MODULE handle_gemm_module float_t     half with_ec    row_major col_major 64 64 32 32 32 16 128 s 0;
  SET_GEMM_KERNEL_MODULE handle_gemm_module float_t     half with_ec    row_major col_major 64 64 32 32 32 16 128 s 1;
  SET_GEMM_KERNEL_MODULE handle_gemm_module float_t     tf32 with_ec    row_major col_major 64 64 32 32 32 16 128 s 0;
  SET_GEMM_KERNEL_MODULE handle_gemm_module float_t     tf32 with_ec    row_major col_major 64 64 32 32 32 16 128 s 1;
  SET_GEMM_KERNEL_MODULE handle_gemm_module float_t     half without_ec row_major col_major 64 64 32 32 32 16 128 s 0;
  SET_GEMM_KERNEL_MODULE handle_gemm_module float_t     half without_ec row_major col_major 64 64 32 32 32 16 128 s 1;
  SET_GEMM_KERNEL_MODULE handle_gemm_module float_t     tf32 without_ec row_major col_major 64 64 32 32 32 16 128 s 0;
  SET_GEMM_KERNEL_MODULE handle_gemm_module float_t     tf32 without_ec row_major col_major 64 64 32 32 32 16 128 s 1;
  SET_GEMM_KERNEL_MODULE handle_gemm_module float_t     half with_ec    col_major row_major 64 64 32 32 32 16 128 s 0;
  SET_GEMM_KERNEL_MODULE handle_gemm_module float_t     half with_ec    col_major row_major 64 64 32 32 32 16 128 s 1;
  SET_GEMM_KERNEL_MODULE handle_gemm_module float_t     tf32 with_ec    col_major row_major 64 64 32 32 32 16 128 s 0;
  SET_GEMM_KERNEL_MODULE handle_gemm_module float_t     tf32 with_ec    col_major row_major 64 64 32 32 32 16 128 s 1;
  SET_GEMM_KERNEL_MODULE handle_gemm_module float_t     half without_ec col_major row_major 64 64 32 32 32 16 128 s 0;
  SET_GEMM_KERNEL_MODULE handle_gemm_module float_t     half without_ec col_major row_major 64 64 32 32 32 16 128 s 1;
  SET_GEMM_KERNEL_MODULE handle_gemm_module float_t     tf32 without_ec col_major row_major 64 64 32 32 32 16 128 s 0;
  SET_GEMM_KERNEL_MODULE handle_gemm_module float_t     tf32 without_ec col_major row_major 64 64 32 32 32 16 128 s 1;
  SET_GEMM_KERNEL_MODULE handle_gemm_module float_t     half with_ec    row_major row_major 64 64 32 32 32 16 128 s 0;
  SET_GEMM_KERNEL_MODULE handle_gemm_module float_t     half with_ec    row_major row_major 64 64 32 32 32 16 128 s 1;
  SET_GEMM_KERNEL_MODULE handle_gemm_module float_t     tf32 with_ec    row_major row_major 64 64 32 32 32 16 128 s 0;
  SET_GEMM_KERNEL_MODULE handle_gemm_module float_t     tf32 with_ec    row_major row_major 64 64 32 32 32 16 128 s 1;
  SET_GEMM_KERNEL_MODULE handle_gemm_module float_t     half without_ec row_major row_major 64 64 32 32 32 16 128 s 0;
  SET_GEMM_KERNEL_MODULE handle_gemm_module float_t     half without_ec row_major row_major 64 64 32 32 32 16 128 s 1;
  SET_GEMM_KERNEL_MODULE handle_gemm_module float_t     tf32 without_ec row_major row_major 64 64 32 32 32 16 128 s 0;
  SET_GEMM_KERNEL_MODULE handle_gemm_module float_t     tf32 without_ec row_major row_major 64 64 32 32 32 16 128 s 1;
  SET_GEMM_KERNEL_MODULE handle_gemm_module cuComplex_t half with_ec    col_major col_major 64 64 32 32 32 16 128 c 0;
  SET_GEMM_KERNEL_MODULE handle_gemm_module cuComplex_t half with_ec    col_major col_major 64 64 32 32 32 16 128 c 1;
  SET_GEMM_KERNEL_MODULE handle_gemm_module cuComplex_t tf32 with_ec    col_major col_major 64 64 32 32 32 16 128 c 0;
  SET_GEMM_KERNEL_MODULE handle_gemm_module cuComplex_t tf32 with_ec    col_major col_major 64 64 32 32 32 16 128 c 1;
  SET_GEMM_KERNEL_MODULE handle_gemm_module cuComplex_t half without_ec col_major col_major 64 64 32 32 32 16 128 c 0;
  SET_GEMM_KERNEL_MODULE handle_gemm_module cuComplex_t half without_ec col_major col_major 64 64 32 32 32 16 128 c 1;
  SET_GEMM_KERNEL_MODULE handle_gemm_module cuComplex_t tf32 without_ec col_major col_major 64 64 32 32 32 16 128 c 0;
  SET_GEMM_KERNEL_MODULE handle_gemm_module cuComplex_t tf32 without_ec col_major col_major 64 64 32 32 32 16 128 c 1;
  SET_GEMM_KERNEL_MODULE handle_gemm_module cuComplex_t half with_ec    row_major col_major 64 64 32 32 32 16 128 c 0;
  SET_GEMM_KERNEL_MODULE handle_gemm_module cuComplex_t half with_ec    row_major col_major 64 64 32 32 32 16 128 c 1;
  SET_GEMM_KERNEL_MODULE handle_gemm_module cuComplex_t tf32 with_ec    row_major col_major 64 64 32 32 32 16 128 c 0;
  SET_GEMM_KERNEL_MODULE handle_gemm_module cuComplex_t tf32 with_ec    row_major col_major 64 64 32 32 32 16 128 c 1;
  SET_GEMM_KERNEL_MODULE handle_gemm_module cuComplex_t half without_ec row_major col_major 64 64 32 32 32 16 128 c 0;
  SET_GEMM_KERNEL_MODULE handle_gemm_module cuComplex_t half without_ec row_major col_major 64 64 32 32 32 16 128 c 1;
  SET_GEMM_KERNEL_MODULE handle_gemm_module cuComplex_t tf32 without_ec row_major col_major 64 64 32 32 32 16 128 c 0;
  SET_GEMM_KERNEL_MODULE handle_gemm_module cuComplex_t tf32 without_ec row_major col_major 64 64 32 32 32 16 128 c 1;
  SET_GEMM_KERNEL_MODULE handle_gemm_module cuComplex_t half with_ec    conjugate col_major 64 64 32 32 32 16 128 c 0;
  SET_GEMM_KERNEL_MODULE handle_gemm_module cuComplex_t half with_ec    conjugate col_major 64 64 32 32 32 16 128 c 1;
  SET_GEMM_KERNEL_MODULE handle_gemm_module cuComplex_t tf32 with_ec    conjugate col_major 64 64 32 32 32 16 128 c 0;
  SET_GEMM_KERNEL_MODULE handle_gemm_module cuComplex_t tf32 with_ec    conjugate col_major 64 64 32 32 32 16 128 c 1;
  SET_GEMM_KERNEL_MODULE handle_gemm_module cuComplex_t half without_ec conjugate col_major 64 64 32 32 32 16 128 c 0;
  SET_GEMM_KERNEL_MODULE handle_gemm_module cuComplex_t half without_ec conjugate col_major 64 64 32 32 32 16 128 c 1;
  SET_GEMM_KERNEL_MODULE handle_gemm_module cuComplex_t tf32 without_ec conjugate col_major 64 64 32 32 32 16 128 c 0;
  SET_GEMM_KERNEL_MODULE handle_gemm_module cuComplex_t tf32 without_ec conjugate col_major 64 64 32 32 32 16 128 c 1;
  SET_GEMM_KERNEL_MODULE handle_gemm_module cuComplex_t half with_ec    col_major row_major 64 64 32 32 32 16 128 c 0;
  SET_GEMM_KERNEL_MODULE handle_gemm_module cuComplex_t half with_ec    col_major row_major 64 64 32 32 32 16 128 c 1;
  SET_GEMM_KERNEL_MODULE handle_gemm_module cuComplex_t tf32 with_ec    col_major row_major 64 64 32 32 32 16 128 c 0;
  SET_GEMM_KERNEL_MODULE handle_gemm_module cuComplex_t tf32 with_ec    col_major row_major 64 64 32 32 32 16 128 c 1;
  SET_GEMM_KERNEL_MODULE handle_gemm_module cuComplex_t half without_ec col_major row_major 64 64 32 32 32 16 128 c 0;
  SET_GEMM_KERNEL_MODULE handle_gemm_module cuComplex_t half without_ec col_major row_major 64 64 32 32 32 16 128 c 1;
  SET_GEMM_KERNEL_MODULE handle_gemm_module cuComplex_t tf32 without_ec col_major row_major 64 64 32 32 32 16 128 c 0;
  SET_GEMM_KERNEL_MODULE handle_gemm_module cuComplex_t tf32 without_ec col_major row_major 64 64 32 32 32 16 128 c 1;
  SET_GEMM_KERNEL_MODULE handle_gemm_module cuComplex_t half with_ec    row_major row_major 64 64 32 32 32 16 128 c 0;
  SET_GEMM_KERNEL_MODULE handle_gemm_module cuComplex_t half with_ec    row_major row_major 64 64 32 32 32 16 128 c 1;
  SET_GEMM_KERNEL_MODULE handle_gemm_module cuComplex_t tf32 with_ec    row_major row_major 64 64 32 32 32 16 128 c 0;
  SET_GEMM_KERNEL_MODULE handle_gemm_module cuComplex_t tf32 with_ec    row_major row_major 64 64 32 32 32 16 128 c 1;
  SET_GEMM_KERNEL_MODULE handle_gemm_module cuComplex_t half without_ec row_major row_major 64 64 32 32 32 16 128 c 0;
  SET_GEMM_KERNEL_MODULE handle_gemm_module cuComplex_t half without_ec row_major row_major 64 64 32 32 32 16 128 c 1;
  SET_GEMM_KERNEL_MODULE handle_gemm_module cuComplex_t tf32 without_ec row_major row_major 64 64 32 32 32 16 128 c 0;
  SET_GEMM_KERNEL_MODULE handle_gemm_module cuComplex_t tf32 without_ec row_major row_major 64 64 32 32 32 16 128 c 1;
  SET_GEMM_KERNEL_MODULE handle_gemm_module cuComplex_t half with_ec    conjugate row_major 64 64 32 32 32 16 128 c 0;
  SET_GEMM_KERNEL_MODULE handle_gemm_module cuComplex_t half with_ec    conjugate row_major 64 64 32 32 32 16 128 c 1;
  SET_GEMM_KERNEL_MODULE handle_gemm_module cuComplex_t tf32 with_ec    conjugate row_major 64 64 32 32 32 16 128 c 0;
  SET_GEMM_KERNEL_MODULE handle_gemm_module cuComplex_t tf32 with_ec    conjugate row_major 64 64 32 32 32 16 128 c 1;
  SET_GEMM_KERNEL_MODULE handle_gemm_module cuComplex_t half without_ec conjugate row_major 64 64 32 32 32 16 128 c 0;
  SET_GEMM_KERNEL_MODULE handle_gemm_module cuComplex_t half without_ec conjugate row_major 64 64 32 32 32 16 128 c 1;
  SET_GEMM_KERNEL_MODULE handle_gemm_module cuComplex_t tf32 without_ec conjugate row_major 64 64 32 32 32 16 128 c 0;
  SET_GEMM_KERNEL_MODULE handle_gemm_module cuComplex_t tf32 without_ec conjugate row_major 64 64 32 32 32 16 128 c 1;
  SET_GEMM_KERNEL_MODULE handle_gemm_module cuComplex_t half with_ec    col_major conjugate 64 64 32 32 32 16 128 c 0;
  SET_GEMM_KERNEL_MODULE handle_gemm_module cuComplex_t half with_ec    col_major conjugate 64 64 32 32 32 16 128 c 1;
  SET_GEMM_KERNEL_MODULE handle_gemm_module cuComplex_t tf32 with_ec    col_major conjugate 64 64 32 32 32 16 128 c 0;
  SET_GEMM_KERNEL_MODULE handle_gemm_module cuComplex_t tf32 with_ec    col_major conjugate 64 64 32 32 32 16 128 c 1;
  SET_GEMM_KERNEL_MODULE handle_gemm_module cuComplex_t half without_ec col_major conjugate 64 64 32 32 32 16 128 c 0;
  SET_GEMM_KERNEL_MODULE handle_gemm_module cuComplex_t half without_ec col_major conjugate 64 64 32 32 32 16 128 c 1;
  SET_GEMM_KERNEL_MODULE handle_gemm_module cuComplex_t tf32 without_ec col_major conjugate 64 64 32 32 32 16 128 c 0;
  SET_GEMM_KERNEL_MODULE handle_gemm_module cuComplex_t tf32 without_ec col_major conjugate 64 64 32 32 32 16 128 c 1;
  SET_GEMM_KERNEL_MODULE handle_gemm_module cuComplex_t half with_ec    row_major conjugate 64 64 32 32 32 16 128 c 0;
  SET_GEMM_KERNEL_MODULE handle_gemm_module cuComplex_t half with_ec    row_major conjugate 64 64 32 32 32 16 128 c 1;
  SET_GEMM_KERNEL_MODULE handle_gemm_module cuComplex_t tf32 with_ec    row_major conjugate 64 64 32 32 32 16 128 c 0;
  SET_GEMM_KERNEL_MODULE handle_gemm_module cuComplex_t tf32 with_ec    row_major conjugate 64 64 32 32 32 16 128 c 1;
  SET_GEMM_KERNEL_MODULE handle_gemm_module cuComplex_t half without_ec row_major conjugate 64 64 32 32 32 16 128 c 0;
  SET_GEMM_KERNEL_MODULE handle_gemm_module cuComplex_t half without_ec row_major conjugate 64 64 32 32 32 16 128 c 1;
  SET_GEMM_KERNEL_MODULE handle_gemm_module cuComplex_t tf32 without_ec row_major conjugate 64 64 32 32 32 16 128 c 0;
  SET_GEMM_KERNEL_MODULE handle_gemm_module cuComplex_t tf32 without_ec row_major conjugate 64 64 32 32 32 16 128 c 1;
  SET_GEMM_KERNEL_MODULE handle_gemm_module cuComplex_t half with_ec    conjugate conjugate 64 64 32 32 32 16 128 c 0;
  SET_GEMM_KERNEL_MODULE handle_gemm_module cuComplex_t half with_ec    conjugate conjugate 64 64 32 32 32 16 128 c 1;
  SET_GEMM_KERNEL_MODULE handle_gemm_module cuComplex_t tf32 with_ec    conjugate conjugate 64 64 32 32 32 16 128 c 0;
  SET_GEMM_KERNEL_MODULE handle_gemm_module cuComplex_t tf32 with_ec    conjugate conjugate 64 64 32 32 32 16 128 c 1;
  SET_GEMM_KERNEL_MODULE handle_gemm_module cuComplex_t half without_ec conjugate conjugate 64 64 32 32 32 16 128 c 0;
  SET_GEMM_KERNEL_MODULE handle_gemm_module cuComplex_t half without_ec conjugate conjugate 64 64 32 32 32 16 128 c 1;
  SET_GEMM_KERNEL_MODULE handle_gemm_module cuComplex_t tf32 without_ec conjugate conjugate 64 64 32 32 32 16 128 c 0;
  SET_GEMM_KERNEL_MODULE handle_gemm_module cuComplex_t tf32 without_ec conjugate conjugate 64 64 32 32 32 16 128 c 1;
  SET_GEMM_STRIDEDBATCH_KERNEL_MODULE handle_gemm_stridedBatch_module float_t     half with_ec    col_major col_major 64 64 32 32 32 16 128 s 0;
  SET_GEMM_STRIDEDBATCH_KERNEL_MODULE handle_gemm_stridedBatch_module float_t     half with_ec    col_major col_major 64 64 32 32 32 16 128 s 1;
  SET_GEMM_STRIDEDBATCH_KERNEL_MODULE handle_gemm_stridedBatch_module float_t     tf32 with_ec    col_major col_major 64 64 32 32 32 16 128 s 0;
  SET_GEMM_STRIDEDBATCH_KERNEL_MODULE handle_gemm_stridedBatch_module float_t     tf32 with_ec    col_major col_major 64 64 32 32 32 16 128 s 1;
  SET_GEMM_STRIDEDBATCH_KERNEL_MODULE handle_gemm_stridedBatch_module float_t     half without_ec col_major col_major 64 64 32 32 32 16 128 s 0;
  SET_GEMM_STRIDEDBATCH_KERNEL_MODULE handle_gemm_stridedBatch_module float_t     half without_ec col_major col_major 64 64 32 32 32 16 128 s 1;
  SET_GEMM_STRIDEDBATCH_KERNEL_MODULE handle_gemm_stridedBatch_module float_t     tf32 without_ec col_major col_major 64 64 32 32 32 16 128 s 0;
  SET_GEMM_STRIDEDBATCH_KERNEL_MODULE handle_gemm_stridedBatch_module float_t     tf32 without_ec col_major col_major 64 64 32 32 32 16 128 s 1;
  SET_GEMM_STRIDEDBATCH_KERNEL_MODULE handle_gemm_stridedBatch_module float_t     half with_ec    row_major col_major 64 64 32 32 32 16 128 s 0;
  SET_GEMM_STRIDEDBATCH_KERNEL_MODULE handle_gemm_stridedBatch_module float_t     half with_ec    row_major col_major 64 64 32 32 32 16 128 s 1;
  SET_GEMM_STRIDEDBATCH_KERNEL_MODULE handle_gemm_stridedBatch_module float_t     tf32 with_ec    row_major col_major 64 64 32 32 32 16 128 s 0;
  SET_GEMM_STRIDEDBATCH_KERNEL_MODULE handle_gemm_stridedBatch_module float_t     tf32 with_ec    row_major col_major 64 64 32 32 32 16 128 s 1;
  SET_GEMM_STRIDEDBATCH_KERNEL_MODULE handle_gemm_stridedBatch_module float_t     half without_ec row_major col_major 64 64 32 32 32 16 128 s 0;
  SET_GEMM_STRIDEDBATCH_KERNEL_MODULE handle_gemm_stridedBatch_module float_t     half without_ec row_major col_major 64 64 32 32 32 16 128 s 1;
  SET_GEMM_STRIDEDBATCH_KERNEL_MODULE handle_gemm_stridedBatch_module float_t     tf32 without_ec row_major col_major 64 64 32 32 32 16 128 s 0;
  SET_GEMM_STRIDEDBATCH_KERNEL_MODULE handle_gemm_stridedBatch_module float_t     tf32 without_ec row_major col_major 64 64 32 32 32 16 128 s 1;
  SET_GEMM_STRIDEDBATCH_KERNEL_MODULE handle_gemm_stridedBatch_module float_t     half with_ec    col_major row_major 64 64 32 32 32 16 128 s 0;
  SET_GEMM_STRIDEDBATCH_KERNEL_MODULE handle_gemm_stridedBatch_module float_t     half with_ec    col_major row_major 64 64 32 32 32 16 128 s 1;
  SET_GEMM_STRIDEDBATCH_KERNEL_MODULE handle_gemm_stridedBatch_module float_t     tf32 with_ec    col_major row_major 64 64 32 32 32 16 128 s 0;
  SET_GEMM_STRIDEDBATCH_KERNEL_MODULE handle_gemm_stridedBatch_module float_t     tf32 with_ec    col_major row_major 64 64 32 32 32 16 128 s 1;
  SET_GEMM_STRIDEDBATCH_KERNEL_MODULE handle_gemm_stridedBatch_module float_t     half without_ec col_major row_major 64 64 32 32 32 16 128 s 0;
  SET_GEMM_STRIDEDBATCH_KERNEL_MODULE handle_gemm_stridedBatch_module float_t     half without_ec col_major row_major 64 64 32 32 32 16 128 s 1;
  SET_GEMM_STRIDEDBATCH_KERNEL_MODULE handle_gemm_stridedBatch_module float_t     tf32 without_ec col_major row_major 64 64 32 32 32 16 128 s 0;
  SET_GEMM_STRIDEDBATCH_KERNEL_MODULE handle_gemm_stridedBatch_module float_t     tf32 without_ec col_major row_major 64 64 32 32 32 16 128 s 1;
  SET_GEMM_STRIDEDBATCH_KERNEL_MODULE handle_gemm_stridedBatch_module float_t     half with_ec    row_major row_major 64 64 32 32 32 16 128 s 0;
  SET_GEMM_STRIDEDBATCH_KERNEL_MODULE handle_gemm_stridedBatch_module float_t     half with_ec    row_major row_major 64 64 32 32 32 16 128 s 1;
  SET_GEMM_STRIDEDBATCH_KERNEL_MODULE handle_gemm_stridedBatch_module float_t     tf32 with_ec    row_major row_major 64 64 32 32 32 16 128 s 0;
  SET_GEMM_STRIDEDBATCH_KERNEL_MODULE handle_gemm_stridedBatch_module float_t     tf32 with_ec    row_major row_major 64 64 32 32 32 16 128 s 1;
  SET_GEMM_STRIDEDBATCH_KERNEL_MODULE handle_gemm_stridedBatch_module float_t     half without_ec row_major row_major 64 64 32 32 32 16 128 s 0;
  SET_GEMM_STRIDEDBATCH_KERNEL_MODULE handle_gemm_stridedBatch_module float_t     half without_ec row_major row_major 64 64 32 32 32 16 128 s 1;
  SET_GEMM_STRIDEDBATCH_KERNEL_MODULE handle_gemm_stridedBatch_module float_t     tf32 without_ec row_major row_major 64 64 32 32 32 16 128 s 0;
  SET_GEMM_STRIDEDBATCH_KERNEL_MODULE handle_gemm_stridedBatch_module float_t     tf32 without_ec row_major row_major 64 64 32 32 32 16 128 s 1;
  SET_GEMM_STRIDEDBATCH_KERNEL_MODULE handle_gemm_stridedBatch_module cuComplex_t half with_ec    col_major col_major 64 64 32 32 32 16 128 c 0;
  SET_GEMM_STRIDEDBATCH_KERNEL_MODULE handle_gemm_stridedBatch_module cuComplex_t half with_ec    col_major col_major 64 64 32 32 32 16 128 c 1;
  SET_GEMM_STRIDEDBATCH_KERNEL_MODULE handle_gemm_stridedBatch_module cuComplex_t tf32 with_ec    col_major col_major 64 64 32 32 32 16 128 c 0;
  SET_GEMM_STRIDEDBATCH_KERNEL_MODULE handle_gemm_stridedBatch_module cuComplex_t tf32 with_ec    col_major col_major 64 64 32 32 32 16 128 c 1;
  SET_GEMM_STRIDEDBATCH_KERNEL_MODULE handle_gemm_stridedBatch_module cuComplex_t half without_ec col_major col_major 64 64 32 32 32 16 128 c 0;
  SET_GEMM_STRIDEDBATCH_KERNEL_MODULE handle_gemm_stridedBatch_module cuComplex_t half without_ec col_major col_major 64 64 32 32 32 16 128 c 1;
  SET_GEMM_STRIDEDBATCH_KERNEL_MODULE handle_gemm_stridedBatch_module cuComplex_t tf32 without_ec col_major col_major 64 64 32 32 32 16 128 c 0;
  SET_GEMM_STRIDEDBATCH_KERNEL_MODULE handle_gemm_stridedBatch_module cuComplex_t tf32 without_ec col_major col_major 64 64 32 32 32 16 128 c 1;
  SET_GEMM_STRIDEDBATCH_KERNEL_MODULE handle_gemm_stridedBatch_module cuComplex_t half with_ec    row_major col_major 64 64 32 32 32 16 128 c 0;
  SET_GEMM_STRIDEDBATCH_KERNEL_MODULE handle_gemm_stridedBatch_module cuComplex_t half with_ec    row_major col_major 64 64 32 32 32 16 128 c 1;
  SET_GEMM_STRIDEDBATCH_KERNEL_MODULE handle_gemm_stridedBatch_module cuComplex_t tf32 with_ec    row_major col_major 64 64 32 32 32 16 128 c 0;
  SET_GEMM_STRIDEDBATCH_KERNEL_MODULE handle_gemm_stridedBatch_module cuComplex_t tf32 with_ec    row_major col_major 64 64 32 32 32 16 128 c 1;
  SET_GEMM_STRIDEDBATCH_KERNEL_MODULE handle_gemm_stridedBatch_module cuComplex_t half without_ec row_major col_major 64 64 32 32 32 16 128 c 0;
  SET_GEMM_STRIDEDBATCH_KERNEL_MODULE handle_gemm_stridedBatch_module cuComplex_t half without_ec row_major col_major 64 64 32 32 32 16 128 c 1;
  SET_GEMM_STRIDEDBATCH_KERNEL_MODULE handle_gemm_stridedBatch_module cuComplex_t tf32 without_ec row_major col_major 64 64 32 32 32 16 128 c 0;
  SET_GEMM_STRIDEDBATCH_KERNEL_MODULE handle_gemm_stridedBatch_module cuComplex_t tf32 without_ec row_major col_major 64 64 32 32 32 16 128 c 1;
  SET_GEMM_STRIDEDBATCH_KERNEL_MODULE handle_gemm_stridedBatch_module cuComplex_t half with_ec    conjugate col_major 64 64 32 32 32 16 128 c 0;
  SET_GEMM_STRIDEDBATCH_KERNEL_MODULE handle_gemm_stridedBatch_module cuComplex_t half with_ec    conjugate col_major 64 64 32 32 32 16 128 c 1;
  SET_GEMM_STRIDEDBATCH_KERNEL_MODULE handle_gemm_stridedBatch_module cuComplex_t tf32 with_ec    conjugate col_major 64 64 32 32 32 16 128 c 0;
  SET_GEMM_STRIDEDBATCH_KERNEL_MODULE handle_gemm_stridedBatch_module cuComplex_t tf32 with_ec    conjugate col_major 64 64 32 32 32 16 128 c 1;
  SET_GEMM_STRIDEDBATCH_KERNEL_MODULE handle_gemm_stridedBatch_module cuComplex_t half without_ec conjugate col_major 64 64 32 32 32 16 128 c 0;
  SET_GEMM_STRIDEDBATCH_KERNEL_MODULE handle_gemm_stridedBatch_module cuComplex_t half without_ec conjugate col_major 64 64 32 32 32 16 128 c 1;
  SET_GEMM_STRIDEDBATCH_KERNEL_MODULE handle_gemm_stridedBatch_module cuComplex_t tf32 without_ec conjugate col_major 64 64 32 32 32 16 128 c 0;
  SET_GEMM_STRIDEDBATCH_KERNEL_MODULE handle_gemm_stridedBatch_module cuComplex_t tf32 without_ec conjugate col_major 64 64 32 32 32 16 128 c 1;
  SET_GEMM_STRIDEDBATCH_KERNEL_MODULE handle_gemm_stridedBatch_module cuComplex_t half with_ec    col_major row_major 64 64 32 32 32 16 128 c 0;
  SET_GEMM_STRIDEDBATCH_KERNEL_MODULE handle_gemm_stridedBatch_module cuComplex_t half with_ec    col_major row_major 64 64 32 32 32 16 128 c 1;
  SET_GEMM_STRIDEDBATCH_KERNEL_MODULE handle_gemm_stridedBatch_module cuComplex_t tf32 with_ec    col_major row_major 64 64 32 32 32 16 128 c 0;
  SET_GEMM_STRIDEDBATCH_KERNEL_MODULE handle_gemm_stridedBatch_module cuComplex_t tf32 with_ec    col_major row_major 64 64 32 32 32 16 128 c 1;
  SET_GEMM_STRIDEDBATCH_KERNEL_MODULE handle_gemm_stridedBatch_module cuComplex_t half without_ec col_major row_major 64 64 32 32 32 16 128 c 0;
  SET_GEMM_STRIDEDBATCH_KERNEL_MODULE handle_gemm_stridedBatch_module cuComplex_t half without_ec col_major row_major 64 64 32 32 32 16 128 c 1;
  SET_GEMM_STRIDEDBATCH_KERNEL_MODULE handle_gemm_stridedBatch_module cuComplex_t tf32 without_ec col_major row_major 64 64 32 32 32 16 128 c 0;
  SET_GEMM_STRIDEDBATCH_KERNEL_MODULE handle_gemm_stridedBatch_module cuComplex_t tf32 without_ec col_major row_major 64 64 32 32 32 16 128 c 1;
  SET_GEMM_STRIDEDBATCH_KERNEL_MODULE handle_gemm_stridedBatch_module cuComplex_t half with_ec    row_major row_major 64 64 32 32 32 16 128 c 0;
  SET_GEMM_STRIDEDBATCH_KERNEL_MODULE handle_gemm_stridedBatch_module cuComplex_t half with_ec    row_major row_major 64 64 32 32 32 16 128 c 1;
  SET_GEMM_STRIDEDBATCH_KERNEL_MODULE handle_gemm_stridedBatch_module cuComplex_t tf32 with_ec    row_major row_major 64 64 32 32 32 16 128 c 0;
  SET_GEMM_STRIDEDBATCH_KERNEL_MODULE handle_gemm_stridedBatch_module cuComplex_t tf32 with_ec    row_major row_major 64 64 32 32 32 16 128 c 1;
  SET_GEMM_STRIDEDBATCH_KERNEL_MODULE handle_gemm_stridedBatch_module cuComplex_t half without_ec row_major row_major 64 64 32 32 32 16 128 c 0;
  SET_GEMM_STRIDEDBATCH_KERNEL_MODULE handle_gemm_stridedBatch_module cuComplex_t half without_ec row_major row_major 64 64 32 32 32 16 128 c 1;
  SET_GEMM_STRIDEDBATCH_KERNEL_MODULE handle_gemm_stridedBatch_module cuComplex_t tf32 without_ec row_major row_major 64 64 32 32 32 16 128 c 0;
  SET_GEMM_STRIDEDBATCH_KERNEL_MODULE handle_gemm_stridedBatch_module cuComplex_t tf32 without_ec row_major row_major 64 64 32 32 32 16 128 c 1;
  SET_GEMM_STRIDEDBATCH_KERNEL_MODULE handle_gemm_stridedBatch_module cuComplex_t half with_ec    conjugate row_major 64 64 32 32 32 16 128 c 0;
  SET_GEMM_STRIDEDBATCH_KERNEL_MODULE handle_gemm_stridedBatch_module cuComplex_t half with_ec    conjugate row_major 64 64 32 32 32 16 128 c 1;
  SET_GEMM_STRIDEDBATCH_KERNEL_MODULE handle_gemm_stridedBatch_module cuComplex_t tf32 with_ec    conjugate row_major 64 64 32 32 32 16 128 c 0;
  SET_GEMM_STRIDEDBATCH_KERNEL_MODULE handle_gemm_stridedBatch_module cuComplex_t tf32 with_ec    conjugate row_major 64 64 32 32 32 16 128 c 1;
  SET_GEMM_STRIDEDBATCH_KERNEL_MODULE handle_gemm_stridedBatch_module cuComplex_t half without_ec conjugate row_major 64 64 32 32 32 16 128 c 0;
  SET_GEMM_STRIDEDBATCH_KERNEL_MODULE handle_gemm_stridedBatch_module cuComplex_t half without_ec conjugate row_major 64 64 32 32 32 16 128 c 1;
  SET_GEMM_STRIDEDBATCH_KERNEL_MODULE handle_gemm_stridedBatch_module cuComplex_t tf32 without_ec conjugate row_major 64 64 32 32 32 16 128 c 0;
  SET_GEMM_STRIDEDBATCH_KERNEL_MODULE handle_gemm_stridedBatch_module cuComplex_t tf32 without_ec conjugate row_major 64 64 32 32 32 16 128 c 1;
  SET_GEMM_STRIDEDBATCH_KERNEL_MODULE handle_gemm_stridedBatch_module cuComplex_t half with_ec    col_major conjugate 64 64 32 32 32 16 128 c 0;
  SET_GEMM_STRIDEDBATCH_KERNEL_MODULE handle_gemm_stridedBatch_module cuComplex_t half with_ec    col_major conjugate 64 64 32 32 32 16 128 c 1;
  SET_GEMM_STRIDEDBATCH_KERNEL_MODULE handle_gemm_stridedBatch_module cuComplex_t tf32 with_ec    col_major conjugate 64 64 32 32 32 16 128 c 0;
  SET_GEMM_STRIDEDBATCH_KERNEL_MODULE handle_gemm_stridedBatch_module cuComplex_t tf32 with_ec    col_major conjugate 64 64 32 32 32 16 128 c 1;
  SET_GEMM_STRIDEDBATCH_KERNEL_MODULE handle_gemm_stridedBatch_module cuComplex_t half without_ec col_major conjugate 64 64 32 32 32 16 128 c 0;
  SET_GEMM_STRIDEDBATCH_KERNEL_MODULE handle_gemm_stridedBatch_module cuComplex_t half without_ec col_major conjugate 64 64 32 32 32 16 128 c 1;
  SET_GEMM_STRIDEDBATCH_KERNEL_MODULE handle_gemm_stridedBatch_module cuComplex_t tf32 without_ec col_major conjugate 64 64 32 32 32 16 128 c 0;
  SET_GEMM_STRIDEDBATCH_KERNEL_MODULE handle_gemm_stridedBatch_module cuComplex_t tf32 without_ec col_major conjugate 64 64 32 32 32 16 128 c 1;
  SET_GEMM_STRIDEDBATCH_KERNEL_MODULE handle_gemm_stridedBatch_module cuComplex_t half with_ec    row_major conjugate 64 64 32 32 32 16 128 c 0;
  SET_GEMM_STRIDEDBATCH_KERNEL_MODULE handle_gemm_stridedBatch_module cuComplex_t half with_ec    row_major conjugate 64 64 32 32 32 16 128 c 1;
  SET_GEMM_STRIDEDBATCH_KERNEL_MODULE handle_gemm_stridedBatch_module cuComplex_t tf32 with_ec    row_major conjugate 64 64 32 32 32 16 128 c 0;
  SET_GEMM_STRIDEDBATCH_KERNEL_MODULE handle_gemm_stridedBatch_module cuComplex_t tf32 with_ec    row_major conjugate 64 64 32 32 32 16 128 c 1;
  SET_GEMM_STRIDEDBATCH_KERNEL_MODULE handle_gemm_stridedBatch_module cuComplex_t half without_ec row_major conjugate 64 64 32 32 32 16 128 c 0;
  SET_GEMM_STRIDEDBATCH_KERNEL_MODULE handle_gemm_stridedBatch_module cuComplex_t half without_ec row_major conjugate 64 64 32 32 32 16 128 c 1;
  SET_GEMM_STRIDEDBATCH_KERNEL_MODULE handle_gemm_stridedBatch_module cuComplex_t tf32 without_ec row_major conjugate 64 64 32 32 32 16 128 c 0;
  SET_GEMM_STRIDEDBATCH_KERNEL_MODULE handle_gemm_stridedBatch_module cuComplex_t tf32 without_ec row_major conjugate 64 64 32 32 32 16 128 c 1;
  SET_GEMM_STRIDEDBATCH_KERNEL_MODULE handle_gemm_stridedBatch_module cuComplex_t half with_ec    conjugate conjugate 64 64 32 32 32 16 128 c 0;
  SET_GEMM_STRIDEDBATCH_KERNEL_MODULE handle_gemm_stridedBatch_module cuComplex_t half with_ec    conjugate conjugate 64 64 32 32 32 16 128 c 1;
  SET_GEMM_STRIDEDBATCH_KERNEL_MODULE handle_gemm_stridedBatch_module cuComplex_t tf32 with_ec    conjugate conjugate 64 64 32 32 32 16 128 c 0;
  SET_GEMM_STRIDEDBATCH_KERNEL_MODULE handle_gemm_stridedBatch_module cuComplex_t tf32 with_ec    conjugate conjugate 64 64 32 32 32 16 128 c 1;
  SET_GEMM_STRIDEDBATCH_KERNEL_MODULE handle_gemm_stridedBatch_module cuComplex_t half without_ec conjugate conjugate 64 64 32 32 32 16 128 c 0;
  SET_GEMM_STRIDEDBATCH_KERNEL_MODULE handle_gemm_stridedBatch_module cuComplex_t half without_ec conjugate conjugate 64 64 32 32 32 16 128 c 1;
  SET_GEMM_STRIDEDBATCH_KERNEL_MODULE handle_gemm_stridedBatch_module cuComplex_t tf32 without_ec conjugate conjugate 64 64 32 32 32 16 128 c 0;
  SET_GEMM_STRIDEDBATCH_KERNEL_MODULE handle_gemm_stridedBatch_module cuComplex_t tf32 without_ec conjugate conjugate 64 64 32 32 32 16 128 c 1
].

(** What [new cuMpSGEMM_handle] can do: yield a default-initialised object
    (its members are whatever [obj] holds), or fail.  The allocation
    function of a plain new-expression reports failure by throwing
    [std::bad_alloc]; only a non-throwing allocation function makes the
    expression yield [nullptr]. *)
Inductive new_result :=
| new_object (obj : cuMpSGEMM_handle)
| new_nullptr
| new_bad_alloc.

(** How a call of [cuMpSGEMM_create] ends, with the final value of the
    caller's [*handle]. *)
Inductive create_result :=
| returned (status : cublasStatus_t) (handle : cuMpSGEMM_handle_t)
| thrown_bad_alloc (handle : cuMpSGEMM_handle_t).

(** [cuMpSGEMM_create(handle)]; [old] is the value of [*handle] on entry. *)
Definition cuMpSGEMM_create (K : kernel_module_code.constants) (G : module_generators)
    (alloc : new_result) (old : cuMpSGEMM_handle_t) : create_result :=
  match alloc with
  | new_bad_alloc => thrown_bad_alloc old
  | new_nullptr => returned CUBLAS_STATUS_INTERNAL_ERROR None
  | new_object obj =>
      returned CUBLAS_STATUS_SUCCESS
        (Some (foldl (fun h r => register K G r h) obj kernel_module_registrations))
  end.

(** [cuMpSGEMM_destroy(handle)]. *)
Definition cuMpSGEMM_destroy (handle : cuMpSGEMM_handle_t) : cublasStatus_t :=
  CUBLAS_STATUS_SUCCESS.

(** ** Launching *)

(** Unsigned division; dividing by zero is undefined. *)
Definition udiv (a b : Z) : option Z :=
  if b =? 0 then None else Some (a / b).

(** The argument of [dim3 grid_size(...)] in the non-batched overload,
    converted to the [unsigned] member of [dim3]. *)
Definition gemm_grid_size (gemm_module : cumpsgemm.gemm_module) (m n : Z) : option Z :=
  blocks_m ← udiv (u64 (m + cumpsgemm.smem_m gemm_module - 1)) (cumpsgemm.smem_m gemm_module);
  blocks_n ← udiv (u64 (n + cumpsgemm.smem_n gemm_module - 1)) (cumpsgemm.smem_n gemm_module);
  Some (u32 (u64 (blocks_m * blocks_n))).

(** [num_blocks_per_gemm] of the strided-batch overload.  The source writes
    it without inner parentheses, so it is
    [((m + smem_m - 1) / smem_m * (n + smem_n - 1)) / smem_n]. *)
Definition num_blocks_per_gemm (gemm_module : cumpsgemm.gemm_module) (m n : Z) : option Z :=
  blocks_m ← udiv (u64 (m + cumpsgemm.smem_m gemm_module - 1)) (cumpsgemm.smem_m gemm_module);
  udiv (u64 (blocks_m * u64 (n + cumpsgemm.smem_n gemm_module - 1)))
       (cumpsgemm.smem_n gemm_module).

(** [launch_kernel<T>], the non-batched overload. *)
Definition launch_kernel (T : element_t) (gemm_module : cumpsgemm.gemm_module)
    (m n k : Z) (alpha : scalar) (a_ptr lda b_ptr ldb : Z) (beta : scalar)
    (c_ptr ldc : Z) (ignore_threshold lost_threshold : spec_float)
    (total_counter lost_counter : option Z)
    (h : cuMpSGEMM_handle) : option cuMpSGEMM_handle :=
  let kernel_ptr := cumpsgemm.kernel_func gemm_module in
  let block_size := u32 (cumpsgemm.block_size gemm_module) in
  grid_size ← gemm_grid_size gemm_module m n;
  Some (enqueue
          (gemm_kernel T kernel_ptr grid_size block_size (cumpsgemm.smem_size gemm_module)
             (Build_kernel_args m n k alpha a_ptr lda b_ptr ldb beta c_ptr ldc
                ignore_threshold lost_threshold total_counter lost_counter))
          h).

(** [launch_kernel<T>], the strided-batch overload. *)
Definition launch_kernel_stridedBatch (T : element_t) (gemm_module : cumpsgemm.gemm_module)
    (m n k : Z) (alpha : scalar) (a_ptr lda stridea b_ptr ldb strideb : Z) (beta : scalar)
    (c_ptr ldc stridec : Z) (batch_count : Z)
    (ignore_threshold lost_threshold : spec_float)
    (total_counter lost_counter : option Z)
    (h : cuMpSGEMM_handle) : option cuMpSGEMM_handle :=
  let kernel_ptr := cumpsgemm.kernel_func gemm_module in
  let block_size := u32 (cumpsgemm.block_size gemm_module) in
  num_blocks ← num_blocks_per_gemm gemm_module m n;
  let grid_size := u32 (u64 (num_blocks * batch_count)) in
  Some (enqueue
          (gemm_stridedBatch_kernel T kernel_ptr grid_size block_size
             (cumpsgemm.smem_size gemm_module)
             (Build_kernel_args m n k alpha a_ptr lda b_ptr ldb beta c_ptr ldc
                ignore_threshold lost_threshold total_counter lost_counter)
             stridea strideb stridec num_blocks)
          h).

(** ** Variant selection *)

(** The [for (module_id = 0; module_id < num_kernel_candidates - 1; module_id++)]
    loop shared by [gemm] and [gemm_stridedBatch].  [remaining] counts the
    iterations left before the loop condition fails, [exceeds] is the
    condition of the [if] in the body, and [gemm_module] the variant chosen
    so far.  The result is the value of [module_id] after the loop together
    with the chosen variant. *)
Fixpoint select_loop (kernel_module_candidate_list : nat -> option cumpsgemm.gemm_module)
    (exceeds : cumpsgemm.gemm_module -> option bool)
    (remaining : nat) (module_id : nat) (gemm_module : cumpsgemm.gemm_module)
  : option (nat * cumpsgemm.gemm_module) :=
  match remaining with
  | O => Some (module_id, gemm_module)
  | S remaining' =>
      module ← kernel_module_candidate_list module_id;
      b ← exceeds module;
      if b : bool then Some (module_id, module)
      else select_loop kernel_module_candidate_list exceeds remaining' (S module_id) gemm_module
  end.

(** [m * n / (module.smem_m * module.smem_n)], the work-per-block estimate
    of the non-batched loop. *)
Definition gemm_work (m n : Z) (module : cumpsgemm.gemm_module) : option Z :=
  udiv (u64 (m * n)) (u32 (cumpsgemm.smem_m module * cumpsgemm.smem_n module)).

(** [m * n / (module.smem_m * module.smem_n) * batch_count], the estimate
    of the strided-batch loop. *)
Definition gemm_stridedBatch_work (m n batch_count : Z)
    (module : cumpsgemm.gemm_module) : option Z :=
  work ← gemm_work m n module;
  Some (u64 (work * batch_count)).

(** [handle->num_sms * 32]. *)
Definition occupancy_threshold (h : cuMpSGEMM_handle) : Z := u32 (num_sms h * 32).

(** [m * n / (module.smem_m * module.smem_n) > handle->num_sms * 32]. *)
Definition gemm_exceeds (h : cuMpSGEMM_handle) (m n : Z)
    (module : cumpsgemm.gemm_module) : option bool :=
  work ← gemm_work m n module;
  Some (occupancy_threshold h <? work).

(** [m * n / (module.smem_m * module.smem_n) * batch_count > handle->num_sms * 32]. *)
Definition gemm_stridedBatch_exceeds (h : cuMpSGEMM_handle) (m n batch_count : Z)
    (module : cumpsgemm.gemm_module) : option bool :=
  work ← gemm_stridedBatch_work m n batch_count module;
  Some (occupancy_threshold h <? work).

(** Lines 390-398 of handle.cu: the default is the variant at index
    [num_kernel_candidates - 1], then the loop. *)
Definition gemm_select (h : cuMpSGEMM_handle) (code : code_t) (m n : Z)
  : option (nat * cumpsgemm.gemm_module) :=
  let kernel_module_candidate_list := fun i : nat => gemm_module h !! (code, i) in
  let last := Z.to_nat (u32 (num_kernel_candidates h - 1)) in
  gemm_module ← kernel_module_candidate_list last;
  select_loop kernel_module_candidate_list (gemm_exceeds h m n) last 0%nat gemm_module.

(** Lines 486-494 of handle.cu. *)
Definition gemm_stridedBatch_select (h : cuMpSGEMM_handle) (code : code_t)
    (m n batch_count : Z) : option (nat * cumpsgemm.gemm_module) :=
  let kernel_module_candidate_list := fun i : nat => gemm_stridedBatch_module h !! (code, i) in
  let last := Z.to_nat (u32 (num_kernel_candidates h - 1)) in
  gemm_module ← kernel_module_candidate_list last;
  select_loop kernel_module_candidate_list (gemm_stridedBatch_exceeds h m n batch_count)
    last 0%nat gemm_module.

(** [if (used_kernel_modeule_id != nullptr) *used_kernel_modeule_id = module_id;]
    The out-parameter is [None] for [nullptr], else the pointee. *)
Definition report_module_id (used_kernel_modeule_id : option Z) (module_id : nat) : option Z :=
  match used_kernel_modeule_id with
  | Some _ => Some (Z.of_nat module_id)
  | None => None
  end.

(** ** [cumpsgemm::gemm] *)

Definition gemm (K : kernel_module_code.constants) (T : element_t)
    (handle : cuMpSGEMM_handle) (op_A op_B : cublasOperation_t)
    (m n k : Z) (alpha : scalar) (a_dmem_ptr lda b_dmem_ptr ldb : Z) (beta : scalar)
    (c_dmem_ptr ldc : Z) (compute_mode : cuMpSGEMM_compute_mode_t)
    (used_kernel_modeule_id : option Z)
  : option (cublasStatus_t * cuMpSGEMM_handle * option Z) :=
  let code := gen_module_code K T op_A op_B compute_mode in
  '(module_id, gemm_module) ← gemm_select handle code m n;
  let used_kernel_modeule_id := report_module_id used_kernel_modeule_id module_id in
  let '(handle, total_counter_ptr, lost_counter_ptr) :=
    if exp_stats_enabled handle then
      let handle :=
        if negb (counter_init_disabled handle)
        then exp_stats.get_next_buffer_id handle else handle in
      let buffer_id := exp_stats.get_current_buffer_id handle in
      let handle :=
        if negb (counter_init_disabled handle)
        then exp_stats.init_counter handle buffer_id else handle in
      (handle,
       Some (dev_total_counter_buffer handle + buffer_id),
       Some (dev_lost_counter_buffer handle + buffer_id))
    else (handle, None, None) in
  handle ← launch_kernel T gemm_module m n k alpha a_dmem_ptr lda b_dmem_ptr ldb beta
             c_dmem_ptr ldc (ignore_threshold handle) (lost_threshold handle)
             total_counter_ptr lost_counter_ptr handle;
  let handle :=
    if exp_stats_enabled handle
    then exp_stats.download_exp_stats handle (exp_stats.get_current_buffer_id handle)
    else handle in
  Some (CUBLAS_STATUS_SUCCESS, handle, used_kernel_modeule_id).

(** ** [cumpsgemm::gemm_stridedBatch] *)

(** The [for (i = 0; i < batch_count; i++)] loop of the decomposed path;
    [remaining] is [batch_count - i]. *)
Fixpoint gemm_stridedBatch_loop (K : kernel_module_code.constants) (T : element_t)
    (op_A op_B : cublasOperation_t)
    (m n k : Z) (alpha : scalar) (a_dmem_ptr lda stridea b_dmem_ptr ldb strideb : Z)
    (beta : scalar) (c_dmem_ptr ldc stridec : Z)
    (compute_mode : cuMpSGEMM_compute_mode_t)
    (remaining : nat) (i : Z)
    (handle : cuMpSGEMM_handle) (used_kernel_modeule_id : option Z)
  : option (cuMpSGEMM_handle * option Z) :=
  match remaining with
  | O => Some (handle, used_kernel_modeule_id)
  | S remaining' =>
      '(_, handle, used_kernel_modeule_id) ←
        gemm K T handle op_A op_B m n k alpha
          (a_dmem_ptr + u64 (i * stridea)) lda
          (b_dmem_ptr + u64 (i * strideb)) ldb
          beta
          (c_dmem_ptr + u64 (i * stridec)) ldc
          compute_mode used_kernel_modeule_id;
      let handle := set_counter_init_disabled true handle in
      gemm_stridedBatch_loop K T op_A op_B m n k alpha a_dmem_ptr lda stridea
        b_dmem_ptr ldb strideb beta c_dmem_ptr ldc stridec compute_mode
        remaining' (i + 1) handle used_kernel_modeule_id
  end.

Definition gemm_stridedBatch (K : kernel_module_code.constants) (T : element_t)
    (handle : cuMpSGEMM_handle) (op_A op_B : cublasOperation_t)
    (m n k : Z) (alpha : scalar) (a_dmem_ptr lda stridea b_dmem_ptr ldb strideb : Z)
    (beta : scalar) (c_dmem_ptr ldc stridec : Z) (batch_count : Z)
    (compute_mode : cuMpSGEMM_compute_mode_t)
    (used_kernel_modeule_id : option Z)
  : option (cublasStatus_t * cuMpSGEMM_handle * option Z) :=
  let code := gen_module_code K T op_A op_B compute_mode in
  if 2 ^ 24 <? u64 (m * n) then
    '(handle, used_kernel_modeule_id) ←
      gemm_stridedBatch_loop K T op_A op_B m n k alpha a_dmem_ptr lda stridea
        b_dmem_ptr ldb strideb beta c_dmem_ptr ldc stridec compute_mode
        (Z.to_nat batch_count) 0 handle used_kernel_modeule_id;
    let handle := set_counter_init_disabled false handle in
    Some (CUBLAS_STATUS_SUCCESS, handle, used_kernel_modeule_id)
  else
    '(module_id, gemm_module) ← gemm_stridedBatch_select handle code m n batch_count;
    let used_kernel_modeule_id := report_module_id used_kernel_modeule_id module_id in
    let '(handle, total_counter_ptr, lost_counter_ptr) :=
      if exp_stats_enabled handle then
        let handle := exp_stats.get_next_buffer_id handle in
        let buffer_id := exp_stats.get_current_buffer_id handle in
        let handle := exp_stats.init_counter handle buffer_id in
        (handle,
         Some (dev_total_counter_buffer handle + buffer_id),
         Some (dev_lost_counter_buffer handle + buffer_id))
      else (handle, None, None) in
    handle ← launch_kernel_stridedBatch T gemm_module m n k alpha
               a_dmem_ptr lda stridea b_dmem_ptr ldb strideb beta
               c_dmem_ptr ldc stridec batch_count
               (ignore_threshold handle) (lost_threshold handle)
               total_counter_ptr lost_counter_ptr handle;
    let handle :=
      if exp_stats_enabled handle
      then exp_stats.download_exp_stats handle (exp_stats.get_current_buffer_id handle)
      else handle in
    Some (CUBLAS_STATUS_SUCCESS, handle, used_kernel_modeule_id).

(** ** Control surface (python/src/main.cpp) *)

(** IEEE binary64 arithmetic, as far as main.cpp uses it. *)
Definition double : Type := spec_float.

(** [static_cast<double>(x)] of a [std::size_t], and the implicit
    conversion of the divisor. *)
Definition double_of_size_t (x : Z) : double := binary_normalize 53 1024 x 0 false.

Definition double_div (x y : double) : double := SFdiv 53 1024 x y.

(** The literal [0.]. *)
Definition double_zero : double := S754_zero false.

Module hijack_control.
(** The placeholder definition of [cumpsgemm::hijack_control::get_exp_stats]
    in main.cpp; the library that is preloaded at run time supplies the
    real one, so the wrappers below take the function as an argument. *)
Definition get_exp_stats (buffer_id : Z) : Z * Z := (1, 1).

(** The placeholder definition of
    [cumpsgemm::hijack_control::set_dynamic_launch_flag_buffer_by_exp_stats]
    in main.cpp: an empty body. *)
Definition set_dynamic_launch_flag_buffer_by_exp_stats {flags : Type}
    (exp_stats_buffer_A_id exp_stats_buffer_B_id dynamic_launch_flag_buffer_id : Z)
    (ratio_threshold : Q) (st : flags) : flags := st.
End hijack_control.

(** [get_lose_ratio(buffer_id)] of main.cpp. *)
Definition get_lose_ratio (get_exp_stats : Z -> Z * Z) (buffer_id : Z) : double :=
  let r := get_exp_stats buffer_id in
  let lose_count := r.1 in
  let total_count := r.2 in
  if 0 <? total_count
  then double_div (double_of_size_t lose_count) (double_of_size_t total_count)
  else double_zero.

(** [get_lost_rate()] of the earlier binding: the counts of all entries of
    [get_last_exp_stats()] are summed in [std::size_t] first. *)
Definition get_lost_rate (get_last_exp_stats : list (Z * Z)) : double :=
  let '(lost_count, total_count) :=
    foldl (fun '(lost_count, total_count) (es : Z * Z) =>
             let total_count := u64 (total_count + es.2) in
             let lost_count := u64 (lost_count + es.1) in
             (lost_count, total_count))
          (0, 0) get_last_exp_stats in
  if 0 <? total_count
  then double_div (double_of_size_t lost_count) (double_of_size_t total_count)
  else double_zero.

(** ** Dynamic launch flags

    hijack_control.hpp only declares
    [set_dynamic_launch_flag_buffer_by_exp_stats]; the definition that the
    library provides is not among the sources. *)
Module dynamic_launch.
(** The exact ratio [flagged / total] of a statistics slot, read as
    [(flagged, total)]. *)
Definition ratio (slot : Z * Z) : Q := inject_Z slot.1 / inject_Z slot.2.

(** [x > t] on ratios. *)
Definition exceeds (x t : Q) : bool := negb (Qle_bool x t).

(** Modelled from the spec: [set_dynamic_launch_flag_buffer_by_exp_stats],
    "sets the flag slot's boolean by comparing flagged/total of the two
    referenced statistics slots against ratio_threshold (flag set if either
    ratio exceeds the threshold)".  [exp_stats] reads a statistics slot,
    [flags] is the flag ring. *)
Definition set_dynamic_launch_flag_buffer_by_exp_stats (exp_stats : Z -> Z * Z)
    (exp_stats_buffer_A_id exp_stats_buffer_B_id dynamic_launch_flag_buffer_id : Z)
    (ratio_threshold : Q) (flags : gmap Z bool) : gmap Z bool :=
  <[dynamic_launch_flag_buffer_id :=
      exceeds (ratio (exp_stats exp_stats_buffer_A_id)) ratio_threshold
      || exceeds (ratio (exp_stats exp_stats_buffer_B_id)) ratio_threshold]> flags.
End dynamic_launch.

(** ** Specification-level definitions *)

(** The macro tokens that a signature of the public entry points selects. *)
Definition compute_mode_tc (compute_mode : cuMpSGEMM_compute_mode_t) : tc_t :=
  match compute_mode with
  | CUMPSGEMM_TF32TC | CUMPSGEMM_TF32TCEC => tf32
  | _ => half
  end.

Definition compute_mode_ec (compute_mode : cuMpSGEMM_compute_mode_t) : ec_t :=
  match compute_mode with
  | CUMPSGEMM_FP16TC | CUMPSGEMM_TF32TC => without_ec
  | _ => with_ec
  end.

Definition operation_layout (op : cublasOperation_t) : op_t :=
  match op with
  | CUBLAS_OP_N => col_major
  | CUBLAS_OP_T => row_major
  | _ => conjugate
  end.

Definition element_gemm_type (T : element_t) : gemm_type :=
  match T with float_t => s | cuComplex_t => c end.

(** The table and slot a macro invocation writes. *)
Definition registration_slot (K : kernel_module_code.constants) (r : registration)
  : module_list_t * (Z * nat) :=
  match r with
  | SET_GEMM_KERNEL_MODULE module_list _ tc ec op_a op_b _ _ _ _ _ _ _ gt stage
  | SET_GEMM_STRIDEDBATCH_KERNEL_MODULE module_list _ tc ec op_a op_b _ _ _ _ _ _ _ gt stage =>
      (module_list, (macro_code K tc ec op_a op_b gt, stage))
  end.

(** The macro invocation of [cuMpSGEMM_create] that serves a signature in
    a table at a stage. *)
Definition registration_for (module_list : module_list_t) (T : element_t)
    (op_A op_B : cublasOperation_t) (compute_mode : cuMpSGEMM_compute_mode_t)
    (stage : nat) : registration :=
  match module_list with
  | handle_gemm_module =>
      SET_GEMM_KERNEL_MODULE module_list T
        (compute_mode_tc compute_mode) (compute_mode_ec compute_mode)
        (operation_layout op_A) (operation_layout op_B)
        64 64 32 32 32 16 128 (element_gemm_type T) stage
  | handle_gemm_stridedBatch_module =>
      SET_GEMM_STRIDEDBATCH_KERNEL_MODULE module_list T
        (compute_mode_tc compute_mode) (compute_mode_ec compute_mode)
        (operation_layout op_A) (operation_layout op_B)
        64 64 32 32 32 16 128 (element_gemm_type T) stage
  end.

(** The table of a handle that a [module_list] argument denotes. *)
Definition table_of (module_list : module_list_t) (h : cuMpSGEMM_handle)
  : gmap (Z * nat) cumpsgemm.gemm_module :=
  match module_list with
  | handle_gemm_module => gemm_module h
  | handle_gemm_stridedBatch_module => gemm_stridedBatch_module h
  end.

#[global] Instance module_list_eq_dec : EqDecision module_list_t.
Proof. solve_decision. Defined.
#[global] Instance registration_eq_dec : EqDecision registration.
Proof. solve_decision. Defined.

(** The selection rule in the spec's words: stage [i] holds variant [g];
    no earlier stage has a work-per-block estimate above the threshold; and
    [i] is either the last stage (the default) or a stage before the last
    whose own estimate is strictly above the threshold. *)
Definition selected_by_rule (candidates : nat -> option cumpsgemm.gemm_module)
    (work : cumpsgemm.gemm_module -> option Z) (threshold : Z)
    (num_candidates : Z) (i : nat) (g : cumpsgemm.gemm_module) : Prop :=
  candidates i = Some g /\
  (forall j, (j < i)%nat ->
     exists gj wj, candidates j = Some gj /\ work gj = Some wj /\ wj <= threshold) /\
  (Z.of_nat i = num_candidates - 1 \/
   (Z.of_nat i < num_candidates - 1 /\ exists w, work g = Some w /\ threshold < w)).

(** Every stage of a signature's row holds a variant with non-zero tile
    sides whose 32-bit tile area is non-zero: what a call needs to avoid
    undefined behaviour. *)
Definition candidates_ok (table : gmap (Z * nat) cumpsgemm.gemm_module)
    (code : code_t) (num_candidates : Z) : Prop :=
  forall i : nat, Z.of_nat i < num_candidates ->
    exists g, table !! (code, i) = Some g /\
      cumpsgemm.smem_m g <> 0 /\ cumpsgemm.smem_n g <> 0 /\
      u32 (cumpsgemm.smem_m g * cumpsgemm.smem_n g) <> 0.

(** Whether a call of [gemm] on [h] moves the ring cursor and zeroes the
    slot, and the slot the call uses. *)
Definition gemm_advances (h : cuMpSGEMM_handle) : bool :=
  exp_stats_enabled h && negb (counter_init_disabled h).

Definition gemm_buffer_id (h : cuMpSGEMM_handle) : Z :=
  if gemm_advances h
  then (current_buffer_id h + 1) mod buffer_length h
  else current_buffer_id h.

(** The counter pointer handed to a kernel: the slot of the ring when
    statistics are collected, else [nullptr]. *)
Definition counter_ptr (h : cuMpSGEMM_handle) (base buffer_id : Z) : option Z :=
  if exp_stats_enabled h then Some (base + buffer_id) else None.

(** The launch of variant [g] by a non-batched call on [h] that uses
    statistics slot [buffer_id]. *)
Definition gemm_launch (T : element_t) (g : cumpsgemm.gemm_module) (grid_size : Z)
    (m n k : Z) (alpha : scalar) (a_ptr lda b_ptr ldb : Z) (beta : scalar)
    (c_ptr ldc : Z) (h : cuMpSGEMM_handle) (buffer_id : Z) : stream_op :=
  gemm_kernel T (cumpsgemm.kernel_func g) grid_size (u32 (cumpsgemm.block_size g))
    (cumpsgemm.smem_size g)
    (Build_kernel_args m n k alpha a_ptr lda b_ptr ldb beta c_ptr ldc
       (ignore_threshold h) (lost_threshold h)
       (counter_ptr h (dev_total_counter_buffer h) buffer_id)
       (counter_ptr h (dev_lost_counter_buffer h) buffer_id)).

(** The launch of variant [g] by a strided-batch call. *)
Definition gemm_stridedBatch_launch (T : element_t) (g : cumpsgemm.gemm_module)
    (num_blocks : Z)
    (m n k : Z) (alpha : scalar) (a_ptr lda stridea b_ptr ldb strideb : Z) (beta : scalar)
    (c_ptr ldc stridec batch_count : Z) (h : cuMpSGEMM_handle) (buffer_id : Z) : stream_op :=
  gemm_stridedBatch_kernel T (cumpsgemm.kernel_func g)
    (u32 (u64 (num_blocks * batch_count))) (u32 (cumpsgemm.block_size g))
    (cumpsgemm.smem_size g)
    (Build_kernel_args m n k alpha a_ptr lda b_ptr ldb beta c_ptr ldc
       (ignore_threshold h) (lost_threshold h)
       (counter_ptr h (dev_total_counter_buffer h) buffer_id)
       (counter_ptr h (dev_lost_counter_buffer h) buffer_id))
    stridea strideb stridec num_blocks.

(** [h] with the ring cursor at [buffer_id], the suppress-reinitialization
    flag at [disabled] and [ops] issued on its stream; nothing else
    changes. *)
Definition after (h : cuMpSGEMM_handle) (buffer_id : Z) (disabled : bool)
    (ops : list stream_op) : cuMpSGEMM_handle :=
  {| gemm_module := gemm_module h;
     gemm_stridedBatch_module := gemm_stridedBatch_module h;
     num_kernel_candidates := num_kernel_candidates h;
     num_sms := num_sms h;
     exp_stats_enabled := exp_stats_enabled h;
     counter_init_disabled := disabled;
     dev_total_counter_buffer := dev_total_counter_buffer h;
     dev_lost_counter_buffer := dev_lost_counter_buffer h;
     ignore_threshold := ignore_threshold h;
     lost_threshold := lost_threshold h;
     current_buffer_id := buffer_id;
     buffer_length := buffer_length h;
     cuda_stream := cuda_stream h ++ ops |}.

(** The slot a batched (not decomposed) call of [gemm_stridedBatch] uses:
    that path advances whenever statistics are collected. *)
Definition gemm_stridedBatch_buffer_id (h : cuMpSGEMM_handle) : Z :=
  if exp_stats_enabled h
  then (current_buffer_id h + 1) mod buffer_length h
  else current_buffer_id h.

(** What sub-call [j] of a decomposed batch issues after the optional
    zeroing: its launch, with the operand pointers stepped by [j] strides,
    and the download when statistics are collected. *)
Definition sub_call_ops (T : element_t) (g : cumpsgemm.gemm_module) (grid_size : Z)
    (m n k : Z) (alpha : scalar) (a_ptr lda stridea b_ptr ldb strideb : Z) (beta : scalar)
    (c_ptr ldc stridec : Z) (h : cuMpSGEMM_handle) (buffer_id : Z) (j : Z)
  : list stream_op :=
  gemm_launch T g grid_size m n k alpha
    (a_ptr + u64 (j * stridea)) lda (b_ptr + u64 (j * strideb)) ldb beta
    (c_ptr + u64 (j * stridec)) ldc h buffer_id
  :: (if exp_stats_enabled h then [download_exp_stats_op buffer_id] else []).

(** Everything a decomposed batch of [batch_count] sub-calls issues. *)
Definition decomposed_ops (T : element_t) (g : cumpsgemm.gemm_module) (grid_size : Z)
    (m n k : Z) (alpha : scalar) (a_ptr lda stridea b_ptr ldb strideb : Z) (beta : scalar)
    (c_ptr ldc stridec batch_count : Z) (h : cuMpSGEMM_handle) : list stream_op :=
  (if gemm_advances h then [init_counter_op (gemm_buffer_id h)] else []) ++
  concat (sub_call_ops T g grid_size m n k alpha a_ptr lda stridea b_ptr ldb strideb
            beta c_ptr ldc stridec h (gemm_buffer_id h) <$> seqZ 0 batch_count).


Definition is_init_counter (o : stream_op) : bool :=
  match o with init_counter_op _ => true | _ => false end.

(** ** A concrete configuration

    Used to run the definitions on concrete calls. *)
Module example.
(** Modelled from the spec: one assignment of disjoint bit-fields to the
    constants of [kernel_module_code] (handle.hpp is missing): bits 0-1
    operand A, bits 2-3 operand B, bit 4 the tensor-core type, bit 5 error
    correction, bit 6 the element kind. *)
Definition K : kernel_module_code.constants :=
  {| kernel_module_code.half := 0;
     kernel_module_code.tf32 := 16;
     kernel_module_code.with_ec := 0;
     kernel_module_code.without_ec := 32;
     kernel_module_code.op_a_col_major := 1;
     kernel_module_code.op_a_row_major := 2;
     kernel_module_code.op_a_conjugate := 3;
     kernel_module_code.op_b_col_major := 4;
     kernel_module_code.op_b_row_major := 8;
     kernel_module_code.op_b_conjugate := 12;
     kernel_module_code.s := 0;
     kernel_module_code.c := 64;
     kernel_module_code.max_code := 127 |}.

Definition M : code_masks :=
  {| mask_tc := 16; mask_ec := 32; mask_a := 3; mask_b := 12; mask_kind := 64 |}.

(** Modelled from the spec: a ModuleVariant carries its "tile shape",
    "thread-block size, required shared memory, and a launchable entry
    point" (cumpsgemm_kernel.cuh is missing).  The entry point is numbered
    by the batched flag, shared memory is one float per tile element of A
    and B. *)
Definition generate (batched : Z) (t : module_template) : cumpsgemm.gemm_module :=
  {| cumpsgemm.kernel_func := 4096 + batched;
     cumpsgemm.smem_m := tpl_smem_m t;
     cumpsgemm.smem_n := tpl_smem_n t;
     cumpsgemm.smem_size := 4 * (tpl_smem_m t + tpl_smem_n t) * tpl_smem_k t;
     cumpsgemm.block_size := tpl_block_size t |}.

Definition G : module_generators :=
  {| generate_gemm_module := generate 0;
     generate_gemm_stridedBatch_module := generate 1 |}.

(** A fresh object: empty tables, two candidates per signature, one
    multiprocessor, statistics on, a ring of four slots. *)
Definition fresh : cuMpSGEMM_handle :=
  {| gemm_module := ∅;
     gemm_stridedBatch_module := ∅;
     num_kernel_candidates := 2;
     num_sms := 1;
     exp_stats_enabled := true;
     counter_init_disabled := false;
     dev_total_counter_buffer := 1000;
     dev_lost_counter_buffer := 2000;
     ignore_threshold := S754_zero false;
     lost_threshold := S754_zero false;
     current_buffer_id := 0;
     buffer_length := 4;
     cuda_stream := [] |}.

Definition handle : cuMpSGEMM_handle :=
  foldl (fun h r => register K G r h) fresh kernel_module_registrations.

Definition one : scalar := real (binary_normalize 24 128 1 0 false).
Definition zero : scalar := real (S754_zero false).

(** [cumpsgemm::gemm<float>(handle, N, N, m, n, 8, &one, 0, m, 100, 8, &zero, 200, m,
    CUMPSGEMM_FP16TCEC, &id)]. *)
Definition sgemm (h : cuMpSGEMM_handle) (m n : Z) :=
  gemm K float_t h CUBLAS_OP_N CUBLAS_OP_N m n 8 one 0 m 100 8 zero 200 m
    CUMPSGEMM_FP16TCEC (Some 7).

(** The strided-batch counterpart, with strides 10, 20 and 30. *)
Definition sgemm_stridedBatch (h : cuMpSGEMM_handle) (m n batch_count : Z) :=
  gemm_stridedBatch K float_t h CUBLAS_OP_N CUBLAS_OP_N m n 8 one 0 m 10 100 8 20 zero
    200 m 30 batch_count CUMPSGEMM_FP16TCEC (Some 7).

Definition code : code_t := gen_module_code K float_t CUBLAS_OP_N CUBLAS_OP_N CUMPSGEMM_FP16TCEC.

(** The variant both stages of that signature's non-batched row hold. *)
Definition variant : cumpsgemm.gemm_module :=
  generate_gemm_module G
    (Build_module_template float_t 64 64 32 32 32 16 128 col_major col_major half with_ec).

(** The handle after [sgemm handle 64 2112]. *)
Definition after_sgemm : cuMpSGEMM_handle :=
  after handle 1 false
    [init_counter_op 1;
     gemm_launch float_t variant 33 64 2112 8 one 0 64 100 8 zero 200 64 handle 1;
     download_exp_stats_op 1].

(** The handle after [sgemm_stridedBatch handle 4096 4097 2], a decomposed
    batch of two. *)
Definition after_decomposed : cuMpSGEMM_handle :=
  after handle 1 false
    (decomposed_ops float_t variant 4160 4096 4097 8 one 0 4096 10 100 8 20 zero
       200 4096 30 2 handle).
End example.

(** ** Further concrete handles *)
Module cases.
(** [example.handle] with the suppress-reinitialization flag set. *)
Definition suppressed : cuMpSGEMM_handle :=
  set_counter_init_disabled true example.handle.

(** [example.handle] with statistics collection switched off. *)
Definition quiet : cuMpSGEMM_handle :=
  {| gemm_module := gemm_module example.handle;
     gemm_stridedBatch_module := gemm_stridedBatch_module example.handle;
     num_kernel_candidates := 2;
     num_sms := 1;
     exp_stats_enabled := false;
     counter_init_disabled := false;
     dev_total_counter_buffer := 1000;
     dev_lost_counter_buffer := 2000;
     ignore_threshold := S754_zero false;
     lost_threshold := S754_zero false;
     current_buffer_id := 0;
     buffer_length := 4;
     cuda_stream := [] |}.

(** [example.handle] with a single candidate per signature. *)
Definition single : cuMpSGEMM_handle :=
  {| gemm_module := gemm_module example.handle;
     gemm_stridedBatch_module := gemm_stridedBatch_module example.handle;
     num_kernel_candidates := 1;
     num_sms := 1;
     exp_stats_enabled := true;
     counter_init_disabled := false;
     dev_total_counter_buffer := 1000;
     dev_lost_counter_buffer := 2000;
     ignore_threshold := S754_zero false;
     lost_threshold := S754_zero false;
     current_buffer_id := 0;
     buffer_length := 4;
     cuda_stream := [] |}.

(** A fresh handle on a device with 132 multiprocessors, so that the
    occupancy threshold is 4224. *)
Definition wide : cuMpSGEMM_handle :=
  {| gemm_module := gemm_module example.handle;
     gemm_stridedBatch_module := gemm_stridedBatch_module example.handle;
     num_kernel_candidates := 2;
     num_sms := 132;
     exp_stats_enabled := true;
     counter_init_disabled := false;
     dev_total_counter_buffer := 1000;
     dev_lost_counter_buffer := 2000;
     ignore_threshold := S754_zero false;
     lost_threshold := S754_zero false;
     current_buffer_id := 0;
     buffer_length := 4;
     cuda_stream := [] |}.
End cases.

(** ** The reference residual of the test program (unnamed/part_000)

    The index arithmetic of [calc_matmul_residual] and of one thread of
    [calc_matmul_residual_kernel]; [m], [n], [k] and the leading dimensions
    are [unsigned] there, the loop counter [ik] and the A and B indices are
    [std::size_t]. *)
Module residual.
(** [constexpr unsigned block_size = 256]. *)
Definition block_size : Z := 256.

(** [const auto num_threads = m * n]. *)
Definition num_threads (m n : Z) : Z := u32 (m * n).

(** [const auto grid_size = (num_threads + block_size - 1) / block_size]. *)
Definition grid_size (m n : Z) : Z :=
  u32 (num_threads m n + block_size - 1) / block_size.

(** [const auto tid = blockDim.x * blockIdx.x + threadIdx.x]. *)
Definition tid (blockIdx threadIdx : Z) : Z := u32 (block_size * blockIdx + threadIdx).

(** [if (tid >= m * n) return;] then [c_m = tid % m] and [c_n = tid / m]:
    the element of C a thread works on, [None] for a thread that returns
    at once. *)
Definition element (m n tid : Z) : option (Z * Z) :=
  if u32 (m * n) <=? tid then None else Some (tid mod m, tid / m).

(** [a_index]: [c_m + ik * lda] for [CUBLAS_OP_N], else [ik + c_m * lda];
    the product [c_m * lda] of two [unsigned] is taken in 32 bits. *)
Definition a_index (op_A : cublasOperation_t) (c_m ik lda : Z) : Z :=
  match op_A with
  | CUBLAS_OP_N => u64 (c_m + u64 (ik * lda))
  | _ => u64 (ik + u32 (c_m * lda))
  end.

(** [b_index]: [ik + c_n * ldb] for [CUBLAS_OP_N], else [c_n + ik * ldb]. *)
Definition b_index (op_B : cublasOperation_t) (c_n ik ldb : Z) : Z :=
  match op_B with
  | CUBLAS_OP_N => u64 (ik + u32 (c_n * ldb))
  | _ => u64 (c_n + u64 (ik * ldb))
  end.

(** The index of [c_ptr[c_m + c_n * ldc]], all in [unsigned]. *)
Definition c_index (c_m c_n ldc : Z) : Z := u32 (c_m + u32 (c_n * ldc)).
End residual.

(** ** The size list of [gemm_test] and [gemm_strided_batch_test] *)
Module gemm_test.
(** How a loop that need not end is run: with a bound on the number of
    condition checks. *)
Inductive run (A : Type) :=
| finished (a : A)
| out_of_fuel
| undefined.
Arguments finished {A} a.
Arguments out_of_fuel {A}.
Arguments undefined {A}.

(** What is pushed for [N]: [N] itself when [is_seq], else [1lu << N],
    which is undefined for a shift of 64 or more. *)
Definition pushed (is_seq : bool) (N : Z) : option Z :=
  if is_seq then Some N
  else if N <? 64 then Some (Z.shiftl 1 N) else None.

(** [for (unsigned N = min_N; N <= max_N; N += interval) N_list.push_back(...)];
    [max_N] and [interval] are [std::size_t], [N] is [unsigned]. *)
Fixpoint N_list_loop (is_seq : bool) (max_N interval : Z) (fuel : nat) (N : Z)
    (N_list : list Z) : run (list Z) :=
  match fuel with
  | O => out_of_fuel
  | S fuel' =>
      if N <=? max_N then
        match pushed is_seq N with
        | Some x =>
            N_list_loop is_seq max_N interval fuel' (u32 (u64 (N + interval)))
              (N_list ++ [x])
        | None => undefined
        end
      else finished N_list
  end.

Definition N_list (is_seq : bool) (min_N max_N interval : Z) (fuel : nat) : run (list Z) :=
  N_list_loop is_seq max_N interval fuel (u32 min_N) [].
End gemm_test.

(** ** Further specification-level definitions *)

(** Everything of a handle except the ring cursor, the
    suppress-reinitialization flag and the stream. *)
Definition same_configuration (h h' : cuMpSGEMM_handle) : Prop :=
  gemm_module h' = gemm_module h /\
  gemm_stridedBatch_module h' = gemm_stridedBatch_module h /\
  num_kernel_candidates h' = num_kernel_candidates h /\
  num_sms h' = num_sms h /\
  exp_stats_enabled h' = exp_stats_enabled h /\
  dev_total_counter_buffer h' = dev_total_counter_buffer h /\
  dev_lost_counter_buffer h' = dev_lost_counter_buffer h /\
  ignore_threshold h' = ignore_threshold h /\
  lost_threshold h' = lost_threshold h /\
  buffer_length h' = buffer_length h.

(** The two counter pointers a kernel launch was given. *)
Definition op_counters (o : stream_op) : option (option Z * option Z) :=
  match o with
  | gemm_kernel _ _ _ _ _ args
  | gemm_stridedBatch_kernel _ _ _ _ _ args _ _ _ _ =>
      Some (arg_total_counter args, arg_lost_counter args)
  | _ => None
  end.

(** The entry point a kernel launch runs. *)
Definition op_kernel_func (o : stream_op) : option Z :=
  match o with
  | gemm_kernel _ func _ _ _ _
  | gemm_stridedBatch_kernel _ func _ _ _ _ _ _ _ _ => Some func
  | _ => None
  end.

(** The grid size of a kernel launch. *)
Definition op_grid_size (o : stream_op) : option Z :=
  match o with
  | gemm_kernel _ _ grid _ _ _
  | gemm_stridedBatch_kernel _ _ grid _ _ _ _ _ _ _ => Some grid
  | _ => None
  end.

(** The variant a macro invocation stores. *)
Definition registration_module (G : module_generators) (r : registration)
  : cumpsgemm.gemm_module :=
  match r with
  | SET_GEMM_KERNEL_MODULE _ io_t tc ec op_a op_b
      smem_m smem_n smem_k frag_m frag_n frag_k block_size _ _ =>
      generate_gemm_module G
        (Build_module_template io_t smem_m smem_n smem_k frag_m frag_n frag_k
           block_size op_a op_b tc ec)
  | SET_GEMM_STRIDEDBATCH_KERNEL_MODULE _ io_t tc ec op_a op_b
      smem_m smem_n smem_k frag_m frag_n frag_k block_size _ _ =>
      generate_gemm_stridedBatch_module G
        (Build_module_template io_t smem_m smem_n smem_k frag_m frag_n frag_k
           block_size op_a op_b tc ec)
  end.

(** The tokens that make up the slot of a macro invocation. *)
Definition registration_key (r : registration)
  : module_list_t * (tc_t * ec_t * op_t * op_t * gemm_type) * nat :=
  match r with
  | SET_GEMM_KERNEL_MODULE module_list _ tc ec op_a op_b _ _ _ _ _ _ _ gt stage
  | SET_GEMM_STRIDEDBATCH_KERNEL_MODULE module_list _ tc ec op_a op_b _ _ _ _ _ _ _ gt stage =>
      (module_list, (tc, ec, op_a, op_b, gt), stage)
  end.

(** The template [cuMpSGEMM_create] instantiates for a signature: every
    invocation names the tile 64 x 64 x 32, the fragment 32 x 32 x 16 and
    128 threads. *)
Definition signature_template (T : element_t) (op_A op_B : cublasOperation_t)
    (compute_mode : cuMpSGEMM_compute_mode_t) : module_template :=
  Build_module_template T 64 64 32 32 32 16 128
    (operation_layout op_A) (operation_layout op_B)
    (compute_mode_tc compute_mode) (compute_mode_ec compute_mode).

(** The generator behind each table. *)
Definition generator_of (module_list : module_list_t) (G : module_generators)
  : module_template -> cumpsgemm.gemm_module :=
  match module_list with
  | handle_gemm_module => generate_gemm_module G
  | handle_gemm_stridedBatch_module => generate_gemm_stridedBatch_module G
  end.

(** The handle [cuMpSGEMM_create] builds on a fresh object. *)
Definition created (K : kernel_module_code.constants) (G : module_generators)
    (obj : cuMpSGEMM_handle) : cuMpSGEMM_handle :=
  foldl (fun h r => register K G r h) obj kernel_module_registrations.

(** The sum of [f] over a list. *)
Definition Zsum_with {A} (f : A -> Z) (l : list A) : Z :=
  foldr (fun x acc => f x + acc) 0 l.

(** ** The command line of the test program (unnamed/part_000)

    [main] reads its arguments by position.  [argv] holds the [argc]
    strings of the command line; [argv[argc]] is a null pointer, and
    building a [std::string] from it, or printing it with [%s], is
    undefined: it is the [None] of the option monad. *)
Module test_main.
(** [enum gemm_type {s, c}] of the test program. *)
Inductive gemm_type := s | c.

(** The test a command line runs, with the arguments as written; [main]
    converts them with [std::stoi] and [std::stof] at the call. *)
Inductive call :=
| test_logged_shape (path : string)
| gemm_exp_stats_test (N ignore_threshold lose_threshold : string) (gemm : gemm_type)
| gemm_strided_batch_exp_stats_test (N batch_size ignore_threshold lose_threshold : string)
    (gemm : gemm_type)
| gemm_test (min_N max_N interval : string) (only_cublas : bool) (gemm : gemm_type)
    (is_seq : bool)
| gemm_strided_batch_test (min_N max_N interval batch_count : string) (only_cublas : bool)
    (gemm : gemm_type) (is_seq : bool).

(** How [main] ends: [return 1] after [print_usage], [return 1] after the
    "invalid argument" message, or completion of a test. *)
Inductive outcome :=
| usage_error
| invalid_argument
| ran (test : call).

(** [print_usage(argv[0]); return 1;] *)
Definition print_usage (argv : list string) : option outcome :=
  program_name ← argv !! 0%nat;
  Some usage_error.

Definition main (argv : list string) : option outcome :=
  let argc := Z.of_nat (length argv) in
  if argc <? 2 then print_usage argv
  else
    command ← argv !! 1%nat;
    if String.eqb command "log" then
      if argc <? 1 + 1 + 1 then print_usage argv
      else
        a2 ← argv !! 2%nat;
        Some (ran (test_logged_shape a2))
    else if String.eqb command "sgemm_exp_stats" || String.eqb command "cgemm_exp_stats" then
      if argc <? 1 + 1 + 3 then print_usage argv
      else
        a2 ← argv !! 2%nat; a3 ← argv !! 3%nat; a4 ← argv !! 4%nat;
        Some (ran (gemm_exp_stats_test a2 a3 a4
                     (if String.eqb command "sgemm_exp_stats" then s else c)))
    else if String.eqb command "sgemm_strided_batch_exp_stats"
            || String.eqb command "cgemm_strided_batch_exp_stats" then
      if argc <? 1 + 1 + 4 then print_usage argv
      else
        a2 ← argv !! 2%nat; a3 ← argv !! 3%nat; a4 ← argv !! 4%nat; a5 ← argv !! 5%nat;
        Some (ran (gemm_strided_batch_exp_stats_test a2 a3 a4 a5
                     (if String.eqb command "sgemm_strided_batch_exp_stats" then s else c)))
    else if argc <? 3 then Some invalid_argument
    else
      a2 ← argv !! 2%nat;
      if negb (String.eqb a2 "exp2") && negb (String.eqb a2 "seq") then Some invalid_argument
      else
        let is_seq := negb (String.eqb a2 "exp2") in
        if String.eqb command "sgemm" || String.eqb command "cgemm" then
          if argc <? 1 + 1 + 3 then print_usage argv
          else
            a3 ← argv !! 3%nat; a4 ← argv !! 4%nat; a5 ← argv !! 5%nat;
            Some (ran (gemm_test a3 a4 a5 false
                         (if String.eqb command "sgemm" then s else c) is_seq))
        else if String.eqb command "sgemm_strided_batch"
                || String.eqb command "cgemm_strided_batch" then
          if argc <? 1 + 1 + 3 + 1 then print_usage argv
          else
            a3 ← argv !! 3%nat; a4 ← argv !! 4%nat; a5 ← argv !! 5%nat; a6 ← argv !! 6%nat;
            Some (ran (gemm_strided_batch_test a3 a4 a5 a6 false
                         (if String.eqb command "sgemm_strided_batch" then s else c) is_seq))
        else if String.eqb command "cublas_sgemm" || String.eqb command "cublas_cgemm" then
          if argc <? 1 + 1 + 3 then print_usage argv
          else
            a3 ← argv !! 3%nat; a4 ← argv !! 4%nat; a5 ← argv !! 5%nat;
            Some (ran (gemm_test a3 a4 a5 true
                         (if String.eqb command "cublas_sgemm" then s else c) is_seq))
        else if String.eqb command "cublas_sgemm_strided_batch"
                || String.eqb command "cublas_cgemm_strided_batch" then
          if argc <? 1 + 1 + 3 + 1 then print_usage argv
          else
            a3 ← argv !! 3%nat; a4 ← argv !! 4%nat; a5 ← argv !! 5%nat; a6 ← argv !! 6%nat;
            Some (ran (gemm_strided_batch_test a3 a4 a5 a6 true
                         (if String.eqb command "cublas_sgemm_strided_batch" then s else c)
                         is_seq))
        else print_usage argv.

(** The commands that sweep over sizes, by the number of arguments the
    test they run takes after [exp2] or [seq]. *)
Definition sweep_commands : list string :=
  ["sgemm"; "cgemm"; "cublas_sgemm"; "cublas_cgemm"]%string.

Definition strided_batch_sweep_commands : list string :=
  ["sgemm_strided_batch"; "cgemm_strided_batch";
   "cublas_sgemm_strided_batch"; "cublas_cgemm_strided_batch"]%string.
End test_main.

(** * Properties *)

(** ** Module codes *)

Lemma land_other_field x own other :
  Z.land x own = x -> Z.land own other = 0 -> Z.land x other = 0.
Proof.
  intros Hx Hd. rewrite <- Hx, <- Z.land_assoc, Hd. apply Z.land_0_r.
Qed.

Section bit_fields.
Context (K : kernel_module_code.constants) (M : code_masks).
Context (HK : disjoint_bit_fields K M).

Lemma mask_sym a b : Z.land a b = 0 -> Z.land b a = 0.
Proof. rewrite Z.land_comm. auto. Qed.

Ltac other_field :=
  match goal with
  | |- Z.land (tc_code K ?t) _ = 0 =>
      apply (land_other_field _ (mask_tc M)); [apply (in_tc K M HK)|]
  | |- Z.land (ec_code K ?t) _ = 0 =>
      apply (land_other_field _ (mask_ec M)); [apply (in_ec K M HK)|]
  | |- Z.land (op_a_code K ?t) _ = 0 =>
      apply (land_other_field _ (mask_a M)); [apply (in_a K M HK)|]
  | |- Z.land (op_b_code K ?t) _ = 0 =>
      apply (land_other_field _ (mask_b M)); [apply (in_b K M HK)|]
  | |- Z.land (gemm_type_code K ?t) _ = 0 =>
      apply (land_other_field _ (mask_kind M)); [apply (in_kind K M HK)|]
  end;
  first [ apply HK | apply mask_sym; apply HK ].

Ltac field_of_code :=
  unfold macro_code; rewrite !Z.land_lor_distr_l;
  repeat match goal with
  | |- context [Z.land ?x ?m] =>
      let E := fresh in
      assert (E : Z.land x m = 0) by other_field; rewrite E; clear E
  end;
  rewrite ?Z.lor_0_r, ?Z.lor_0_l.

Lemma macro_code_tc tc ec a b g :
  Z.land (macro_code K tc ec a b g) (mask_tc M) = tc_code K tc.
Proof using HK. field_of_code. apply (in_tc K M HK). Qed.

Lemma macro_code_ec tc ec a b g :
  Z.land (macro_code K tc ec a b g) (mask_ec M) = ec_code K ec.
Proof using HK. field_of_code. apply (in_ec K M HK). Qed.

Lemma macro_code_a tc ec a b g :
  Z.land (macro_code K tc ec a b g) (mask_a M) = op_a_code K a.
Proof using HK. field_of_code. apply (in_a K M HK). Qed.

Lemma macro_code_b tc ec a b g :
  Z.land (macro_code K tc ec a b g) (mask_b M) = op_b_code K b.
Proof using HK. field_of_code. apply (in_b K M HK). Qed.

Lemma macro_code_kind tc ec a b g :
  Z.land (macro_code K tc ec a b g) (mask_kind M) = gemm_type_code K g.
Proof using HK. field_of_code. apply (in_kind K M HK). Qed.

Lemma macro_code_inj tc ec a b g tc' ec' a' b' g' :
  macro_code K tc ec a b g = macro_code K tc' ec' a' b' g' ->
  tc = tc' /\ ec = ec' /\ a = a' /\ b = b' /\ g = g'.
Proof using HK.
  intros E. repeat split.
  - apply (tc_distinct K M HK).
    rewrite <- (macro_code_tc tc ec a b g), <- (macro_code_tc tc' ec' a' b' g').
    by rewrite E.
  - apply (ec_distinct K M HK).
    rewrite <- (macro_code_ec tc ec a b g), <- (macro_code_ec tc' ec' a' b' g').
    by rewrite E.
  - apply (a_distinct K M HK).
    rewrite <- (macro_code_a tc ec a b g), <- (macro_code_a tc' ec' a' b' g').
    by rewrite E.
  - apply (b_distinct K M HK).
    rewrite <- (macro_code_b tc ec a b g), <- (macro_code_b tc' ec' a' b' g').
    by rewrite E.
  - apply (kind_distinct K M HK).
    rewrite <- (macro_code_kind tc ec a b g), <- (macro_code_kind tc' ec' a' b' g').
    by rewrite E.
Qed.
End bit_fields.

(** For a signature of the public entry points, [gen_module_code] computes
    the index expression of the registration macros. *)
Lemma gen_module_code_macro K T op_A op_B compute_mode :
  valid_signature T op_A op_B compute_mode = true ->
  gen_module_code K T op_A op_B compute_mode =
  macro_code K (compute_mode_tc compute_mode) (compute_mode_ec compute_mode)
    (operation_layout op_A) (operation_layout op_B) (element_gemm_type T).
Proof.
  destruct T, op_A, op_B, compute_mode; try discriminate; intros _; reflexivity.
Qed.

Lemma signature_tokens_inj T op_A op_B compute_mode T' op_A' op_B' compute_mode' :
  valid_signature T op_A op_B compute_mode = true ->
  valid_signature T' op_A' op_B' compute_mode' = true ->
  compute_mode_tc compute_mode = compute_mode_tc compute_mode' ->
  compute_mode_ec compute_mode = compute_mode_ec compute_mode' ->
  operation_layout op_A = operation_layout op_A' ->
  operation_layout op_B = operation_layout op_B' ->
  element_gemm_type T = element_gemm_type T' ->
  (T, op_A, op_B, compute_mode) = (T', op_A', op_B', compute_mode').
Proof.
  intros V V' Htc Hec Ha Hb Hg.
  assert (T = T') as <- by (destruct T, T'; done).
  assert (op_A = op_A') as <-
    by (destruct T, op_A, op_A'; try done; destruct op_B, compute_mode; done).
  assert (op_B = op_B') as <-
    by (destruct T, op_B, op_B'; try done; destruct op_A, compute_mode; done).
  assert (compute_mode = compute_mode') as <-; [|done].
  destruct compute_mode; try (by destruct T, op_A, op_B);
    destruct compute_mode'; try done; by destruct T, op_A, op_B.
Qed.

Lemma valid_signatures_spec T op_A op_B compute_mode :
  (T, op_A, op_B, compute_mode) ∈ valid_signatures <->
  valid_signature T op_A op_B compute_mode = true.
Proof.
  unfold valid_signatures. rewrite list_elem_of_filter. split; [by intros [? _]|].
  intros V. split; [done|].
  destruct T, op_A, op_B, compute_mode; try discriminate;
    apply (bool_decide_unpack _); vm_compute; exact I.
Qed.

Lemma valid_signatures_NoDup : NoDup valid_signatures.
Proof. apply (bool_decide_unpack _). vm_compute. exact I. Qed.

(** C3.  On the signatures that the public GEMM entry points accept (the
    four tensor-core compute modes, operations N, T and C, no conjugation
    for [float]) and for module-code constants laid out as disjoint
    bit-fields, [gen_module_code] is injective: equal keys come from equal
    tuples.  Hence the 52 valid signatures occupy 52 distinct table slots,
    one each. *)
Theorem gen_module_code_injective K M :
  disjoint_bit_fields K M ->
  (forall T op_A op_B compute_mode T' op_A' op_B' compute_mode',
      valid_signature T op_A op_B compute_mode = true ->
      valid_signature T' op_A' op_B' compute_mode' = true ->
      gen_module_code K T op_A op_B compute_mode =
      gen_module_code K T' op_A' op_B' compute_mode' ->
      (T, op_A, op_B, compute_mode) = (T', op_A', op_B', compute_mode')) /\
  NoDup (signature_code K <$> valid_signatures) /\
  length (signature_code K <$> valid_signatures) = 52%nat.
Proof.
  intros HK.
  assert (Hinj : forall T op_A op_B compute_mode T' op_A' op_B' compute_mode',
      valid_signature T op_A op_B compute_mode = true ->
      valid_signature T' op_A' op_B' compute_mode' = true ->
      gen_module_code K T op_A op_B compute_mode =
      gen_module_code K T' op_A' op_B' compute_mode' ->
      (T, op_A, op_B, compute_mode) = (T', op_A', op_B', compute_mode')).
  { intros T op_A op_B mode T' op_A' op_B' mode' V V' E.
    rewrite !gen_module_code_macro in E by done.
    apply (macro_code_inj K M HK) in E as (? & ? & ? & ? & ?).
    by apply signature_tokens_inj. }
  split; [exact Hinj|]. split; [|reflexivity].
  apply NoDup_fmap_2_strong; [|apply valid_signatures_NoDup].
  intros [[[T op_A] op_B] mode] [[[T' op_A'] op_B'] mode'] V V' E.
  apply valid_signatures_spec in V, V'. by apply Hinj.
Qed.

Lemma gen_module_code_injective_witness :
  disjoint_bit_fields example.K example.M /\
  NoDup (signature_code example.K <$> valid_signatures).
Proof.
  assert (H : disjoint_bit_fields example.K example.M).
  { split; try reflexivity; try (by intros []);
      intros [] [] E; try reflexivity; vm_compute in E; discriminate E. }
  split; [exact H|].
  apply (gen_module_code_injective example.K example.M H).
Defined.

(** Outside the valid signatures the keys do collide: a pass-through
    compute mode sets no bits, like half-precision with error correction
    in the example layout. *)
Remark gen_module_code_collision_outside_valid :
  valid_signature float_t CUBLAS_OP_N CUBLAS_OP_N CUMPSGEMM_CUBLAS = false /\
  gen_module_code example.K float_t CUBLAS_OP_N CUBLAS_OP_N CUMPSGEMM_CUBLAS =
  gen_module_code example.K float_t CUBLAS_OP_N CUBLAS_OP_N CUMPSGEMM_FP16TCEC.
Proof. split; reflexivity. Qed.

(** ** Registration at handle creation *)

Lemma register_preserves K G r h module_list key :
  is_Some (table_of module_list h !! key) ->
  is_Some (table_of module_list (register K G r h) !! key).
Proof.
  intros H.
  destruct r as [ml ? tc ec a b ? ? ? ? ? ? ? g st|ml ? tc ec a b ? ? ? ? ? ? ? g st];
    destruct ml, module_list; simpl; try done;
    rewrite lookup_insert_is_Some;
    destruct (decide ((macro_code K tc ec a b g, st) = key)); auto.
Qed.

Lemma register_writes K G r h :
  is_Some (table_of (registration_slot K r).1 (register K G r h)
             !! (registration_slot K r).2).
Proof.
  destruct r as [ml ? tc ec a b ? ? ? ? ? ? ? g st|ml ? tc ec a b ? ? ? ? ? ? ? g st];
    destruct ml; simpl; rewrite lookup_insert_eq; eauto.
Qed.

Lemma registrations_preserve K G rs h module_list key :
  is_Some (table_of module_list h !! key) ->
  is_Some (table_of module_list (foldl (fun h r => register K G r h) h rs) !! key).
Proof.
  revert h. induction rs as [|r rs IH]; intros h H; simpl; [done|].
  apply IH. by apply register_preserves.
Qed.

(** Every slot that some macro invocation names holds a variant once all
    invocations have run, whatever ran later. *)
Lemma registrations_write K G rs h r :
  r ∈ rs ->
  is_Some (table_of (registration_slot K r).1 (foldl (fun h r => register K G r h) h rs)
             !! (registration_slot K r).2).
Proof.
  revert h. induction rs as [|r' rs IH]; intros h Hin; [by apply elem_of_nil in Hin|].
  apply elem_of_cons in Hin as [->|Hin]; simpl.
  - apply registrations_preserve, register_writes.
  - by apply IH.
Qed.

(** [cuMpSGEMM_create] contains the macro invocation for every signature of
    the public entry points, for both tables and for stages 0 and 1. *)
Lemma registration_for_registered module_list T op_A op_B compute_mode stage :
  valid_signature T op_A op_B compute_mode = true ->
  (stage < 2)%nat ->
  registration_for module_list T op_A op_B compute_mode stage ∈ kernel_module_registrations.
Proof.
  intros V Hs. destruct stage as [|[|stage]]; [| |lia];
    destruct T, op_A, op_B, compute_mode; try discriminate V;
    destruct module_list; apply (bool_decide_unpack _); vm_compute; exact I.
Qed.

Lemma registration_for_slot K module_list T op_A op_B compute_mode stage :
  valid_signature T op_A op_B compute_mode = true ->
  registration_slot K (registration_for module_list T op_A op_B compute_mode stage) =
  (module_list, (gen_module_code K T op_A op_B compute_mode, stage)).
Proof.
  intros V. rewrite gen_module_code_macro by done. by destruct module_list.
Qed.

Lemma created_slot K G obj module_list T op_A op_B compute_mode stage :
  valid_signature T op_A op_B compute_mode = true ->
  (stage < 2)%nat ->
  is_Some (table_of module_list
             (foldl (fun h r => register K G r h) obj kernel_module_registrations)
             !! (gen_module_code K T op_A op_B compute_mode, stage)).
Proof.
  intros V Hs.
  pose proof (registrations_write K G kernel_module_registrations obj _
                (registration_for_registered module_list T op_A op_B compute_mode stage V Hs))
    as H.
  by rewrite registration_for_slot in H.
Qed.

(** ** The selection loop *)

Lemma select_loop_bound candidates exceeds remaining module_id gemm_module i g :
  select_loop candidates exceeds remaining module_id gemm_module = Some (i, g) ->
  (module_id <= i <= module_id + remaining)%nat.
Proof.
  revert module_id. induction remaining as [|remaining IH]; intros module_id H; simpl in H.
  - injection H as <- <-. lia.
  - destruct (candidates module_id) as [module|]; [|done]. simpl in H.
    destruct (exceeds module) as [[]|]; simpl in H; [|apply IH in H; lia|done].
    injection H as <- <-. lia.
Qed.

(** What the loop returns: nothing before the returned index exceeded, and
    the loop either ran out (keeping the default) or stopped at a stage
    that exceeded. *)
Lemma select_loop_inv candidates exceeds remaining module_id gemm_module i g :
  select_loop candidates exceeds remaining module_id gemm_module = Some (i, g) ->
  (forall j, (module_id <= j < i)%nat ->
     exists gj, candidates j = Some gj /\ exceeds gj = Some false) /\
  ((i = module_id + remaining)%nat /\ g = gemm_module \/
   (i < module_id + remaining)%nat /\ candidates i = Some g /\ exceeds g = Some true).
Proof.
  revert module_id. induction remaining as [|remaining IH]; intros module_id H; simpl in H.
  - injection H as <- <-. split; [lia|]. left. split; [lia|done].
  - destruct (candidates module_id) as [module|] eqn:Hc; [|done]. simpl in H.
    destruct (exceeds module) as [[]|] eqn:He; simpl in H; [| |done].
    + injection H as <- <-. split; [lia|]. right. split; [lia|done].
    + pose proof (select_loop_bound _ _ _ _ _ _ _ H) as Hb.
      apply IH in H as [Hbefore Hend]. split.
      * intros j Hj. destruct (decide (j = module_id)) as [->|]; [eauto|].
        apply Hbefore. lia.
      * destruct Hend as [[-> ->]|(? & ? & ?)]; [left|right]; split; auto; lia.
Qed.

(** The loop returns whenever every stage it may visit holds a variant on
    which the comparison is defined. *)
Lemma select_loop_total candidates exceeds remaining module_id gemm_module :
  (forall j, (module_id <= j < module_id + remaining)%nat ->
     exists gj b, candidates j = Some gj /\ exceeds gj = Some b) ->
  is_Some (select_loop candidates exceeds remaining module_id gemm_module).
Proof.
  revert module_id. induction remaining as [|remaining IH]; intros module_id H; simpl; [eauto|].
  destruct (H module_id) as (gj & b & -> & Hb); [lia|]. simpl. rewrite Hb. simpl.
  destruct b; [eauto|]. apply IH. intros j Hj. apply H. lia.
Qed.

(** A larger problem can only stop the loop earlier. *)
Lemma select_loop_antitone candidates exceeds1 exceeds2 remaining module_id d1 d2 i1 g1 i2 g2 :
  (forall g, exceeds1 g = Some true -> exceeds2 g = Some true) ->
  select_loop candidates exceeds1 remaining module_id d1 = Some (i1, g1) ->
  select_loop candidates exceeds2 remaining module_id d2 = Some (i2, g2) ->
  (i2 <= i1)%nat.
Proof.
  intros Hmono. revert module_id.
  induction remaining as [|remaining IH]; intros module_id H1 H2; simpl in H1, H2.
  - injection H1 as <- <-. injection H2 as <- <-. lia.
  - destruct (candidates module_id) as [module|]; [|done]. simpl in H1, H2.
    destruct (exceeds1 module) as [[]|] eqn:E1; simpl in H1; [| |done].
    + rewrite (Hmono _ E1) in H2. simpl in H2.
      injection H1 as <- <-. injection H2 as <- <-. lia.
    + destruct (exceeds2 module) as [[]|]; simpl in H2; [| |done].
      * injection H2 as <- <-. apply select_loop_bound in H1. lia.
      * eauto.
Qed.

Lemma udiv_Some a b q : udiv a b = Some q <-> b <> 0 /\ q = a / b.
Proof.
  unfold udiv. destruct (Z.eqb_spec b 0); split.
  - done.
  - intros [? _]. done.
  - intros [= <-]. done.
  - intros [_ ->]. done.
Qed.

Lemma u32_range x : 0 <= u32 x < 2 ^ 32.
Proof. apply Z.mod_pos_bound. lia. Qed.

Lemma u64_range x : 0 <= u64 x < 2 ^ 64.
Proof. apply Z.mod_pos_bound. lia. Qed.

Lemma u32_id x : 0 <= x < 2 ^ 32 -> u32 x = x.
Proof. apply Z.mod_small. Qed.

Lemma u64_id x : 0 <= x < 2 ^ 64 -> u64 x = x.
Proof. apply Z.mod_small. Qed.

Lemma last_candidate num : 1 <= num < 2 ^ 32 -> Z.of_nat (Z.to_nat (u32 (num - 1))) = num - 1.
Proof. intros H. rewrite u32_id by lia. lia. Qed.

(** The loop with a "work above threshold" condition follows the rule. *)
Lemma select_loop_rule candidates work threshold num default i g :
  1 <= num < 2 ^ 32 ->
  candidates (Z.to_nat (u32 (num - 1))) = Some default ->
  select_loop candidates (fun g => w ← work g; Some (threshold <? w))
    (Z.to_nat (u32 (num - 1))) 0 default = Some (i, g) ->
  selected_by_rule candidates work threshold num i g.
Proof.
  intros Hnum Hdef H. pose proof (last_candidate num Hnum) as Hlast.
  apply select_loop_inv in H as [Hbefore Hend]. split; [|split].
  - destruct Hend as [[-> ->]|(_ & ? & _)]; [|done]. by rewrite Nat.add_0_l.
  - intros j Hj. destruct (Hbefore j) as (gj & Hgj & He); [lia|].
    destruct (work gj) as [wj|] eqn:Hw; [|done]. simpl in He.
    exists gj, wj. split; [done|]. split; [done|]. injection He as He. lia.
  - destruct Hend as [[-> ->]|(Hlt & _ & He)]; [left; lia|right].
    split; [lia|]. destruct (work g) as [w|] eqn:Hw; [|done]. simpl in He.
    exists w. split; [done|]. injection He as He. lia.
Qed.

Lemma gemm_select_rule h code m n i g :
  1 <= num_kernel_candidates h < 2 ^ 32 ->
  gemm_select h code m n = Some (i, g) ->
  selected_by_rule (fun i => gemm_module h !! (code, i)) (gemm_work m n)
    (occupancy_threshold h) (num_kernel_candidates h) i g.
Proof.
  intros Hnum H. unfold gemm_select in H.
  destruct (gemm_module h !! (code, Z.to_nat (u32 (num_kernel_candidates h - 1))))
    as [default|] eqn:Hdef; [|done].
  simpl in H. eapply select_loop_rule; [done|exact Hdef|exact H].
Qed.

Lemma gemm_stridedBatch_select_rule h code m n batch_count i g :
  1 <= num_kernel_candidates h < 2 ^ 32 ->
  gemm_stridedBatch_select h code m n batch_count = Some (i, g) ->
  selected_by_rule (fun i => gemm_stridedBatch_module h !! (code, i))
    (gemm_stridedBatch_work m n batch_count)
    (occupancy_threshold h) (num_kernel_candidates h) i g.
Proof.
  intros Hnum H. unfold gemm_stridedBatch_select in H.
  destruct (gemm_stridedBatch_module h !! (code, Z.to_nat (u32 (num_kernel_candidates h - 1))))
    as [default|] eqn:Hdef; [|done].
  simpl in H. eapply select_loop_rule; [done|exact Hdef|exact H].
Qed.

Lemma gemm_select_range h code m n i g :
  1 <= num_kernel_candidates h < 2 ^ 32 ->
  gemm_select h code m n = Some (i, g) ->
  0 <= Z.of_nat i <= num_kernel_candidates h - 1.
Proof.
  intros Hnum H. unfold gemm_select in H.
  destruct (gemm_module h !! (code, _)); [|done]. simpl in H.
  apply select_loop_bound in H. pose proof (last_candidate _ Hnum). lia.
Qed.

Lemma gemm_stridedBatch_select_range h code m n batch_count i g :
  1 <= num_kernel_candidates h < 2 ^ 32 ->
  gemm_stridedBatch_select h code m n batch_count = Some (i, g) ->
  0 <= Z.of_nat i <= num_kernel_candidates h - 1.
Proof.
  intros Hnum H. unfold gemm_stridedBatch_select in H.
  destruct (gemm_stridedBatch_module h !! (code, _)); [|done]. simpl in H.
  apply select_loop_bound in H. pose proof (last_candidate _ Hnum). lia.
Qed.

(** ** [gemm] and [gemm_stridedBatch], unfolded *)

Ltac destruct_handle h :=
  destruct h as [tbl tblb num sms enabled disabled tb lb ign lost cur len stream].

(** [gemm] in one equation: select, size the grid, then issue the
    operations on the stream. *)
Lemma gemm_eq K T h op_A op_B m n k alpha a lda b ldb beta c ldc compute_mode used :
  gemm K T h op_A op_B m n k alpha a lda b ldb beta c ldc compute_mode used =
  '(i, g) ← gemm_select h (gen_module_code K T op_A op_B compute_mode) m n;
  grid ← gemm_grid_size g m n;
  Some (CUBLAS_STATUS_SUCCESS,
        after h (gemm_buffer_id h) (counter_init_disabled h)
          ((if gemm_advances h then [init_counter_op (gemm_buffer_id h)] else []) ++
           [gemm_launch T g grid m n k alpha a lda b ldb beta c ldc h (gemm_buffer_id h)] ++
           (if exp_stats_enabled h then [download_exp_stats_op (gemm_buffer_id h)] else [])),
        report_module_id used i).
Proof.
  unfold gemm.
  destruct (gemm_select h (gen_module_code K T op_A op_B compute_mode) m n) as [[i g]|];
    [|reflexivity].
  cbn [mbind option_bind]. unfold launch_kernel.
  destruct_handle h. destruct enabled, disabled;
    cbn [exp_stats_enabled counter_init_disabled negb];
    destruct (gemm_grid_size g m n) as [grid|]; try reflexivity;
    cbn [mbind option_bind]; unfold after, gemm_launch, gemm_buffer_id, gemm_advances,
      counter_ptr, exp_stats.download_exp_stats, exp_stats.init_counter,
      exp_stats.get_current_buffer_id, exp_stats.get_next_buffer_id, enqueue,
      set_current_buffer_id;
    cbn [exp_stats_enabled counter_init_disabled negb andb current_buffer_id
         buffer_length cuda_stream dev_total_counter_buffer dev_lost_counter_buffer
         ignore_threshold lost_threshold gemm_module gemm_stridedBatch_module
         num_kernel_candidates num_sms];
    rewrite <- ?app_assoc; reflexivity.
Qed.

Lemma report_module_id_idem used i :
  report_module_id (report_module_id used i) i = report_module_id used i.
Proof. by destruct used. Qed.

(** The batched path of [gemm_stridedBatch] in one equation. *)
Lemma gemm_stridedBatch_batched_eq K T h op_A op_B m n k alpha a lda stridea b ldb strideb
    beta c ldc stridec batch_count compute_mode used :
  u64 (m * n) <= 2 ^ 24 ->
  gemm_stridedBatch K T h op_A op_B m n k alpha a lda stridea b ldb strideb
    beta c ldc stridec batch_count compute_mode used =
  '(i, g) ← gemm_stridedBatch_select h (gen_module_code K T op_A op_B compute_mode)
              m n batch_count;
  num_blocks ← num_blocks_per_gemm g m n;
  Some (CUBLAS_STATUS_SUCCESS,
        after h (gemm_stridedBatch_buffer_id h) (counter_init_disabled h)
          ((if exp_stats_enabled h
            then [init_counter_op (gemm_stridedBatch_buffer_id h)] else []) ++
           [gemm_stridedBatch_launch T g num_blocks m n k alpha a lda stridea b ldb strideb
              beta c ldc stridec batch_count h (gemm_stridedBatch_buffer_id h)] ++
           (if exp_stats_enabled h
            then [download_exp_stats_op (gemm_stridedBatch_buffer_id h)] else [])),
        report_module_id used i).
Proof.
  intros Hmn. unfold gemm_stridedBatch.
  destruct (Z.ltb_spec (2 ^ 24) (u64 (m * n))) as [?|_]; [lia|].
  destruct (gemm_stridedBatch_select h _ m n batch_count) as [[i g]|]; [|reflexivity].
  cbn [mbind option_bind]. unfold launch_kernel_stridedBatch.
  destruct_handle h. destruct enabled;
    cbn [exp_stats_enabled];
    destruct (num_blocks_per_gemm g m n) as [num_blocks|]; try reflexivity;
    cbn [mbind option_bind]; unfold after, gemm_stridedBatch_launch,
      gemm_stridedBatch_buffer_id, counter_ptr, exp_stats.download_exp_stats,
      exp_stats.init_counter, exp_stats.get_current_buffer_id,
      exp_stats.get_next_buffer_id, enqueue, set_current_buffer_id;
    cbn [exp_stats_enabled counter_init_disabled current_buffer_id
         buffer_length cuda_stream dev_total_counter_buffer dev_lost_counter_buffer
         ignore_threshold lost_threshold gemm_module gemm_stridedBatch_module
         num_kernel_candidates num_sms];
    rewrite <- ?app_assoc; reflexivity.
Qed.

Lemma after_after h id d ops id' d' ops' :
  after (after h id d ops) id' d' ops' = after h id' d' (ops ++ ops').
Proof. unfold after. cbn. by rewrite app_assoc. Qed.

(** Sub-calls that run with the suppress-reinitialization flag set: each
    launches once on the slot the cursor is at, nothing is zeroed and the
    cursor stays. *)
Lemma gemm_stridedBatch_loop_suppressed K T op_A op_B m n k alpha a lda stridea
    b ldb strideb beta c ldc stridec compute_mode i0 g grid remaining :
  forall i h used,
  counter_init_disabled h = true ->
  gemm_select h (gen_module_code K T op_A op_B compute_mode) m n = Some (i0, g) ->
  gemm_grid_size g m n = Some grid ->
  gemm_stridedBatch_loop K T op_A op_B m n k alpha a lda stridea b ldb strideb
    beta c ldc stridec compute_mode remaining i h used =
  Some (after h (current_buffer_id h) true
          (concat (sub_call_ops T g grid m n k alpha a lda stridea b ldb strideb
                     beta c ldc stridec h (current_buffer_id h)
                   <$> seqZ i (Z.of_nat remaining))),
        match remaining with O => used | S _ => report_module_id used i0 end).
Proof.
  induction remaining as [|remaining IH]; intros i h used Hflag Hsel Hgrid.
  - simpl. f_equal. f_equal. destruct_handle h. simpl in Hflag. subst.
    unfold after. cbn. by rewrite app_nil_r.
  - cbn [gemm_stridedBatch_loop]. rewrite gemm_eq, Hsel. cbn [mbind option_bind].
    rewrite Hgrid. cbn [mbind option_bind].
    assert (Hadv : gemm_advances h = false).
    { unfold gemm_advances. rewrite Hflag. apply andb_false_r. }
    assert (Hid : gemm_buffer_id h = current_buffer_id h).
    { unfold gemm_buffer_id. by rewrite Hadv. }
    rewrite Hadv, Hid, Hflag.
    match goal with
    | |- gemm_stridedBatch_loop _ _ _ _ _ _ _ _ _ _ _ _ _ _ _ _ _ _ _ _ _ ?h1 ?u1 = _ =>
        rewrite (IH (i + 1) h1 u1); [|reflexivity|exact Hsel|exact Hgrid]
    end.
    rewrite report_module_id_idem.
    replace (match remaining with O | _ => report_module_id used i0 end)
      with (report_module_id used i0) by (by destruct remaining).
    f_equal. f_equal.
    rewrite (seqZ_cons i) by lia. rewrite fmap_cons. cbn [concat].
    replace (Z.succ i) with (i + 1) by lia.
    replace (Z.pred (Z.of_nat (S remaining))) with (Z.of_nat remaining) by lia.
    unfold set_counter_init_disabled, after. cbn. f_equal.
    rewrite <- app_assoc. reflexivity.
Qed.

(** The decomposed path of [gemm_stridedBatch] in one equation. *)
Lemma gemm_stridedBatch_decomposed_eq K T h op_A op_B m n k alpha a lda stridea
    b ldb strideb beta c ldc stridec batch_count compute_mode used :
  2 ^ 24 < u64 (m * n) ->
  0 < batch_count ->
  gemm_stridedBatch K T h op_A op_B m n k alpha a lda stridea b ldb strideb
    beta c ldc stridec batch_count compute_mode used =
  '(i0, g) ← gemm_select h (gen_module_code K T op_A op_B compute_mode) m n;
  grid ← gemm_grid_size g m n;
  Some (CUBLAS_STATUS_SUCCESS,
        after h (gemm_buffer_id h) false
          (decomposed_ops T g grid m n k alpha a lda stridea b ldb strideb
             beta c ldc stridec batch_count h),
        report_module_id used i0).
Proof.
  intros Hmn Hbc. unfold gemm_stridedBatch.
  destruct (Z.ltb_spec (2 ^ 24) (u64 (m * n))) as [_|?]; [|lia].
  destruct (Z.to_nat batch_count) as [|remaining] eqn:Hrem; [lia|].
  cbn [gemm_stridedBatch_loop]. rewrite gemm_eq.
  destruct (gemm_select h _ m n) as [[i0 g]|] eqn:Hsel; [|reflexivity].
  cbn [mbind option_bind].
  destruct (gemm_grid_size g m n) as [grid|] eqn:Hgrid; [|reflexivity].
  cbn [mbind option_bind].
  match goal with
  | |- context [gemm_stridedBatch_loop _ _ _ _ _ _ _ _ _ _ _ _ _ _ _ _ _ _ _ _ ?i ?h1 ?u1] =>
      rewrite (gemm_stridedBatch_loop_suppressed K T op_A op_B m n k alpha a lda stridea
                 b ldb strideb beta c ldc stridec compute_mode i0 g grid remaining i h1 u1);
        [|reflexivity|exact Hsel|exact Hgrid]
  end.
  cbn [mbind option_bind]. rewrite report_module_id_idem.
  replace (match remaining with O | _ => report_module_id used i0 end)
    with (report_module_id used i0) by (by destruct remaining).
  f_equal. f_equal. f_equal.
  unfold decomposed_ops. rewrite (seqZ_cons 0) by lia. rewrite fmap_cons. cbn [concat].
  replace (Z.succ 0) with (0 + 1) by lia.
  replace (Z.pred batch_count) with (Z.of_nat remaining) by lia.
  unfold set_counter_init_disabled, after. cbn. f_equal.
  rewrite <- !app_assoc. reflexivity.
Qed.

Lemma gemm_stridedBatch_decomposed_empty K T h op_A op_B m n k alpha a lda stridea
    b ldb strideb beta c ldc stridec batch_count compute_mode used :
  2 ^ 24 < u64 (m * n) ->
  batch_count <= 0 ->
  gemm_stridedBatch K T h op_A op_B m n k alpha a lda stridea b ldb strideb
    beta c ldc stridec batch_count compute_mode used =
  Some (CUBLAS_STATUS_SUCCESS, after h (current_buffer_id h) false [], used).
Proof.
  intros Hmn Hbc. unfold gemm_stridedBatch.
  destruct (Z.ltb_spec (2 ^ 24) (u64 (m * n))) as [_|?]; [|lia].
  replace (Z.to_nat batch_count) with O by lia. cbn.
  f_equal. f_equal. f_equal. destruct_handle h. unfold after. cbn. by rewrite app_nil_r.
Qed.

(** ** Variant selection (C1, C4, C6) *)

(** Without wrap-around the estimates are the quotients of the spec. *)
Lemma gemm_work_exact m n g :
  0 <= m * n < 2 ^ 64 ->
  0 < cumpsgemm.smem_m g * cumpsgemm.smem_n g < 2 ^ 32 ->
  gemm_work m n g = Some (m * n / (cumpsgemm.smem_m g * cumpsgemm.smem_n g)).
Proof.
  intros Hmn Hg. unfold gemm_work. rewrite u64_id, u32_id by lia.
  apply udiv_Some. split; [lia|done].
Qed.

Lemma gemm_stridedBatch_work_exact m n batch_count g :
  0 <= m * n < 2 ^ 64 ->
  0 < cumpsgemm.smem_m g * cumpsgemm.smem_n g < 2 ^ 32 ->
  0 <= m * n / (cumpsgemm.smem_m g * cumpsgemm.smem_n g) * batch_count < 2 ^ 64 ->
  gemm_stridedBatch_work m n batch_count g =
  Some (m * n / (cumpsgemm.smem_m g * cumpsgemm.smem_n g) * batch_count).
Proof.
  intros Hmn Hg Hb. unfold gemm_stridedBatch_work.
  rewrite gemm_work_exact by done. cbn. by rewrite u64_id.
Qed.

Lemma elem_of_after_stream h id d ops o : o ∈ ops -> o ∈ cuda_stream (after h id d ops).
Proof. intros H. unfold after. cbn. apply elem_of_app. by right. Qed.

(** The claim of C4 read on the registration order (stage 0 first, the
    default last) fails: with one multiprocessor the threshold is 32; a
    problem of 64 x 2048 gives an estimate of 32 and keeps the default,
    stage 1, while the larger problem 64 x 2112 gives 33 and selects
    stage 0. *)
Lemma larger_problem_selects_earlier_stage :
  64 * 2048 < 64 * 2112 /\
  fst <$> gemm_select example.handle example.code 64 2048 = Some 1%nat /\
  fst <$> gemm_select example.handle example.code 64 2112 = Some 0%nat /\
  fst <$> gemm_stridedBatch_select example.handle example.code 64 2048 1 = Some 1%nat /\
  fst <$> gemm_stridedBatch_select example.handle example.code 64 2112 1 = Some 0%nat.
Proof. split; [lia|]. repeat split; vm_compute; reflexivity. Qed.

Lemma gemm_work_mono m1 n1 m2 n2 g w1 :
  u64 (m1 * n1) <= u64 (m2 * n2) ->
  gemm_work m1 n1 g = Some w1 ->
  exists w2, gemm_work m2 n2 g = Some w2 /\ 0 <= w1 <= w2 /\ w2 <= u64 (m2 * n2).
Proof.
  unfold gemm_work. intros Hle H1. apply udiv_Some in H1 as [Hne ->].
  exists (u64 (m2 * n2) / u32 (cumpsgemm.smem_m g * cumpsgemm.smem_n g)).
  pose proof (u32_range (cumpsgemm.smem_m g * cumpsgemm.smem_n g)).
  pose proof (u64_range (m1 * n1)). pose proof (u64_range (m2 * n2)).
  split; [by apply udiv_Some|]. split; [split|].
  - apply Z.div_pos; lia.
  - apply Z.div_le_mono; lia.
  - apply Z.div_le_upper_bound; nia.
Qed.

(** C6.  For every signature the public GEMM entry points can produce,
    [cuMpSGEMM_create] leaves stages 0 and 1 of the signature's row
    populated in both the non-batched and the strided-batch table; and on
    any handle with at least one candidate per row, both selection loops
    return an index within [0 .. num_kernel_candidates-1]. *)
Theorem registered_variants_and_selection_range K G obj old T op_A op_B compute_mode
    h m n batch_count :
  valid_signature T op_A op_B compute_mode = true ->
  1 <= num_kernel_candidates h < 2 ^ 32 ->
  (exists created,
      cuMpSGEMM_create K G (new_object obj) old
        = returned CUBLAS_STATUS_SUCCESS (Some created) /\
      forall stage, (stage < 2)%nat ->
        is_Some (gemm_module created
                   !! (gen_module_code K T op_A op_B compute_mode, stage)) /\
        is_Some (gemm_stridedBatch_module created
                   !! (gen_module_code K T op_A op_B compute_mode, stage))) /\
  (forall i g,
      gemm_select h (gen_module_code K T op_A op_B compute_mode) m n = Some (i, g) ->
      0 <= Z.of_nat i <= num_kernel_candidates h - 1) /\
  (forall i g,
      gemm_stridedBatch_select h (gen_module_code K T op_A op_B compute_mode)
        m n batch_count = Some (i, g) ->
      0 <= Z.of_nat i <= num_kernel_candidates h - 1).
Proof.
  intros V Hnum. split; [|split].
  - eexists. split; [reflexivity|]. intros stage Hs. split.
    + apply (created_slot K G obj handle_gemm_module); done.
    + apply (created_slot K G obj handle_gemm_stridedBatch_module); done.
  - intros i g. by apply gemm_select_range.
  - intros i g. by apply gemm_stridedBatch_select_range.
Qed.

Lemma registered_variants_and_selection_range_witness :
  valid_signature float_t CUBLAS_OP_N CUBLAS_OP_N CUMPSGEMM_FP16TCEC = true /\
  1 <= num_kernel_candidates example.handle < 2 ^ 32 /\
  gemm_select example.handle example.code 64 2112 = Some (0%nat, example.variant) /\
  0 <= Z.of_nat 0 <= num_kernel_candidates example.handle - 1.
Proof.
  assert (V : valid_signature float_t CUBLAS_OP_N CUBLAS_OP_N CUMPSGEMM_FP16TCEC = true)
    by reflexivity.
  assert (Hnum : 1 <= num_kernel_candidates example.handle < 2 ^ 32) by (cbn; lia).
  assert (Hsel : gemm_select example.handle example.code 64 2112
                 = Some (0%nat, example.variant)) by (vm_compute; reflexivity).
  split; [exact V|]. split; [exact Hnum|]. split; [exact Hsel|].
  exact (proj1 (proj2 (registered_variants_and_selection_range example.K example.G
                         example.fresh None float_t CUBLAS_OP_N CUBLAS_OP_N
                         CUMPSGEMM_FP16TCEC example.handle 64 2112 1 V Hnum))
           0%nat example.variant Hsel).
Defined.

(** ** Return status (C7) *)

Lemma candidates_ok_last table code num :
  1 <= num < 2 ^ 32 ->
  candidates_ok table code num ->
  is_Some (table !! (code, Z.to_nat (u32 (num - 1)))).
Proof.
  intros Hnum Hok. destruct (Hok (Z.to_nat (u32 (num - 1)))) as (g & -> & _); [|eauto].
  rewrite last_candidate by done. lia.
Qed.

Lemma gemm_select_total h code m n :
  1 <= num_kernel_candidates h < 2 ^ 32 ->
  candidates_ok (gemm_module h) code (num_kernel_candidates h) ->
  is_Some (gemm_select h code m n).
Proof.
  intros Hnum Hok. unfold gemm_select.
  destruct (candidates_ok_last _ _ _ Hnum Hok) as [d ->]. cbn.
  apply select_loop_total. intros j Hj.
  destruct (Hok j) as (g & Hg & _ & _ & Harea).
  { pose proof (last_candidate _ Hnum). lia. }
  exists g. unfold gemm_exceeds, gemm_work, udiv.
  destruct (Z.eqb_spec (u32 (cumpsgemm.smem_m g * cumpsgemm.smem_n g)) 0); [done|].
  cbn. eauto.
Qed.

Lemma gemm_stridedBatch_select_total h code m n batch_count :
  1 <= num_kernel_candidates h < 2 ^ 32 ->
  candidates_ok (gemm_stridedBatch_module h) code (num_kernel_candidates h) ->
  is_Some (gemm_stridedBatch_select h code m n batch_count).
Proof.
  intros Hnum Hok. unfold gemm_stridedBatch_select.
  destruct (candidates_ok_last _ _ _ Hnum Hok) as [d ->]. cbn.
  apply select_loop_total. intros j Hj.
  destruct (Hok j) as (g & Hg & _ & _ & Harea).
  { pose proof (last_candidate _ Hnum). lia. }
  exists g. unfold gemm_stridedBatch_exceeds, gemm_stridedBatch_work, gemm_work, udiv.
  destruct (Z.eqb_spec (u32 (cumpsgemm.smem_m g * cumpsgemm.smem_n g)) 0); [done|].
  cbn. eauto.
Qed.

Lemma selected_tile_sides table work threshold code num i g :
  1 <= num ->
  candidates_ok table code num ->
  selected_by_rule (fun i => table !! (code, i)) work threshold num i g ->
  cumpsgemm.smem_m g <> 0 /\ cumpsgemm.smem_n g <> 0.
Proof.
  intros Hnum Hok (Hg & _ & Hi).
  destruct (Hok i) as (g' & Hg' & ? & ? & _); [lia|].
  rewrite Hg in Hg'. by injection Hg' as <-.
Qed.

Lemma gemm_grid_size_total g m n :
  cumpsgemm.smem_m g <> 0 -> cumpsgemm.smem_n g <> 0 -> is_Some (gemm_grid_size g m n).
Proof.
  intros Hm Hn. unfold gemm_grid_size, udiv.
  destruct (Z.eqb_spec (cumpsgemm.smem_m g) 0); [done|].
  destruct (Z.eqb_spec (cumpsgemm.smem_n g) 0); [done|]. cbn. eauto.
Qed.

Lemma num_blocks_per_gemm_total g m n :
  cumpsgemm.smem_m g <> 0 -> cumpsgemm.smem_n g <> 0 -> is_Some (num_blocks_per_gemm g m n).
Proof.
  intros Hm Hn. unfold num_blocks_per_gemm, udiv.
  destruct (Z.eqb_spec (cumpsgemm.smem_m g) 0); [done|].
  destruct (Z.eqb_spec (cumpsgemm.smem_n g) 0); [done|]. cbn. eauto.
Qed.

Lemma gemm_total K T h op_A op_B m n k alpha a lda b ldb beta c ldc compute_mode used :
  1 <= num_kernel_candidates h < 2 ^ 32 ->
  candidates_ok (gemm_module h) (gen_module_code K T op_A op_B compute_mode)
    (num_kernel_candidates h) ->
  exists h' used',
    gemm K T h op_A op_B m n k alpha a lda b ldb beta c ldc compute_mode used
    = Some (CUBLAS_STATUS_SUCCESS, h', used').
Proof.
  intros Hnum Hok. rewrite gemm_eq.
  destruct (gemm_select_total h _ m n Hnum Hok) as [[i g] Hsel]. rewrite Hsel. cbn.
  apply gemm_select_rule in Hsel; [|done].
  destruct (selected_tile_sides _ _ _ _ _ _ _ (proj1 Hnum) Hok Hsel) as [Hm Hn].
  destruct (gemm_grid_size_total g m n Hm Hn) as [grid ->]. cbn. eauto.
Qed.

Lemma gemm_stridedBatch_total K T h op_A op_B m n k alpha a lda stridea b ldb strideb
    beta c ldc stridec batch_count compute_mode used :
  1 <= num_kernel_candidates h < 2 ^ 32 ->
  candidates_ok (gemm_module h) (gen_module_code K T op_A op_B compute_mode)
    (num_kernel_candidates h) ->
  candidates_ok (gemm_stridedBatch_module h) (gen_module_code K T op_A op_B compute_mode)
    (num_kernel_candidates h) ->
  exists h' used',
    gemm_stridedBatch K T h op_A op_B m n k alpha a lda stridea b ldb strideb
      beta c ldc stridec batch_count compute_mode used
    = Some (CUBLAS_STATUS_SUCCESS, h', used').
Proof.
  intros Hnum Hok Hokb.
  destruct (Z.le_gt_cases (u64 (m * n)) (2 ^ 24)) as [Hmn|Hmn].
  - rewrite gemm_stridedBatch_batched_eq by done.
    destruct (gemm_stridedBatch_select_total h _ m n batch_count Hnum Hokb) as [[i g] Hsel].
    rewrite Hsel. cbn. apply gemm_stridedBatch_select_rule in Hsel; [|done].
    destruct (selected_tile_sides _ _ _ _ _ _ _ (proj1 Hnum) Hokb Hsel) as [Hm Hn].
    destruct (num_blocks_per_gemm_total g m n Hm Hn) as [num_blocks ->]. cbn. eauto.
  - destruct (Z.le_gt_cases batch_count 0) as [Hbc|Hbc].
    + rewrite gemm_stridedBatch_decomposed_empty by lia. eauto.
    + rewrite gemm_stridedBatch_decomposed_eq by lia.
      destruct (gemm_select_total h _ m n Hnum Hok) as [[i g] Hsel]. rewrite Hsel. cbn.
      apply gemm_select_rule in Hsel; [|done].
      destruct (selected_tile_sides _ _ _ _ _ _ _ (proj1 Hnum) Hok Hsel) as [Hm Hn].
      destruct (gemm_grid_size_total g m n Hm Hn) as [grid ->]. cbn. eauto.
Qed.

Lemma gemm_status K T h op_A op_B m n k alpha a lda b ldb beta c ldc compute_mode used
    st h' used' :
  gemm K T h op_A op_B m n k alpha a lda b ldb beta c ldc compute_mode used
    = Some (st, h', used') ->
  st = CUBLAS_STATUS_SUCCESS.
Proof.
  rewrite gemm_eq. destruct (gemm_select h _ m n) as [[i g]|]; [|done]. cbn.
  destruct (gemm_grid_size g m n); [|done]. cbn. by intros [= <- _ _].
Qed.

Lemma gemm_stridedBatch_status K T h op_A op_B m n k alpha a lda stridea b ldb strideb
    beta c ldc stridec batch_count compute_mode used st h' used' :
  gemm_stridedBatch K T h op_A op_B m n k alpha a lda stridea b ldb strideb
    beta c ldc stridec batch_count compute_mode used = Some (st, h', used') ->
  st = CUBLAS_STATUS_SUCCESS.
Proof.
  unfold gemm_stridedBatch. destruct (2 ^ 24 <? u64 (m * n)).
  - destruct (gemm_stridedBatch_loop _ _ _ _ _ _ _ _ _ _ _ _ _ _ _ _ _ _ _ _ _ _ _)
      as [[h1 u1]|]; [|done]. cbn. by intros [= <- _ _].
  - destruct (gemm_stridedBatch_select h _ m n batch_count) as [[i g]|]; [|done]. cbn.
    destruct (exp_stats_enabled h);
      (destruct (launch_kernel_stridedBatch _ _ _ _ _ _ _ _ _ _ _ _ _ _ _ _ _ _ _ _ _ _);
       [|done]); cbn; by intros [= <- _ _].
Qed.

(** C7.  Neither dispatch function has an error path of its own: a call
    that returns at all returns [CUBLAS_STATUS_SUCCESS], for any shape
    (zero dimensions included); and a call returns whenever the rows of the
    signature hold variants with non-zero tiles, which is all the
    dispatcher depends on. *)
Theorem dispatch_returns_success K T h op_A op_B m n k alpha a lda stridea b ldb strideb
    beta c ldc stridec batch_count compute_mode used :
  (forall st h' used',
      gemm K T h op_A op_B m n k alpha a lda b ldb beta c ldc compute_mode used
        = Some (st, h', used') ->
      st = CUBLAS_STATUS_SUCCESS) /\
  (forall st h' used',
      gemm_stridedBatch K T h op_A op_B m n k alpha a lda stridea b ldb strideb
        beta c ldc stridec batch_count compute_mode used = Some (st, h', used') ->
      st = CUBLAS_STATUS_SUCCESS) /\
  (1 <= num_kernel_candidates h < 2 ^ 32 ->
   candidates_ok (gemm_module h) (gen_module_code K T op_A op_B compute_mode)
     (num_kernel_candidates h) ->
   candidates_ok (gemm_stridedBatch_module h) (gen_module_code K T op_A op_B compute_mode)
     (num_kernel_candidates h) ->
   (exists h' used',
       gemm K T h op_A op_B m n k alpha a lda b ldb beta c ldc compute_mode used
       = Some (CUBLAS_STATUS_SUCCESS, h', used')) /\
   (exists h' used',
       gemm_stridedBatch K T h op_A op_B m n k alpha a lda stridea b ldb strideb
         beta c ldc stridec batch_count compute_mode used
       = Some (CUBLAS_STATUS_SUCCESS, h', used'))).
Proof.
  split; [|split].
  - intros st h' used'. apply gemm_status.
  - intros st h' used'. apply gemm_stridedBatch_status.
  - intros Hnum Hok Hokb. split.
    + by apply gemm_total.
    + by apply gemm_stridedBatch_total.
Qed.

Lemma example_candidates_ok module_list :
  candidates_ok (table_of module_list example.handle) example.code
    (num_kernel_candidates example.handle).
Proof.
  intros i Hi. change (num_kernel_candidates example.handle) with 2 in Hi.
  destruct i as [|[|i]]; [| |lia]; destruct module_list;
    (eexists; split; [vm_compute; reflexivity|]; repeat split; vm_compute; discriminate).
Qed.

Lemma dispatch_returns_success_witness :
  1 <= num_kernel_candidates example.handle < 2 ^ 32 /\
  (exists h' used', example.sgemm example.handle 0 0
                    = Some (CUBLAS_STATUS_SUCCESS, h', used')) /\
  (exists h' used', example.sgemm_stridedBatch example.handle 0 0 3
                    = Some (CUBLAS_STATUS_SUCCESS, h', used')).
Proof.
  assert (Hnum : 1 <= num_kernel_candidates example.handle < 2 ^ 32) by (cbn; lia).
  split; [exact Hnum|].
  exact (proj2 (proj2 (dispatch_returns_success example.K float_t example.handle
                         CUBLAS_OP_N CUBLAS_OP_N 0 0 8 example.one 0 0 10 100 8 20
                         example.zero 200 0 30 3 CUMPSGEMM_FP16TCEC (Some 7)))
           Hnum (example_candidates_ok handle_gemm_module)
           (example_candidates_ok handle_gemm_stridedBatch_module)).
Defined.

(** ** Batch decomposition (C2, C5) *)




Lemma init_counters_decomposed T g grid m n k alpha a lda stridea b ldb strideb
    beta c ldc stridec batch_count h :
  filter (fun o => is_init_counter o = true)
    (decomposed_ops T g grid m n k alpha a lda stridea b ldb strideb
       beta c ldc stridec batch_count h) =
  (if gemm_advances h then [init_counter_op (gemm_buffer_id h)] else []).
Proof.
  unfold decomposed_ops. rewrite filter_app.
  assert (Hsub : forall js,
             filter (fun o => is_init_counter o = true)
               (concat (sub_call_ops T g grid m n k alpha a lda stridea b ldb strideb
                          beta c ldc stridec h (gemm_buffer_id h) <$> js)) = []).
  { induction js as [|j js IH]; [reflexivity|].
    rewrite fmap_cons. cbn [concat]. rewrite filter_app, IH.
    unfold sub_call_ops. by destruct (exp_stats_enabled h). }
  rewrite Hsub, app_nil_r. by destruct (gemm_advances h).
Qed.

(** ** Handle creation (C8) *)

(** C8, evaluated.  When the allocation fails with [std::bad_alloc], which
    is how a plain new-expression fails, [cuMpSGEMM_create] returns no
    status at all: the exception leaves the function and [*handle] keeps
    its old value.  The [CUBLAS_STATUS_INTERNAL_ERROR] branch is taken only
    if the new-expression yields [nullptr], and then [*handle] is
    [nullptr]; a successful allocation returns [CUBLAS_STATUS_SUCCESS]. *)
Theorem cuMpSGEMM_create_allocation_outcomes K G old :
  cuMpSGEMM_create K G new_bad_alloc old = thrown_bad_alloc old /\
  cuMpSGEMM_create K G new_nullptr old = returned CUBLAS_STATUS_INTERNAL_ERROR None /\
  forall obj, exists h,
    cuMpSGEMM_create K G (new_object obj) old = returned CUBLAS_STATUS_SUCCESS (Some h).
Proof. split; [reflexivity|]. split; [reflexivity|]. intros obj. eexists. reflexivity. Qed.

(** ** Dynamic launch flag (C9) *)

Lemma exceeds_lt (x t : Q) : dynamic_launch.exceeds x t = true <-> (t < x)%Q.
Proof.
  unfold dynamic_launch.exceeds. rewrite negb_true_iff, <- not_true_iff_false, Qle_bool_iff.
  split; [apply Qnot_le_lt|apply Qlt_not_le].
Qed.

(** C9.  On statistics slots with a positive total, the derived flag is
    [true] exactly when the larger of the two ratios is strictly above the
    threshold; at equality the flag is [false] (the comparison is
    exclusive); other flag slots keep their value. *)
Theorem dynamic_launch_flag_iff_max_ratio_exceeds (exp_stats : Z -> Z * Z)
    (A_id B_id flag_id : Z) (ratio_threshold : Q) (flags : gmap Z bool) :
  0 < (exp_stats A_id).2 ->
  0 < (exp_stats B_id).2 ->
  let r_A := dynamic_launch.ratio (exp_stats A_id) in
  let r_B := dynamic_launch.ratio (exp_stats B_id) in
  let flags' :=
    dynamic_launch.set_dynamic_launch_flag_buffer_by_exp_stats exp_stats
      A_id B_id flag_id ratio_threshold flags in
  (flags' !! flag_id = Some true <-> (ratio_threshold < Qmax r_A r_B)%Q) /\
  ((Qmax r_A r_B == ratio_threshold)%Q -> flags' !! flag_id = Some false) /\
  (forall other, other <> flag_id -> flags' !! other = flags !! other).
Proof.
  intros _ _ r_A r_B flags'.
  assert (Hflag : flags' !! flag_id =
                  Some (dynamic_launch.exceeds r_A ratio_threshold
                        || dynamic_launch.exceeds r_B ratio_threshold)).
  { unfold flags', dynamic_launch.set_dynamic_launch_flag_buffer_by_exp_stats.
    by rewrite lookup_insert_eq. }
  assert (Hiff : dynamic_launch.exceeds r_A ratio_threshold
                 || dynamic_launch.exceeds r_B ratio_threshold = true
                 <-> (ratio_threshold < Qmax r_A r_B)%Q).
  { rewrite orb_true_iff, !exceeds_lt. symmetry. apply Q.max_lt_iff. }
  split; [|split].
  - rewrite Hflag. split; [intros [= E]; by apply Hiff|intros E; f_equal; by apply Hiff].
  - intros Heq. rewrite Hflag. f_equal. apply not_true_iff_false. intros E.
    apply Hiff in E. rewrite Heq in E. by apply Qlt_irrefl in E.
  - intros other Hne. unfold flags',
      dynamic_launch.set_dynamic_launch_flag_buffer_by_exp_stats.
    by rewrite lookup_insert_ne.
Qed.

Lemma dynamic_launch_flag_iff_max_ratio_exceeds_witness :
  0 < ((fun id : Z => if id =? 0 then (1, 4) else (3, 4)) 0).2 /\
  0 < ((fun id : Z => if id =? 0 then (1, 4) else (3, 4)) 1).2 /\
  dynamic_launch.set_dynamic_launch_flag_buffer_by_exp_stats
    (fun id : Z => if id =? 0 then (1, 4) else (3, 4)) 0 1 5 (1 # 2) ∅ !! 5 = Some true.
Proof.
  assert (HA : 0 < ((fun id : Z => if id =? 0 then (1, 4) else (3, 4)) 0).2)
    by (cbn; lia).
  assert (HB : 0 < ((fun id : Z => if id =? 0 then (1, 4) else (3, 4)) 1).2)
    by (cbn; lia).
  split; [exact HA|]. split; [exact HB|].
  apply (proj1 (dynamic_launch_flag_iff_max_ratio_exceeds
                  (fun id : Z => if id =? 0 then (1, 4) else (3, 4)) 0 1 5 (1 # 2) ∅ HA HB)).
  vm_compute. reflexivity.
Defined.

(** The placeholder body in main.cpp derives nothing; the flag comes from
    the preloaded library. *)
Remark placeholder_leaves_flags (A_id B_id flag_id : Z) (t : Q) (flags : gmap Z bool) :
  hijack_control.set_dynamic_launch_flag_buffer_by_exp_stats A_id B_id flag_id t flags
  = flags.
Proof. reflexivity. Qed.

(** ** Lose ratio (C10) *)

(** The counts [get_lost_rate] accumulates, each in [std::size_t]. *)
Lemma get_lost_rate_counts (l : list (Z * Z)) lost0 total0 :
  foldl (fun '(lost_count, total_count) (es : Z * Z) =>
           let total_count := u64 (total_count + es.2) in
           let lost_count := u64 (lost_count + es.1) in
           (lost_count, total_count))
        (lost0, total0) l =
  (foldl (fun acc (es : Z * Z) => u64 (acc + es.1)) lost0 l,
   foldl (fun acc (es : Z * Z) => u64 (acc + es.2)) total0 l).
Proof.
  revert lost0 total0. induction l as [|es l IH]; intros lost0 total0; [reflexivity|].
  cbn [foldl]. apply IH.
Qed.

Lemma total_of_zero_totals (l : list (Z * Z)) :
  Forall (fun es => es.2 = 0) l ->
  foldl (fun acc (es : Z * Z) => u64 (acc + es.2)) 0 l = 0.
Proof.
  induction 1 as [|es l Hes _ IH]; [reflexivity|].
  cbn [foldl]. rewrite Hes. exact IH.
Qed.

Lemma double_div_by_zero x : double_div x (double_of_size_t 0) <> double_zero.
Proof. by destruct x as [[]|[]| |[] ? ?]. Qed.

(** C10.  [get_lose_ratio] returns [0.] for a statistics read whose total
    is zero, and for a positive total the binary64 quotient of the two
    counts; [get_lost_rate] does the same on the counts summed over its
    list.  Dividing by a zero total would never have produced [0.]. *)
Theorem lose_ratio_guards_zero_total (get_exp_stats : Z -> Z * Z) (buffer_id : Z)
    (get_last_exp_stats : list (Z * Z)) :
  let lose_count := (get_exp_stats buffer_id).1 in
  let total_count := (get_exp_stats buffer_id).2 in
  let lost_sum := foldl (fun acc (es : Z * Z) => u64 (acc + es.1)) 0 get_last_exp_stats in
  let total_sum := foldl (fun acc (es : Z * Z) => u64 (acc + es.2)) 0 get_last_exp_stats in
  (total_count = 0 -> get_lose_ratio get_exp_stats buffer_id = double_zero) /\
  (0 < total_count ->
   get_lose_ratio get_exp_stats buffer_id =
   double_div (double_of_size_t lose_count) (double_of_size_t total_count)) /\
  (total_sum = 0 -> get_lost_rate get_last_exp_stats = double_zero) /\
  (Forall (fun es => es.2 = 0) get_last_exp_stats ->
   get_lost_rate get_last_exp_stats = double_zero) /\
  (0 < total_sum ->
   get_lost_rate get_last_exp_stats =
   double_div (double_of_size_t lost_sum) (double_of_size_t total_sum)) /\
  (forall x, double_div x (double_of_size_t 0) <> double_zero).
Proof.
  intros lose_count total_count lost_sum total_sum.
  assert (Hrate : get_lost_rate get_last_exp_stats =
                  if 0 <? total_sum
                  then double_div (double_of_size_t lost_sum) (double_of_size_t total_sum)
                  else double_zero).
  { unfold get_lost_rate. by rewrite get_lost_rate_counts. }
  repeat split.
  - intros H. unfold get_lose_ratio. fold total_count. by rewrite H.
  - intros H. unfold get_lose_ratio. fold total_count lose_count.
    by destruct (Z.ltb_spec 0 total_count); [|lia].
  - intros H. by rewrite Hrate, H.
  - intros H. rewrite Hrate. unfold total_sum. by rewrite total_of_zero_totals.
  - intros H. rewrite Hrate. by destruct (Z.ltb_spec 0 total_sum); [|lia].
  - apply double_div_by_zero.
Qed.

Lemma lose_ratio_guards_zero_total_witness :
  (hijack_control.get_exp_stats 0).2 = 1 /\
  get_lose_ratio hijack_control.get_exp_stats 0 = double_of_size_t 1 /\
  get_lose_ratio (fun _ => (5, 0)) 0 = double_zero /\
  get_lost_rate [(1, 2); (2, 2)] = S754_finite false 6755399441055744 (-53).
Proof.
  split; [reflexivity|].
  pose proof (lose_ratio_guards_zero_total hijack_control.get_exp_stats 0 [(1, 2); (2, 2)])
    as (_ & Hpos & _ & _ & Hsum & _).
  pose proof (lose_ratio_guards_zero_total (fun _ => (5, 0)) 0 []) as (Hzero & _).
  split; [|split].
  - rewrite Hpos by (cbn; lia). vm_compute. reflexivity.
  - apply Hzero. reflexivity.
  - rewrite Hsum by (vm_compute; reflexivity). vm_compute. reflexivity.
Defined.

(** * Further properties of the dispatcher *)

Lemma after_same_configuration h id d ops : same_configuration h (after h id d ops).
Proof. repeat split. Qed.

(** X1.  A call of [gemm] or [gemm_stridedBatch] never writes the module
    tables or the configuration of the handle (candidate count,
    multiprocessor count, statistics switch, counter buffers, thresholds,
    ring length): it only moves the ring cursor, sets or clears the
    suppress-reinitialization flag and appends to the stream, whose earlier
    operations stay in place. *)
Theorem dispatch_preserves_configuration K T h op_A op_B m n k alpha a lda stridea
    b ldb strideb beta c ldc stridec batch_count compute_mode used :
  (forall st h' used',
      gemm K T h op_A op_B m n k alpha a lda b ldb beta c ldc compute_mode used
        = Some (st, h', used') ->
      same_configuration h h' /\
      counter_init_disabled h' = counter_init_disabled h /\
      exists ops, cuda_stream h' = cuda_stream h ++ ops) /\
  (forall st h' used',
      gemm_stridedBatch K T h op_A op_B m n k alpha a lda stridea b ldb strideb
        beta c ldc stridec batch_count compute_mode used = Some (st, h', used') ->
      same_configuration h h' /\
      exists ops, cuda_stream h' = cuda_stream h ++ ops).
Proof.
  split.
  - intros st h' used' H. rewrite gemm_eq in H.
    destruct (gemm_select h _ m n) as [[i g]|]; [|done]. cbn in H.
    destruct (gemm_grid_size g m n) as [grid|]; [|done]. cbn in H.
    injection H as <- <- <-. split; [apply after_same_configuration|].
    split; [reflexivity|]. eexists. reflexivity.
  - intros st h' used' H.
    destruct (Z.le_gt_cases (u64 (m * n)) (2 ^ 24)) as [Hmn|Hmn].
    + rewrite gemm_stridedBatch_batched_eq in H by done.
      destruct (gemm_stridedBatch_select h _ m n batch_count) as [[i g]|]; [|done].
      cbn in H. destruct (num_blocks_per_gemm g m n) as [num_blocks|]; [|done].
      cbn in H. injection H as <- <- <-.
      split; [apply after_same_configuration|]. eexists. reflexivity.
    + destruct (Z.le_gt_cases batch_count 0) as [Hbc|Hbc].
      * rewrite gemm_stridedBatch_decomposed_empty in H by lia.
        injection H as <- <- <-.
        split; [apply after_same_configuration|]. eexists. reflexivity.
      * rewrite gemm_stridedBatch_decomposed_eq in H by lia.
        destruct (gemm_select h _ m n) as [[i g]|]; [|done]. cbn in H.
        destruct (gemm_grid_size g m n) as [grid|]; [|done]. cbn in H.
        injection H as <- <- <-.
        split; [apply after_same_configuration|]. eexists. reflexivity.
Qed.

Lemma dispatch_preserves_configuration_witness :
  example.sgemm example.handle 64 2112
    = Some (CUBLAS_STATUS_SUCCESS, example.after_sgemm, Some 0) /\
  same_configuration example.handle example.after_sgemm.
Proof.
  assert (Hcall : example.sgemm example.handle 64 2112
                  = Some (CUBLAS_STATUS_SUCCESS, example.after_sgemm, Some 0))
    by (vm_compute; reflexivity).
  split; [exact Hcall|].
  exact (proj1 (proj1 (dispatch_preserves_configuration example.K float_t example.handle
                         CUBLAS_OP_N CUBLAS_OP_N 64 2112 8 example.one 0 64 10 100 8 20
                         example.zero 200 64 30 2 CUMPSGEMM_FP16TCEC (Some 7))
                  _ _ _ Hcall)).
Defined.

(** X2.  The batched (not decomposed) path of [gemm_stridedBatch] does not
    look at the suppress-reinitialization flag: with statistics enabled it
    advances the cursor and zeroes the new slot before the launch even when
    the flag is set, and it leaves the flag as it found it.  [gemm] in the
    same state honours the flag: it neither advances nor zeroes. *)
Theorem batched_path_ignores_suppress_flag K T h op_A op_B m n k alpha a lda stridea
    b ldb strideb beta c ldc stridec batch_count compute_mode used :
  exp_stats_enabled h = true ->
  counter_init_disabled h = true ->
  (forall st h' used',
      u64 (m * n) <= 2 ^ 24 ->
      gemm_stridedBatch K T h op_A op_B m n k alpha a lda stridea b ldb strideb
        beta c ldc stridec batch_count compute_mode used = Some (st, h', used') ->
      let id := (current_buffer_id h + 1) mod buffer_length h in
      current_buffer_id h' = id /\
      counter_init_disabled h' = true /\
      exists launch,
        cuda_stream h' =
        cuda_stream h ++ [init_counter_op id; launch; download_exp_stats_op id] /\
        op_counters launch =
        Some (Some (dev_total_counter_buffer h + id), Some (dev_lost_counter_buffer h + id))) /\
  (forall st h' used',
      gemm K T h op_A op_B m n k alpha a lda b ldb beta c ldc compute_mode used
        = Some (st, h', used') ->
      let id := current_buffer_id h in
      current_buffer_id h' = id /\
      counter_init_disabled h' = true /\
      exists launch,
        cuda_stream h' = cuda_stream h ++ [launch; download_exp_stats_op id] /\
        op_counters launch =
        Some (Some (dev_total_counter_buffer h + id), Some (dev_lost_counter_buffer h + id))).
Proof.
  intros Hen Hflag. split.
  - intros st h' used' Hmn H. rewrite gemm_stridedBatch_batched_eq in H by done.
    destruct (gemm_stridedBatch_select h _ m n batch_count) as [[i g]|]; [|done].
    cbn in H. destruct (num_blocks_per_gemm g m n) as [num_blocks|]; [|done].
    cbn in H. injection H as <- <- <-.
    unfold gemm_stridedBatch_buffer_id. rewrite Hen. cbn.
    split; [reflexivity|]. split; [exact Hflag|].
    eexists. split; [reflexivity|]. cbn. unfold counter_ptr. by rewrite Hen.
  - intros st h' used' H. rewrite gemm_eq in H.
    destruct (gemm_select h _ m n) as [[i g]|]; [|done]. cbn in H.
    destruct (gemm_grid_size g m n) as [grid|]; [|done]. cbn in H.
    injection H as <- <- <-.
    assert (Hadv : gemm_advances h = false)
      by (unfold gemm_advances; rewrite Hflag; apply andb_false_r).
    unfold gemm_buffer_id. rewrite Hadv, Hen. cbn.
    split; [reflexivity|]. split; [exact Hflag|].
    eexists. split; [reflexivity|]. cbn. unfold counter_ptr. by rewrite Hen.
Qed.

Lemma batched_path_ignores_suppress_flag_witness :
  exp_stats_enabled cases.suppressed = true /\
  counter_init_disabled cases.suppressed = true /\
  u64 (64 * 64) <= 2 ^ 24 /\
  exists st h' used',
    example.sgemm_stridedBatch cases.suppressed 64 64 2 = Some (st, h', used') /\
    current_buffer_id h' = (current_buffer_id cases.suppressed + 1)
                             mod buffer_length cases.suppressed.
Proof.
  assert (Hen : exp_stats_enabled cases.suppressed = true) by reflexivity.
  assert (Hflag : counter_init_disabled cases.suppressed = true) by reflexivity.
  assert (Hmn : u64 (64 * 64) <= 2 ^ 24) by (vm_compute; discriminate).
  split; [exact Hen|]. split; [exact Hflag|]. split; [exact Hmn|].
  destruct (example.sgemm_stridedBatch cases.suppressed 64 64 2)
    as [[[st h'] used']|] eqn:E; [|vm_compute in E; discriminate E].
  exists st, h', used'. split; [reflexivity|].
  exact (proj1 (proj1 (batched_path_ignores_suppress_flag example.K float_t
                         cases.suppressed CUBLAS_OP_N CUBLAS_OP_N 64 64 8 example.one
                         0 64 10 100 8 20 example.zero 200 64 30 2 CUMPSGEMM_FP16TCEC
                         (Some 7) Hen Hflag) st h' used' Hmn E)).
Defined.

Lemma sub_calls_disabled T g grid m n k alpha a lda stridea b ldb strideb beta c ldc stridec
    h id js :
  exp_stats_enabled h = false ->
  concat (sub_call_ops T g grid m n k alpha a lda stridea b ldb strideb
            beta c ldc stridec h id <$> js) =
  (fun j => gemm_launch T g grid m n k alpha
              (a + u64 (j * stridea)) lda (b + u64 (j * strideb)) ldb beta
              (c + u64 (j * stridec)) ldc h id) <$> js.
Proof.
  intros Hen. induction js as [|j js IH]; [reflexivity|].
  rewrite !fmap_cons. cbn [concat]. rewrite IH. unfold sub_call_ops. by rewrite Hen.
Qed.

(** X3.  With statistics collection disabled a call issues kernel launches
    and nothing else: every launch gets null counter pointers, no slot is
    zeroed or downloaded, and the ring cursor does not move.  A
    non-batched call issues exactly one operation. *)
Theorem statistics_disabled_only_launches K T h op_A op_B m n k alpha a lda stridea
    b ldb strideb beta c ldc stridec batch_count compute_mode used :
  exp_stats_enabled h = false ->
  (forall st h' used',
      gemm K T h op_A op_B m n k alpha a lda b ldb beta c ldc compute_mode used
        = Some (st, h', used') ->
      current_buffer_id h' = current_buffer_id h /\
      exists launch,
        cuda_stream h' = cuda_stream h ++ [launch] /\
        is_gemm_kernel launch = true /\
        op_counters launch = Some (None, None)) /\
  (forall st h' used',
      gemm_stridedBatch K T h op_A op_B m n k alpha a lda stridea b ldb strideb
        beta c ldc stridec batch_count compute_mode used = Some (st, h', used') ->
      current_buffer_id h' = current_buffer_id h /\
      exists ops,
        cuda_stream h' = cuda_stream h ++ ops /\
        Forall (fun o => is_kernel o = true /\ op_counters o = Some (None, None)) ops).
Proof.
  intros Hen.
  assert (Hadv : gemm_advances h = false) by (unfold gemm_advances; by rewrite Hen).
  assert (Hid : gemm_buffer_id h = current_buffer_id h)
    by (unfold gemm_buffer_id; by rewrite Hadv).
  split.
  - intros st h' used' H. rewrite gemm_eq in H.
    destruct (gemm_select h _ m n) as [[i g]|]; [|done]. cbn in H.
    destruct (gemm_grid_size g m n) as [grid|]; [|done]. cbn in H.
    injection H as <- <- <-. rewrite Hadv, Hen, Hid. cbn.
    split; [reflexivity|]. eexists. split; [reflexivity|]. split; [reflexivity|].
    cbn. unfold counter_ptr. by rewrite Hen.
  - intros st h' used' H.
    destruct (Z.le_gt_cases (u64 (m * n)) (2 ^ 24)) as [Hmn|Hmn].
    + rewrite gemm_stridedBatch_batched_eq in H by done.
      destruct (gemm_stridedBatch_select h _ m n batch_count) as [[i g]|]; [|done].
      cbn in H. destruct (num_blocks_per_gemm g m n) as [num_blocks|]; [|done].
      cbn in H. injection H as <- <- <-.
      unfold gemm_stridedBatch_buffer_id. rewrite Hen. cbn.
      split; [reflexivity|]. eexists. split; [reflexivity|].
      apply Forall_singleton. split; [reflexivity|].
      cbn. unfold counter_ptr. by rewrite Hen.
    + destruct (Z.le_gt_cases batch_count 0) as [Hbc|Hbc].
      * rewrite gemm_stridedBatch_decomposed_empty in H by lia.
        injection H as <- <- <-. split; [reflexivity|].
        exists []. split; [reflexivity|]. apply Forall_nil_2.
      * rewrite gemm_stridedBatch_decomposed_eq in H by lia.
        destruct (gemm_select h _ m n) as [[i g]|]; [|done]. cbn in H.
        destruct (gemm_grid_size g m n) as [grid|]; [|done]. cbn in H.
        injection H as <- <- <-. split; [exact Hid|].
        eexists. split; [reflexivity|].
        unfold decomposed_ops. rewrite Hadv, sub_calls_disabled by done. cbn [app].
        apply Forall_fmap, Forall_forall. intros j _. split; [reflexivity|].
        cbn. unfold counter_ptr. by rewrite Hen.
Qed.

Lemma statistics_disabled_only_launches_witness :
  exp_stats_enabled cases.quiet = false /\
  exists st h' used',
    example.sgemm cases.quiet 64 2112 = Some (st, h', used') /\
    current_buffer_id h' = current_buffer_id cases.quiet.
Proof.
  assert (Hen : exp_stats_enabled cases.quiet = false) by reflexivity.
  split; [exact Hen|].
  destruct (example.sgemm cases.quiet 64 2112)
    as [[[st h'] used']|] eqn:E; [|vm_compute in E; discriminate E].
  exists st, h', used'. split; [reflexivity|].
  exact (proj1 (proj1 (statistics_disabled_only_launches example.K float_t
                         cases.quiet CUBLAS_OP_N CUBLAS_OP_N 64 2112 8 example.one
                         0 64 10 100 8 20 example.zero 200 64 30 2 CUMPSGEMM_FP16TCEC
                         (Some 7) Hen) st h' used' E)).
Defined.

Lemma decomposed_ops_last T g grid m n k alpha a lda stridea b ldb strideb beta c ldc stridec
    batch_count h :
  0 < batch_count ->
  exists ops,
    decomposed_ops T g grid m n k alpha a lda stridea b ldb strideb
      beta c ldc stridec batch_count h =
    ops ++ sub_call_ops T g grid m n k alpha a lda stridea b ldb strideb
             beta c ldc stridec h (gemm_buffer_id h) (batch_count - 1).
Proof.
  intros Hbc. unfold decomposed_ops.
  assert (Hs : seqZ 0 batch_count = seqZ 0 (batch_count - 1) ++ [batch_count - 1]).
  { replace batch_count with ((batch_count - 1) + 1) at 1 by lia.
    rewrite seqZ_app by lia. f_equal. }
  rewrite Hs, fmap_app, concat_app. cbn.
  rewrite app_nil_r, app_assoc. eexists. reflexivity.
Qed.

(** X4.  After a call with statistics enabled, [get_current_buffer_id]
    names the slot that was used: the stream ends with the call's (last)
    launch, whose two counter pointers are the counter buffers offset by
    that id, followed by the download of that id.  This is what the
    exp-stats tests rely on when they read the id after the call. *)
Theorem current_buffer_id_names_the_slot_used K T h op_A op_B m n k alpha a lda stridea
    b ldb strideb beta c ldc stridec batch_count compute_mode used :
  exp_stats_enabled h = true ->
  (forall st h' used',
      gemm K T h op_A op_B m n k alpha a lda b ldb beta c ldc compute_mode used
        = Some (st, h', used') ->
      let id := exp_stats.get_current_buffer_id h' in
      exists ops launch,
        cuda_stream h' = cuda_stream h ++ ops ++ [launch; download_exp_stats_op id] /\
        op_counters launch =
        Some (Some (dev_total_counter_buffer h' + id),
              Some (dev_lost_counter_buffer h' + id))) /\
  (forall st h' used',
      u64 (m * n) <= 2 ^ 24 \/ 0 < batch_count ->
      gemm_stridedBatch K T h op_A op_B m n k alpha a lda stridea b ldb strideb
        beta c ldc stridec batch_count compute_mode used = Some (st, h', used') ->
      let id := exp_stats.get_current_buffer_id h' in
      exists ops launch,
        cuda_stream h' = cuda_stream h ++ ops ++ [launch; download_exp_stats_op id] /\
        op_counters launch =
        Some (Some (dev_total_counter_buffer h' + id),
              Some (dev_lost_counter_buffer h' + id))).
Proof.
  intros Hen. split.
  - intros st h' used' H. rewrite gemm_eq in H.
    destruct (gemm_select h _ m n) as [[i g]|]; [|done]. cbn in H.
    destruct (gemm_grid_size g m n) as [grid|]; [|done]. cbn in H.
    injection H as <- <- <-. rewrite Hen. cbn.
    eexists _, _. split; [reflexivity|]. cbn. unfold counter_ptr. by rewrite Hen.
  - intros st h' used' Hcase H.
    destruct (Z.le_gt_cases (u64 (m * n)) (2 ^ 24)) as [Hmn|Hmn].
    + rewrite gemm_stridedBatch_batched_eq in H by done.
      destruct (gemm_stridedBatch_select h _ m n batch_count) as [[i g]|]; [|done].
      cbn in H. destruct (num_blocks_per_gemm g m n) as [num_blocks|]; [|done].
      cbn in H. injection H as <- <- <-. rewrite Hen. cbn.
      exists [init_counter_op (gemm_stridedBatch_buffer_id h)]. eexists.
      split; [reflexivity|]. cbn. unfold counter_ptr. by rewrite Hen.
    + destruct Hcase as [?|Hbc]; [lia|].
      rewrite gemm_stridedBatch_decomposed_eq in H by lia.
      destruct (gemm_select h _ m n) as [[i g]|]; [|done]. cbn in H.
      destruct (gemm_grid_size g m n) as [grid|]; [|done]. cbn in H.
      injection H as <- <- <-.
      destruct (decomposed_ops_last T g grid m n k alpha a lda stridea b ldb strideb
                  beta c ldc stridec batch_count h Hbc) as [ops Hops].
      cbn. rewrite Hops. unfold sub_call_ops. rewrite Hen.
      exists ops. eexists. split; [reflexivity|]. cbn. unfold counter_ptr. by rewrite Hen.
Qed.

Lemma current_buffer_id_names_the_slot_used_witness :
  exp_stats_enabled example.handle = true /\
  2 ^ 24 < u64 (4096 * 4097) /\
  example.sgemm_stridedBatch example.handle 4096 4097 2
    = Some (CUBLAS_STATUS_SUCCESS, example.after_decomposed, Some 0) /\
  exists ops launch,
    cuda_stream example.after_decomposed =
    cuda_stream example.handle ++ ops ++ [launch; download_exp_stats_op 1].
Proof.
  assert (Hen : exp_stats_enabled example.handle = true) by reflexivity.
  assert (Hcall : example.sgemm_stridedBatch example.handle 4096 4097 2
                  = Some (CUBLAS_STATUS_SUCCESS, example.after_decomposed, Some 0))
    by (vm_compute; reflexivity).
  assert (Hcase : u64 (4096 * 4097) <= 2 ^ 24 \/ 0 < 2) by (right; lia).
  split; [exact Hen|]. split; [vm_compute; reflexivity|]. split; [exact Hcall|].
  destruct (proj2 (current_buffer_id_names_the_slot_used example.K float_t example.handle
                     CUBLAS_OP_N CUBLAS_OP_N 4096 4097 8 example.one 0 4096 10 100 8 20
                     example.zero 200 4096 30 2 CUMPSGEMM_FP16TCEC (Some 7) Hen)
              _ _ _ Hcase Hcall) as (ops & launch & Hs & _).
  exists ops, launch. exact Hs.
Defined.

(** ** Grid sizes *)

Lemma ceil_blocks x sz :
  0 < sz -> 0 <= x -> x + sz <= 2 ^ 64 ->
  udiv (u64 (x + sz - 1)) sz = Some ((x + sz - 1) / sz) /\
  x <= (x + sz - 1) / sz * sz < x + sz /\
  0 <= (x + sz - 1) / sz.
Proof.
  intros Hsz Hx Hb. rewrite u64_id by lia. split; [apply udiv_Some; split; [lia|done]|].
  pose proof (Z.mul_div_le (x + sz - 1) sz Hsz).
  pose proof (Z.mul_succ_div_gt (x + sz - 1) sz Hsz).
  split; [lia|]. apply Z.div_pos; lia.
Qed.

(** X5.  The grid of the non-batched launch tiles the whole output: it is
    the product of the block counts along [m] and [n], and each count
    times its tile side reaches the dimension without overshooting by a
    full tile.  (Tile sides positive, [m + smem_m] and [n + smem_n] within
    64 bits; the product is what [dim3] receives when it fits 32 bits.) *)
Theorem gemm_grid_tiles_the_output g m n :
  0 < cumpsgemm.smem_m g -> 0 < cumpsgemm.smem_n g ->
  0 <= m -> 0 <= n ->
  m + cumpsgemm.smem_m g <= 2 ^ 64 -> n + cumpsgemm.smem_n g <= 2 ^ 64 ->
  exists blocks_m blocks_n,
    m <= blocks_m * cumpsgemm.smem_m g < m + cumpsgemm.smem_m g /\
    n <= blocks_n * cumpsgemm.smem_n g < n + cumpsgemm.smem_n g /\
    gemm_grid_size g m n = Some (u32 (u64 (blocks_m * blocks_n))) /\
    (blocks_m * blocks_n < 2 ^ 32 -> gemm_grid_size g m n = Some (blocks_m * blocks_n)).
Proof.
  intros Hsm Hsn Hm Hn Hbm Hbn.
  destruct (ceil_blocks m _ Hsm Hm Hbm) as (Em & Rm & Pm).
  destruct (ceil_blocks n _ Hsn Hn Hbn) as (En & Rn & Pn).
  exists ((m + cumpsgemm.smem_m g - 1) / cumpsgemm.smem_m g),
         ((n + cumpsgemm.smem_n g - 1) / cumpsgemm.smem_n g).
  split; [exact Rm|]. split; [exact Rn|].
  assert (E : gemm_grid_size g m n =
              Some (u32 (u64 ((m + cumpsgemm.smem_m g - 1) / cumpsgemm.smem_m g *
                              ((n + cumpsgemm.smem_n g - 1) / cumpsgemm.smem_n g))))).
  { unfold gemm_grid_size. rewrite Em. cbn. rewrite En. reflexivity. }
  split; [exact E|]. intros Hfit. rewrite E. f_equal.
  rewrite u64_id by nia. apply u32_id. nia.
Qed.

Lemma gemm_grid_tiles_the_output_witness :
  0 < cumpsgemm.smem_m example.variant /\
  gemm_grid_size example.variant 64 2112 = Some 33.
Proof.
  assert (Hsm : 0 < cumpsgemm.smem_m example.variant) by (cbn; lia).
  split; [exact Hsm|].
  destruct (gemm_grid_tiles_the_output example.variant 64 2112 Hsm)
    as (bm & bn & Rm & Rn & _ & E); try (cbn; lia).
  change (cumpsgemm.smem_m example.variant) with 64 in Rm.
  change (cumpsgemm.smem_n example.variant) with 64 in Rn.
  assert (bm = 1) as -> by lia. assert (bn = 33) as -> by lia.
  apply E. lia.
Defined.

(** X6.  The strided-batch launch computes its block count per item
    without the inner parentheses of the non-batched one.  The result is
    never smaller than the product of the two block counts, exceeds it by
    [blocks_m * ((n + smem_n - 1) mod smem_n) / smem_n], and so equals it
    only when [blocks_m * ((n + smem_n - 1) mod smem_n) < smem_n]. *)
Theorem batched_block_count_over_provisions g m n :
  0 < cumpsgemm.smem_m g -> 0 < cumpsgemm.smem_n g ->
  0 <= m -> 0 <= n ->
  m + cumpsgemm.smem_m g <= 2 ^ 64 -> n + cumpsgemm.smem_n g <= 2 ^ 64 ->
  let blocks_m := (m + cumpsgemm.smem_m g - 1) / cumpsgemm.smem_m g in
  let blocks_n := (n + cumpsgemm.smem_n g - 1) / cumpsgemm.smem_n g in
  let rest := (n + cumpsgemm.smem_n g - 1) mod cumpsgemm.smem_n g in
  blocks_m * (n + cumpsgemm.smem_n g - 1) < 2 ^ 64 ->
  gemm_grid_size g m n = Some (u32 (u64 (blocks_m * blocks_n))) /\
  exists num_blocks,
    num_blocks_per_gemm g m n = Some num_blocks /\
    num_blocks = blocks_m * blocks_n + blocks_m * rest / cumpsgemm.smem_n g /\
    blocks_m * blocks_n <= num_blocks /\
    (num_blocks = blocks_m * blocks_n <-> blocks_m * rest < cumpsgemm.smem_n g).
Proof.
  intros Hsm Hsn Hm Hn Hbm Hbn blocks_m blocks_n rest Hfit.
  destruct (ceil_blocks m _ Hsm Hm Hbm) as (Em & Rm & Pm).
  destruct (ceil_blocks n _ Hsn Hn Hbn) as (En & Rn & Pn).
  fold blocks_m in Em, Rm, Pm. fold blocks_n in En, Rn, Pn.
  split.
  { unfold gemm_grid_size. rewrite Em. cbn. rewrite En. reflexivity. }
  assert (Hrest : 0 <= rest < cumpsgemm.smem_n g) by (apply Z.mod_pos_bound; lia).
  assert (Hsplit : n + cumpsgemm.smem_n g - 1 = blocks_n * cumpsgemm.smem_n g + rest).
  { unfold blocks_n, rest.
    rewrite (Z.mul_comm _ (cumpsgemm.smem_n g)). apply Z.div_mod. lia. }
  assert (Hq : blocks_m * (n + cumpsgemm.smem_n g - 1) / cumpsgemm.smem_n g =
               blocks_m * blocks_n + blocks_m * rest / cumpsgemm.smem_n g).
  { rewrite Hsplit.
    replace (blocks_m * (blocks_n * cumpsgemm.smem_n g + rest))
      with (blocks_m * blocks_n * cumpsgemm.smem_n g + blocks_m * rest) by ring.
    rewrite Z.div_add_l by lia. reflexivity. }
  assert (Hextra : 0 <= blocks_m * rest / cumpsgemm.smem_n g)
    by (apply Z.div_pos; nia).
  eexists. split; [|split; [exact Hq|split]].
  - unfold num_blocks_per_gemm. rewrite Em. cbn.
    rewrite (u64_id (n + cumpsgemm.smem_n g - 1)) by lia.
    rewrite u64_id by nia. apply udiv_Some. split; [lia|reflexivity].
  - rewrite Hq. lia.
  - rewrite Hq. split.
    + intros E. assert (E0 : blocks_m * rest / cumpsgemm.smem_n g = 0) by lia.
      apply Z.div_small_iff in E0; [|lia]. nia.
    + intros Hlt. rewrite (Z.div_small (blocks_m * rest)) by nia. lia.
Qed.

Lemma batched_block_count_over_provisions_witness :
  0 < cumpsgemm.smem_m example.variant /\
  num_blocks_per_gemm example.variant 4096 4096 = Some 4159 /\
  gemm_grid_size example.variant 4096 4096 = Some 4096.
Proof.
  assert (Hsm : 0 < cumpsgemm.smem_m example.variant) by (cbn; lia).
  split; [exact Hsm|].
  destruct (batched_block_count_over_provisions example.variant 4096 4096 Hsm)
    as (Eg & nb & Enb & Hnb & _); try (cbn; lia); [vm_compute; reflexivity|].
  split.
  - rewrite Enb, Hnb. vm_compute. reflexivity.
  - rewrite Eg. vm_compute. reflexivity.
Defined.

(** ** What [cuMpSGEMM_create] leaves in the tables *)

Lemma register_store K G r h :
  register K G r h =
  store_module (registration_slot K r).1 (registration_slot K r).2
    (registration_module G r) h.
Proof. by destruct r. Qed.

Lemma store_module_lookup module_list' key' v h module_list key :
  table_of module_list (store_module module_list' key' v h) !! key =
  if decide ((module_list', key') = (module_list, key)) then Some v
  else table_of module_list h !! key.
Proof.
  destruct_handle h.
  destruct (decide ((module_list', key') = (module_list, key))) as [E|N].
  - injection E as -> ->. destruct module_list; simpl; by rewrite lookup_insert_eq.
  - destruct module_list', module_list; simpl; try done;
      (rewrite lookup_insert_ne; [done|]; intros ->; by apply N).
Qed.

Lemma register_lookup K G r h module_list key :
  table_of module_list (register K G r h) !! key =
  if decide (registration_slot K r = (module_list, key))
  then Some (registration_module G r)
  else table_of module_list h !! key.
Proof.
  rewrite register_store, store_module_lookup.
  destruct (registration_slot K r) as [ml' key']. reflexivity.
Qed.

(** A slot holds [v] after a run of macro invocations when every
    invocation that names the slot stores [v], and either one of them does
    name it or the slot held [v] before. *)
Lemma registrations_lookup K G rs h module_list key v :
  (forall r, r ∈ rs -> registration_slot K r = (module_list, key) ->
     registration_module G r = v) ->
  (exists r, r ∈ rs /\ registration_slot K r = (module_list, key)) \/
  table_of module_list h !! key = Some v ->
  table_of module_list (foldl (fun h r => register K G r h) h rs) !! key = Some v.
Proof.
  revert h. induction rs as [|r rs IH]; intros h Hall Hsome; simpl.
  - destruct Hsome as [(r & Hin & _)|H]; [by apply elem_of_nil in Hin|done].
  - apply IH.
    + intros r' Hin. apply Hall. by apply elem_of_cons; right.
    + rewrite register_lookup.
      destruct (decide (registration_slot K r = (module_list, key))) as [E|N].
      * right. f_equal. apply Hall; [by apply elem_of_cons; left|done].
      * destruct Hsome as [(r0 & Hin & E0)|H]; [|by right].
        apply elem_of_cons in Hin as [->|Hin]; [done|]. left. eauto.
Qed.

Lemma registrations_untouched K G rs h module_list key :
  (forall r, r ∈ rs -> registration_slot K r <> (module_list, key)) ->
  table_of module_list (foldl (fun h r => register K G r h) h rs) !! key =
  table_of module_list h !! key.
Proof.
  revert h. induction rs as [|r rs IH]; intros h Hall; simpl; [done|].
  rewrite IH by (intros r' Hin; apply Hall; by apply elem_of_cons; right).
  rewrite register_lookup.
  destruct (decide _) as [E|_]; [|done].
  exfalso. eapply Hall; [|exact E]. by apply elem_of_cons; left.
Qed.

(** Every macro invocation of [cuMpSGEMM_create] is the one
    [registration_for] builds from a signature of the public entry points,
    a table and a stage below two. *)
Lemma registered_is_registration_for r :
  r ∈ kernel_module_registrations ->
  exists module_list T op_A op_B compute_mode stage,
    valid_signature T op_A op_B compute_mode = true /\ (stage < 2)%nat /\
    r = registration_for module_list T op_A op_B compute_mode stage.
Proof.
  intros Hin.
  assert (Hall : Forall (fun r =>
            r ∈ (module_list ← [handle_gemm_module; handle_gemm_stridedBatch_module];
                 sg ← valid_signatures;
                 stage ← [0%nat; 1%nat];
                 [registration_for module_list sg.1.1.1 sg.1.1.2 sg.1.2 sg.2 stage]))
            kernel_module_registrations)
    by (apply (bool_decide_unpack _); vm_compute; exact I).
  rewrite Forall_forall in Hall. specialize (Hall r Hin).
  apply list_elem_of_bind in Hall as (module_list & Hall & _).
  apply list_elem_of_bind in Hall as ([[[T op_A] op_B] compute_mode] & Hall & Hsg).
  apply list_elem_of_bind in Hall as (stage & Hall & Hstage).
  apply list_elem_of_singleton in Hall. apply valid_signatures_spec in Hsg.
  exists module_list, T, op_A, op_B, compute_mode, stage.
  split; [exact Hsg|]. split; [|exact Hall].
  apply elem_of_cons in Hstage as [->|Hstage]; [lia|].
  apply list_elem_of_singleton in Hstage as ->. lia.
Qed.

Lemma registration_for_module G module_list T op_A op_B compute_mode stage :
  registration_module G (registration_for module_list T op_A op_B compute_mode stage) =
  generator_of module_list G (signature_template T op_A op_B compute_mode).
Proof. by destruct module_list. Qed.

Lemma created_lookup K M G obj module_list T op_A op_B compute_mode stage :
  disjoint_bit_fields K M ->
  valid_signature T op_A op_B compute_mode = true ->
  (stage < 2)%nat ->
  table_of module_list (created K G obj)
    !! (gen_module_code K T op_A op_B compute_mode, stage) =
  Some (generator_of module_list G (signature_template T op_A op_B compute_mode)).
Proof.
  intros HK V Hs. apply registrations_lookup.
  - intros r Hin Hslot.
    destruct (registered_is_registration_for r Hin)
      as (ml' & T' & a' & b' & mode' & stage' & V' & _ & ->).
    rewrite registration_for_slot in Hslot by done.
    injection Hslot as -> Hcode ->.
    rewrite !gen_module_code_macro in Hcode by done.
    apply (macro_code_inj K M HK) in Hcode as (? & ? & ? & ? & ?).
    assert (E : (T', a', b', mode') = (T, op_A, op_B, compute_mode))
      by (by apply signature_tokens_inj).
    injection E as -> -> -> ->. apply registration_for_module.
  - left. exists (registration_for module_list T op_A op_B compute_mode stage).
    split; [by apply registration_for_registered|by apply registration_for_slot].
Qed.

Lemma registrations_fields K G rs h :
  let h' := foldl (fun h r => register K G r h) h rs in
  num_kernel_candidates h' = num_kernel_candidates h /\
  num_sms h' = num_sms h /\
  exp_stats_enabled h' = exp_stats_enabled h /\
  counter_init_disabled h' = counter_init_disabled h /\
  dev_total_counter_buffer h' = dev_total_counter_buffer h /\
  dev_lost_counter_buffer h' = dev_lost_counter_buffer h /\
  ignore_threshold h' = ignore_threshold h /\
  lost_threshold h' = lost_threshold h /\
  current_buffer_id h' = current_buffer_id h /\
  buffer_length h' = buffer_length h /\
  cuda_stream h' = cuda_stream h.
Proof.
  revert h. induction rs as [|r rs IH]; intros h; [done|]. simpl.
  destruct (IH (register K G r h)) as (-> & -> & -> & -> & -> & -> & -> & -> & -> & -> & ->).
  rewrite register_store. destruct (registration_slot K r).1; destruct_handle h; done.
Qed.

(** X7.  [cuMpSGEMM_create] runs 208 macro invocations; no two name the
    same table, tokens and stage; and they are exactly the invocations for
    the 52 signatures of the public entry points, in each of the two
    tables, at stages 0 and 1.  In particular nothing is registered for a
    [float] signature with a conjugated operand. *)
Theorem create_registers_each_signature_once :
  length kernel_module_registrations = 208%nat /\
  NoDup (registration_key <$> kernel_module_registrations) /\
  (forall r, r ∈ kernel_module_registrations <->
     exists module_list T op_A op_B compute_mode stage,
       valid_signature T op_A op_B compute_mode = true /\ (stage < 2)%nat /\
       r = registration_for module_list T op_A op_B compute_mode stage).
Proof.
  split; [reflexivity|]. split.
  - apply (bool_decide_unpack _). vm_compute. exact I.
  - intros r. split; [apply registered_is_registration_for|].
    intros (module_list & T & op_A & op_B & compute_mode & stage & V & Hs & ->).
    by apply registration_for_registered.
Qed.

(** X8.  Looking up what creation stored: for module-code constants laid
    out as disjoint bit-fields, the slot that [gen_module_code] computes
    for a signature of the public entry points holds, in either table and
    at stage 0 as at stage 1, the variant generated from that signature's
    own template (element type, layouts, tensor-core type, error
    correction) with the tile 64 x 64 x 32.  So both stages of a row hold
    the same variant, whatever the object held before. *)
Theorem created_slot_holds_the_signature_variant K M G obj module_list
    T op_A op_B compute_mode :
  disjoint_bit_fields K M ->
  valid_signature T op_A op_B compute_mode = true ->
  forall stage, (stage < 2)%nat ->
    table_of module_list (created K G obj)
      !! (gen_module_code K T op_A op_B compute_mode, stage) =
    Some (generator_of module_list G (signature_template T op_A op_B compute_mode)) /\
    table_of module_list (created K G obj)
      !! (gen_module_code K T op_A op_B compute_mode, stage) =
    table_of module_list (created K G obj)
      !! (gen_module_code K T op_A op_B compute_mode, 0%nat).
Proof.
  intros HK V stage Hs.
  rewrite !(created_lookup K M) by (done || lia). done.
Qed.

Lemma created_slot_holds_the_signature_variant_witness :
  disjoint_bit_fields example.K example.M /\
  table_of handle_gemm_module (created example.K example.G example.fresh)
    !! (gen_module_code example.K float_t CUBLAS_OP_N CUBLAS_OP_N CUMPSGEMM_FP16TCEC, 1%nat) =
  Some (generator_of handle_gemm_module example.G
          (signature_template float_t CUBLAS_OP_N CUBLAS_OP_N CUMPSGEMM_FP16TCEC)).
Proof.
  assert (H : disjoint_bit_fields example.K example.M).
  { split; try reflexivity; try (by intros []);
      intros [] [] E; try reflexivity; vm_compute in E; discriminate E. }
  split; [exact H|].
  assert (V : valid_signature float_t CUBLAS_OP_N CUBLAS_OP_N CUMPSGEMM_FP16TCEC = true)
    by reflexivity.
  assert (Hs : (1 < 2)%nat) by lia.
  exact (proj1 (created_slot_holds_the_signature_variant example.K example.M example.G
                  example.fresh handle_gemm_module float_t CUBLAS_OP_N CUBLAS_OP_N
                  CUMPSGEMM_FP16TCEC H V 1%nat Hs)).
Defined.

(** X9.  [cuMpSGEMM_create] writes table slots only: every other member of
    the new object keeps the value the object was allocated with (the
    function initialises none of them), and a slot at a stage of two or
    more holds what it held before. *)
Theorem create_writes_table_slots_only K G obj :
  num_kernel_candidates (created K G obj) = num_kernel_candidates obj /\
  num_sms (created K G obj) = num_sms obj /\
  exp_stats_enabled (created K G obj) = exp_stats_enabled obj /\
  counter_init_disabled (created K G obj) = counter_init_disabled obj /\
  dev_total_counter_buffer (created K G obj) = dev_total_counter_buffer obj /\
  dev_lost_counter_buffer (created K G obj) = dev_lost_counter_buffer obj /\
  ignore_threshold (created K G obj) = ignore_threshold obj /\
  lost_threshold (created K G obj) = lost_threshold obj /\
  current_buffer_id (created K G obj) = current_buffer_id obj /\
  buffer_length (created K G obj) = buffer_length obj /\
  cuda_stream (created K G obj) = cuda_stream obj /\
  (forall module_list code stage, (2 <= stage)%nat ->
     table_of module_list (created K G obj) !! (code, stage) =
     table_of module_list obj !! (code, stage)).
Proof.
  unfold created.
  destruct (registrations_fields K G kernel_module_registrations obj)
    as (H1 & H2 & H3 & H4 & H5 & H6 & H7 & H8 & H9 & H10 & H11).
  split; [exact H1|]. split; [exact H2|]. split; [exact H3|]. split; [exact H4|].
  split; [exact H5|]. split; [exact H6|]. split; [exact H7|]. split; [exact H8|].
  split; [exact H9|]. split; [exact H10|]. split; [exact H11|].
  intros module_list code stage Hs. apply registrations_untouched.
  intros r Hin Hslot.
  destruct (registered_is_registration_for r Hin)
    as (ml' & T' & a' & b' & mode' & stage' & V' & Hs' & ->).
  rewrite registration_for_slot in Hslot by done.
  injection Hslot as _ _ ->. lia.
Qed.

(** X10.  Creating a handle and calling [gemm] on it: for a signature of
    the public entry points, with one or two candidates per signature and
    a generated variant whose tile sides and 32-bit tile area are
    non-zero, the call returns [CUBLAS_STATUS_SUCCESS] and launches the
    variant generated from the signature's template, whatever [m] and [n]
    are; the stage the selection loop reports does not change the kernel
    that runs. *)
Theorem gemm_after_create_launches_the_signature_variant K M G obj T op_A op_B
    m n k alpha a lda b ldb beta c ldc compute_mode used :
  disjoint_bit_fields K M ->
  valid_signature T op_A op_B compute_mode = true ->
  1 <= num_kernel_candidates obj <= 2 ->
  let g := generate_gemm_module G (signature_template T op_A op_B compute_mode) in
  let h := created K G obj in
  cumpsgemm.smem_m g <> 0 -> cumpsgemm.smem_n g <> 0 ->
  u32 (cumpsgemm.smem_m g * cumpsgemm.smem_n g) <> 0 ->
  exists (i : nat) grid,
    (i < 2)%nat /\
    gemm_grid_size g m n = Some grid /\
    gemm K T h op_A op_B m n k alpha a lda b ldb beta c ldc compute_mode used =
    Some (CUBLAS_STATUS_SUCCESS,
          after h (gemm_buffer_id h) (counter_init_disabled h)
            ((if gemm_advances h then [init_counter_op (gemm_buffer_id h)] else []) ++
             [gemm_launch T g grid m n k alpha a lda b ldb beta c ldc h (gemm_buffer_id h)] ++
             (if exp_stats_enabled h then [download_exp_stats_op (gemm_buffer_id h)] else [])),
          report_module_id used i).
Proof.
  intros HK V Hnum g h Hm Hn Harea.
  assert (Hc : num_kernel_candidates h = num_kernel_candidates obj)
    by exact (proj1 (registrations_fields K G kernel_module_registrations obj)).
  assert (Hlook : forall j, (j < 2)%nat ->
            gemm_module h !! (gen_module_code K T op_A op_B compute_mode, j) = Some g)
    by (intros j Hj;
        exact (created_lookup K M G obj handle_gemm_module T op_A op_B compute_mode j
                 HK V Hj)).
  clearbody h g.
  assert (Hnum' : 1 <= num_kernel_candidates h < 2 ^ 32) by lia.
  assert (Hok : candidates_ok (gemm_module h) (gen_module_code K T op_A op_B compute_mode)
                  (num_kernel_candidates h)).
  { intros j Hj. exists g. split; [apply Hlook; lia|]. split; [exact Hm|].
    split; [exact Hn|exact Harea]. }
  destruct (gemm_select_total h _ m n Hnum' Hok) as [[i g'] Hsel].
  pose proof (gemm_select_rule _ _ _ _ _ _ Hnum' Hsel) as (Hg' & _ & Hi).
  assert (Hi2 : (i < 2)%nat) by lia.
  assert (g' = g) as ->.
  { cbv beta in Hg'. rewrite (Hlook i Hi2) in Hg'. by injection Hg'. }
  destruct (gemm_grid_size_total g m n Hm Hn) as [grid Hgrid].
  exists i, grid. split; [exact Hi2|]. split; [exact Hgrid|].
  rewrite gemm_eq, Hsel. cbn [mbind option_bind]. rewrite Hgrid. reflexivity.
Qed.

Lemma gemm_after_create_launches_the_signature_variant_witness :
  disjoint_bit_fields example.K example.M /\
  exists h' used',
    gemm example.K float_t (created example.K example.G example.fresh)
      CUBLAS_OP_N CUBLAS_OP_N 64 2112 8 example.one 0 64 100 8 example.zero 200 64
      CUMPSGEMM_FP16TCEC (Some 7) =
    Some (CUBLAS_STATUS_SUCCESS, h', used').
Proof.
  assert (H : disjoint_bit_fields example.K example.M).
  { split; try reflexivity; try (by intros []);
      intros [] [] E; try reflexivity; vm_compute in E; discriminate E. }
  split; [exact H|].
  assert (V : valid_signature float_t CUBLAS_OP_N CUBLAS_OP_N CUMPSGEMM_FP16TCEC = true)
    by reflexivity.
  assert (Hnum : 1 <= num_kernel_candidates example.fresh <= 2) by (cbn; lia).
  destruct (gemm_after_create_launches_the_signature_variant example.K example.M
              example.G example.fresh float_t CUBLAS_OP_N CUBLAS_OP_N
              64 2112 8 example.one 0 64 100 8 example.zero 200 64
              CUMPSGEMM_FP16TCEC (Some 7) H V Hnum)
    as (i & grid & _ & _ & E); [by vm_compute..|].
  eexists _, _. exact E.
Defined.

(** ** What the dispatcher reads of a signature *)

Lemma gemm_code_only K T h op_A op_B compute_mode op_A' op_B' compute_mode'
    m n k alpha a lda b ldb beta c ldc used :
  gen_module_code K T op_A op_B compute_mode =
  gen_module_code K T op_A' op_B' compute_mode' ->
  gemm K T h op_A op_B m n k alpha a lda b ldb beta c ldc compute_mode used =
  gemm K T h op_A' op_B' m n k alpha a lda b ldb beta c ldc compute_mode' used.
Proof. intros E. rewrite !gemm_eq, E. reflexivity. Qed.

Lemma gemm_stridedBatch_loop_code_only K T op_A op_B compute_mode op_A' op_B' compute_mode'
    m n k alpha a lda stridea b ldb strideb beta c ldc stridec remaining :
  gen_module_code K T op_A op_B compute_mode =
  gen_module_code K T op_A' op_B' compute_mode' ->
  forall i h used,
  gemm_stridedBatch_loop K T op_A op_B m n k alpha a lda stridea b ldb strideb
    beta c ldc stridec compute_mode remaining i h used =
  gemm_stridedBatch_loop K T op_A' op_B' m n k alpha a lda stridea b ldb strideb
    beta c ldc stridec compute_mode' remaining i h used.
Proof.
  intros E. induction remaining as [|remaining IH]; intros i h used; [reflexivity|].
  cbn [gemm_stridedBatch_loop].
  rewrite (gemm_code_only K T h op_A op_B compute_mode op_A' op_B' compute_mode') by exact E.
  destruct (gemm K T h op_A' op_B' m n k alpha _ lda _ ldb beta _ ldc compute_mode' used)
    as [[[st h'] used']|]; [|reflexivity].
  cbn [mbind option_bind]. apply IH.
Qed.

(** ** The width of a module code *)

Lemma lor_within a b w :
  0 <= w -> 0 <= a < 2 ^ w -> 0 <= b < 2 ^ w -> 0 <= Z.lor a b < 2 ^ w.
Proof.
  intros Hw Ha Hb.
  assert (Hnn : 0 <= Z.lor a b) by (apply Z.lor_nonneg; lia).
  split; [exact Hnn|].
  destruct (Z.eq_dec (Z.lor a b) 0) as [->|Hne]; [apply Z.pow_pos_nonneg; lia|].
  apply Z.log2_lt_pow2; [lia|].
  rewrite Z.log2_lor by lia.
  destruct (Z.eq_dec a 0) as [->|Ha0]; destruct (Z.eq_dec b 0) as [->|Hb0].
  - done.
  - rewrite Z.max_r by (cbn; apply Z.log2_nonneg). apply Z.log2_lt_pow2; lia.
  - rewrite Z.max_l by (cbn; apply Z.log2_nonneg). apply Z.log2_lt_pow2; lia.
  - apply Z.max_lub_lt; apply Z.log2_lt_pow2; lia.
Qed.

(** X12.  When every constant of [kernel_module_code] fits [w] bits, so
    does every key [gen_module_code] returns, for all sixteen combinations
    of operations and all compute modes; the trailing [assert] then holds
    for any [max_code] of at least [2 ^ w - 1]. *)
Theorem gen_module_code_within_width K w T op_A op_B compute_mode :
  0 <= w ->
  (forall t, 0 <= tc_code K t < 2 ^ w) ->
  (forall e, 0 <= ec_code K e < 2 ^ w) ->
  (forall o, 0 <= op_a_code K o < 2 ^ w) ->
  (forall o, 0 <= op_b_code K o < 2 ^ w) ->
  (forall g, 0 <= gemm_type_code K g < 2 ^ w) ->
  0 <= gen_module_code K T op_A op_B compute_mode < 2 ^ w /\
  (2 ^ w - 1 <= kernel_module_code.max_code K ->
   gen_module_code_assert K (gen_module_code K T op_A op_B compute_mode) = true).
Proof.
  intros Hw Htc Hec Ha Hb Hg.
  pose proof (Htc half) as Hh. pose proof (Htc tf32) as Ht.
  pose proof (Hec with_ec) as Hwe. pose proof (Hec without_ec) as Hwo.
  pose proof (Ha col_major) as Ha1. pose proof (Ha row_major) as Ha2.
  pose proof (Ha conjugate) as Ha3.
  pose proof (Hb col_major) as Hb1. pose proof (Hb row_major) as Hb2.
  pose proof (Hb conjugate) as Hb3.
  pose proof (Hg s) as Hs. pose proof (Hg c) as Hc.
  cbn in Hh, Ht, Hwe, Hwo, Ha1, Ha2, Ha3, Hb1, Hb2, Hb3, Hs, Hc.
  assert (H0 : 0 <= 0 < 2 ^ w) by (split; [lia|apply Z.pow_pos_nonneg; lia]).
  assert (Hbound : 0 <= gen_module_code K T op_A op_B compute_mode < 2 ^ w).
  { unfold gen_module_code.
    destruct T, op_A, op_B, compute_mode; repeat (apply lor_within; [exact Hw| |]);
      assumption. }
  split; [exact Hbound|].
  intros Hmax. unfold gen_module_code_assert. apply Z.leb_le. lia.
Qed.

Lemma gen_module_code_within_width_witness :
  (forall t, 0 <= tc_code example.K t < 2 ^ 7) /\
  0 <= gen_module_code example.K cuComplex_t CUBLAS_OP_C CUBLAS_OP_C CUMPSGEMM_TF32TC < 2 ^ 7.
Proof.
  assert (Hw : 0 <= 7) by lia.
  assert (Htc : forall t, 0 <= tc_code example.K t < 2 ^ 7) by (intros []; cbn; lia).
  assert (Hec : forall e, 0 <= ec_code example.K e < 2 ^ 7) by (intros []; cbn; lia).
  assert (Ha : forall o, 0 <= op_a_code example.K o < 2 ^ 7) by (intros []; cbn; lia).
  assert (Hb : forall o, 0 <= op_b_code example.K o < 2 ^ 7) by (intros []; cbn; lia).
  assert (Hg : forall g, 0 <= gemm_type_code example.K g < 2 ^ 7) by (intros []; cbn; lia).
  split; [exact Htc|].
  exact (proj1 (gen_module_code_within_width example.K 7 cuComplex_t CUBLAS_OP_C
                  CUBLAS_OP_C CUMPSGEMM_TF32TC Hw Htc Hec Ha Hb Hg)).
Defined.

(** ** Empty problems, empty batches and batches of one *)

Lemma select_loop_default candidates exceeds remaining module_id default i g :
  (forall g', exceeds g' <> Some true) ->
  select_loop candidates exceeds remaining module_id default = Some (i, g) ->
  i = (module_id + remaining)%nat /\ g = default.
Proof.
  intros Hnever H. apply select_loop_inv in H as [_ [[-> ->]|(_ & _ & He)]]; [by split|].
  by apply Hnever in He.
Qed.

Lemma gemm_exceeds_empty h n g : gemm_exceeds h 0 n g <> Some true.
Proof.
  unfold gemm_exceeds, gemm_work, udiv. rewrite Z.mul_0_l.
  destruct (_ =? 0); [done|]. cbn [mbind option_bind].
  change (u64 0) with 0. rewrite Zdiv_0_l.
  assert (0 <= occupancy_threshold h) by (apply Z.mod_pos_bound; lia).
  destruct (Z.ltb_spec (occupancy_threshold h) 0); [lia|done].
Qed.

(** X13.  [gemm] does not return early for an empty output: with [m = 0]
    no stage's estimate exceeds the threshold, so the last stage is
    chosen, and its variant is launched on a grid of zero blocks; the ring
    still advances and the download is still issued as for any call. *)
Theorem empty_problem_still_launches K T h op_A op_B n k alpha a lda b ldb beta c ldc
    compute_mode used g :
  1 <= num_kernel_candidates h < 2 ^ 32 ->
  candidates_ok (gemm_module h) (gen_module_code K T op_A op_B compute_mode)
    (num_kernel_candidates h) ->
  gemm_module h !! (gen_module_code K T op_A op_B compute_mode,
                    Z.to_nat (num_kernel_candidates h - 1)) = Some g ->
  0 < cumpsgemm.smem_m g <= 2 ^ 64 ->
  gemm K T h op_A op_B 0 n k alpha a lda b ldb beta c ldc compute_mode used =
  Some (CUBLAS_STATUS_SUCCESS,
        after h (gemm_buffer_id h) (counter_init_disabled h)
          ((if gemm_advances h then [init_counter_op (gemm_buffer_id h)] else []) ++
           [gemm_launch T g 0 0 n k alpha a lda b ldb beta c ldc h (gemm_buffer_id h)] ++
           (if exp_stats_enabled h then [download_exp_stats_op (gemm_buffer_id h)] else [])),
        report_module_id used (Z.to_nat (num_kernel_candidates h - 1))).
Proof.
  intros Hnum Hok Hg Hm. rewrite gemm_eq.
  destruct (gemm_select_total h _ 0 n Hnum Hok) as [[i g'] Hsel].
  assert (i = Z.to_nat (num_kernel_candidates h - 1) /\ g' = g) as [-> ->].
  { revert Hsel. unfold gemm_select. rewrite u32_id by lia. rewrite Hg.
    cbn [mbind option_bind]. intros Hloop.
    apply select_loop_default in Hloop as [-> ->]; [by split|].
    intros g''. apply gemm_exceeds_empty. }
  rewrite Hsel. cbn [mbind option_bind].
  assert (Hn : cumpsgemm.smem_n g <> 0).
  { destruct (Hok (Z.to_nat (num_kernel_candidates h - 1))) as (g' & Hg' & _ & Hn & _);
      [lia|]. rewrite Hg in Hg'. by injection Hg' as <-. }
  assert (Hgrid : gemm_grid_size g 0 n = Some 0).
  { unfold gemm_grid_size, udiv.
    destruct (Z.eqb_spec (cumpsgemm.smem_m g) 0); [lia|].
    destruct (Z.eqb_spec (cumpsgemm.smem_n g) 0); [done|].
    cbn [mbind option_bind]. rewrite (u64_id (0 + _ - 1)) by lia.
    rewrite (Z.div_small (0 + _ - 1)) by lia. reflexivity. }
  rewrite Hgrid. reflexivity.
Qed.

Lemma empty_problem_still_launches_witness :
  1 <= num_kernel_candidates example.handle < 2 ^ 32 /\
  exists h',
    example.sgemm example.handle 0 2112 = Some (CUBLAS_STATUS_SUCCESS, h', Some 1) /\
    op_grid_size <$> cuda_stream h' !! 1%nat = Some (Some 0).
Proof.
  assert (Hnum : 1 <= num_kernel_candidates example.handle < 2 ^ 32) by (vm_compute; done).
  split; [exact Hnum|].
  assert (Hg : gemm_module example.handle
                 !! (gen_module_code example.K float_t CUBLAS_OP_N CUBLAS_OP_N
                       CUMPSGEMM_FP16TCEC,
                     Z.to_nat (num_kernel_candidates example.handle - 1)) =
               Some example.variant) by (vm_compute; reflexivity).
  assert (Hm : 0 < cumpsgemm.smem_m example.variant <= 2 ^ 64) by (vm_compute; done).
  eexists. split.
  - exact (empty_problem_still_launches example.K float_t example.handle
             CUBLAS_OP_N CUBLAS_OP_N 2112 8 example.one 0 0 100 8 example.zero 200 0
             CUMPSGEMM_FP16TCEC (Some 7) example.variant Hnum (example_candidates_ok handle_gemm_module)
             Hg Hm).
  - vm_compute. reflexivity.
Defined.

(** X14.  A batch of zero items.  Above the cut-off the decomposed path
    runs no sub-call: it selects no variant, issues nothing, leaves the
    out-parameter alone, and only clears the suppress-reinitialization
    flag.  At or below the cut-off the batched path behaves as for any
    batch: it selects a variant, advances the ring when statistics are
    collected, and launches the kernel on a grid of zero blocks. *)
Theorem empty_batch K T h op_A op_B m n k alpha a lda stridea b ldb strideb
    beta c ldc stridec compute_mode used :
  gemm_stridedBatch K T h op_A op_B m n k alpha a lda stridea b ldb strideb
    beta c ldc stridec 0 compute_mode used =
  (if 2 ^ 24 <? u64 (m * n)
   then Some (CUBLAS_STATUS_SUCCESS, after h (current_buffer_id h) false [], used)
   else
     '(i, g) ← gemm_stridedBatch_select h (gen_module_code K T op_A op_B compute_mode) m n 0;
     num_blocks ← num_blocks_per_gemm g m n;
     Some (CUBLAS_STATUS_SUCCESS,
           after h (gemm_stridedBatch_buffer_id h) (counter_init_disabled h)
             ((if exp_stats_enabled h
               then [init_counter_op (gemm_stridedBatch_buffer_id h)] else []) ++
              [gemm_stridedBatch_launch T g num_blocks m n k alpha a lda stridea b ldb strideb
                 beta c ldc stridec 0 h (gemm_stridedBatch_buffer_id h)] ++
              (if exp_stats_enabled h
               then [download_exp_stats_op (gemm_stridedBatch_buffer_id h)] else [])),
           report_module_id used i)) /\
  (forall g num_blocks buffer_id,
     op_grid_size (gemm_stridedBatch_launch T g num_blocks m n k alpha a lda stridea
                     b ldb strideb beta c ldc stridec 0 h buffer_id) = Some 0).
Proof.
  split.
  - destruct (Z.ltb_spec (2 ^ 24) (u64 (m * n))) as [Hgt|Hle].
    + by apply gemm_stridedBatch_decomposed_empty.
    + by apply gemm_stridedBatch_batched_eq.
  - intros g num_blocks buffer_id. cbn. by rewrite Z.mul_0_r.
Qed.

(** X15.  Above the cut-off a batch of one item is the single [gemm] call
    on the unshifted operands, followed by clearing the
    suppress-reinitialization flag: same status, same operations on the
    stream, same out-parameter. *)
Theorem batch_of_one_is_one_gemm K T h op_A op_B m n k alpha a lda stridea b ldb strideb
    beta c ldc stridec compute_mode used :
  2 ^ 24 < u64 (m * n) ->
  gemm_stridedBatch K T h op_A op_B m n k alpha a lda stridea b ldb strideb
    beta c ldc stridec 1 compute_mode used =
  '(status, h', used') ←
    gemm K T h op_A op_B m n k alpha a lda b ldb beta c ldc compute_mode used;
  Some (status, set_counter_init_disabled false h', used').
Proof.
  intros Hmn. unfold gemm_stridedBatch.
  destruct (Z.ltb_spec (2 ^ 24) (u64 (m * n))) as [_|?]; [|lia].
  change (Z.to_nat 1) with 1%nat. cbn [gemm_stridedBatch_loop].
  rewrite !Z.mul_0_l. change (u64 0) with 0. rewrite !Z.add_0_r.
  rewrite gemm_eq.
  destruct (gemm_select h _ m n) as [[i g]|]; [|reflexivity]. cbn [mbind option_bind].
  destruct (gemm_grid_size g m n) as [grid|]; [|reflexivity]. cbn [mbind option_bind].
  reflexivity.
Qed.

Lemma batch_of_one_is_one_gemm_witness :
  2 ^ 24 < u64 (4096 * 4097) /\
  example.sgemm_stridedBatch example.handle 4096 4097 1 =
  ('(status, h', used') ← example.sgemm example.handle 4096 4097;
   Some (status, set_counter_init_disabled false h', used')).
Proof.
  assert (Hmn : 2 ^ 24 < u64 (4096 * 4097)) by (vm_compute; reflexivity).
  split; [exact Hmn|].
  exact (batch_of_one_is_one_gemm example.K float_t example.handle CUBLAS_OP_N CUBLAS_OP_N
           4096 4097 8 example.one 0 4096 10 100 8 20 example.zero 200 4096 30
           CUMPSGEMM_FP16TCEC (Some 7) Hmn).
Defined.

(** ** Selection and the batch count *)

(** X16.  For a fixed handle, signature and problem size, a larger batch
    never selects a later stage in the strided-batch loop, as long as the
    64-bit product [m * n] times the larger batch count stays below
    [2 ^ 64] (so that the estimate does not wrap). *)
Theorem larger_batch_never_selects_later_stage h code m n batch_count1 batch_count2
    i1 g1 i2 g2 :
  0 <= batch_count1 <= batch_count2 ->
  u64 (m * n) * batch_count2 < 2 ^ 64 ->
  gemm_stridedBatch_select h code m n batch_count1 = Some (i1, g1) ->
  gemm_stridedBatch_select h code m n batch_count2 = Some (i2, g2) ->
  (i2 <= i1)%nat.
Proof.
  intros Hb Hno. unfold gemm_stridedBatch_select.
  destruct (gemm_stridedBatch_module h !! (code, _)) as [d|]; [|done]. cbn.
  apply select_loop_antitone. intros g.
  unfold gemm_stridedBatch_exceeds, gemm_stridedBatch_work.
  destruct (gemm_work m n g) as [w|] eqn:Hw; [|done]. cbn. intros [= Hex].
  destruct (gemm_work_mono m n m n g w (Z.le_refl _) Hw) as (w' & Hw' & Hrange & Hle).
  rewrite Hw in Hw'. injection Hw' as <-.
  f_equal. rewrite (u64_id (w * batch_count2)) by nia.
  assert (u64 (w * batch_count1) <= w * batch_count1)
    by (apply Z.mod_le; [nia|lia]).
  apply Z.ltb_lt in Hex. apply Z.ltb_lt. nia.
Qed.

Lemma larger_batch_never_selects_later_stage_witness :
  0 <= 1 <= 2 /\
  gemm_stridedBatch_select example.handle example.code 64 2048 1 =
    Some (1%nat, generate_gemm_stridedBatch_module example.G
                   (signature_template float_t CUBLAS_OP_N CUBLAS_OP_N CUMPSGEMM_FP16TCEC)) /\
  gemm_stridedBatch_select example.handle example.code 64 2048 2 =
    Some (0%nat, generate_gemm_stridedBatch_module example.G
                   (signature_template float_t CUBLAS_OP_N CUBLAS_OP_N CUMPSGEMM_FP16TCEC)) /\
  (0 <= 1)%nat.
Proof.
  assert (Hb : 0 <= 1 <= 2) by lia.
  assert (Hno : u64 (64 * 2048) * 2 < 2 ^ 64) by (vm_compute; reflexivity).
  assert (H1 : gemm_stridedBatch_select example.handle example.code 64 2048 1 =
               Some (1%nat, generate_gemm_stridedBatch_module example.G
                              (signature_template float_t CUBLAS_OP_N CUBLAS_OP_N
                                 CUMPSGEMM_FP16TCEC)))
    by (vm_compute; reflexivity).
  assert (H2 : gemm_stridedBatch_select example.handle example.code 64 2048 2 =
               Some (0%nat, generate_gemm_stridedBatch_module example.G
                              (signature_template float_t CUBLAS_OP_N CUBLAS_OP_N
                                 CUMPSGEMM_FP16TCEC)))
    by (vm_compute; reflexivity).
  split; [exact Hb|]. split; [exact H1|]. split; [exact H2|].
  exact (larger_batch_never_selects_later_stage example.handle example.code 64 2048 1 2
           _ _ _ _ Hb Hno H1 H2).
Defined.

(** ** The summed lost rate *)

Lemma u64_add_l a b : u64 (u64 a + b) = u64 (a + b).
Proof. unfold u64. by rewrite Zplus_mod_idemp_l. Qed.

Lemma foldl_u64_sum {A} (f : A -> Z) (l : list A) acc :
  u64 (foldl (fun acc x => u64 (acc + f x)) acc l) = u64 (acc + Zsum_with f l).
Proof.
  revert acc. induction l as [|x l IH]; intros acc; cbn [foldl Zsum_with foldr].
  - by rewrite Z.add_0_r.
  - rewrite IH, u64_add_l. f_equal. unfold Zsum_with. lia.
Qed.

Lemma foldl_u64_range {A} (f : A -> Z) (l : list A) acc :
  0 <= acc < 2 ^ 64 ->
  0 <= foldl (fun acc x => u64 (acc + f x)) acc l < 2 ^ 64.
Proof.
  revert acc. induction l as [|x l IH]; intros acc Hacc; cbn [foldl]; [done|].
  apply IH. apply Z.mod_pos_bound. lia.
Qed.

(** The two accumulators of [get_lost_rate] are the sums of the counts,
    reduced to 64 bits. *)
Lemma get_lost_rate_sums (l : list (Z * Z)) :
  get_lost_rate l =
  if 0 <? u64 (Zsum_with snd l)
  then double_div (double_of_size_t (u64 (Zsum_with fst l)))
                  (double_of_size_t (u64 (Zsum_with snd l)))
  else double_zero.
Proof.
  unfold get_lost_rate. rewrite get_lost_rate_counts.
  pose proof (foldl_u64_sum (A:=Z * Z) fst l 0) as Hl.
  pose proof (foldl_u64_sum (A:=Z * Z) snd l 0) as Ht.
  rewrite u64_id in Hl by (apply foldl_u64_range; lia).
  rewrite u64_id in Ht by (apply foldl_u64_range; lia).
  cbn [fst snd] in *. rewrite Hl, Ht. reflexivity.
Qed.

Lemma Zsum_with_perm {A} (f : A -> Z) (l l' : list A) :
  l ≡ₚ l' -> Zsum_with f l = Zsum_with f l'.
Proof.
  unfold Zsum_with. induction 1; cbn [foldr]; lia.
Qed.

(** X17.  [get_lost_rate] does not depend on the order of the entries of
    [get_last_exp_stats()]: the counts are summed modulo [2 ^ 64] before
    the single division, so any rearrangement of the list gives the same
    double. *)
Theorem get_lost_rate_order_independent (l l' : list (Z * Z)) :
  l ≡ₚ l' -> get_lost_rate l = get_lost_rate l'.
Proof.
  intros Hp. rewrite !get_lost_rate_sums.
  by rewrite (Zsum_with_perm fst l l' Hp), (Zsum_with_perm snd l l' Hp).
Qed.

Lemma get_lost_rate_order_independent_witness :
  [(1, 2); (2, 2); (0, 4)] ≡ₚ [(0, 4); (1, 2); (2, 2)] /\
  get_lost_rate [(1, 2); (2, 2); (0, 4)] = get_lost_rate [(0, 4); (1, 2); (2, 2)].
Proof.
  assert (Hp : [(1, 2); (2, 2); (0, 4)] ≡ₚ [(0, 4); (1, 2); (2, 2)]).
  { change ([(1, 2); (2, 2); (0, 4)]) with ([(1, 2); (2, 2)] ++ [(0, 4)]).
    change ([(0, 4); (1, 2); (2, 2)]) with ([(0, 4)] ++ [(1, 2); (2, 2)]).
    apply Permutation_app_comm. }
  split; [exact Hp|].
  exact (get_lost_rate_order_independent _ _ Hp).
Defined.

(** X18.  On a list of one entry whose counts are [std::size_t] values,
    the summing [get_lost_rate] of the earlier binding and the per-slot
    [get_lose_ratio] of the later one return the same double; on the
    empty list [get_lost_rate] returns [0.]. *)
Theorem get_lost_rate_of_one_entry (es : Z * Z) (buffer_id : Z) :
  0 <= es.1 < 2 ^ 64 -> 0 <= es.2 < 2 ^ 64 ->
  get_lost_rate [es] = get_lose_ratio (fun _ => es) buffer_id /\
  get_lost_rate [] = double_zero.
Proof.
  intros H1 H2. split; [|reflexivity].
  rewrite get_lost_rate_sums. unfold get_lose_ratio, Zsum_with. cbn [foldr].
  rewrite !Z.add_0_r, !u64_id by done. reflexivity.
Qed.

Lemma get_lost_rate_of_one_entry_witness :
  0 <= (3, 4).1 < 2 ^ 64 /\
  get_lost_rate [(3, 4)] = get_lose_ratio (fun _ => (3, 4)) 0.
Proof.
  assert (H1 : 0 <= (3, 4).1 < 2 ^ 64) by (cbn; lia).
  assert (H2 : 0 <= (3, 4).2 < 2 ^ 64) by (cbn; lia).
  split; [exact H1|].
  exact (proj1 (get_lost_rate_of_one_entry (3, 4) 0 H1 H2)).
Defined.

(** ** The reference residual of the test program *)

Lemma residual_grid_size_exact m n :
  0 <= m * n -> m * n + 255 < 2 ^ 32 ->
  residual.grid_size m n = (m * n + 255) / 256 /\
  m * n <= 256 * residual.grid_size m n < m * n + 256.
Proof.
  intros H0 Hb. unfold residual.grid_size, residual.num_threads, residual.block_size.
  rewrite (u32_id (m * n)) by lia.
  replace (m * n + 256 - 1) with (m * n + 255) by lia.
  rewrite u32_id by lia. split; [reflexivity|].
  pose proof (Z.mul_div_le (m * n + 255) 256 ltac:(lia)).
  pose proof (Z.mul_succ_div_gt (m * n + 255) 256 ltac:(lia)). lia.
Qed.

Lemma residual_tid_exact m n b t :
  0 <= m * n -> m * n + 255 < 2 ^ 32 ->
  0 <= b < residual.grid_size m n -> 0 <= t < residual.block_size ->
  residual.tid b t = 256 * b + t.
Proof.
  intros H0 Hb Hbi Hti. destruct (residual_grid_size_exact m n H0 Hb) as [_ Hg].
  unfold residual.tid, residual.block_size in *. apply u32_id. lia.
Qed.

(** X19.  The launch of [calc_matmul_residual] visits every element of the
    [m] x [n] result exactly once: when [m * n + 255] fits 32 bits, each
    [(c_m, c_n)] with [c_m < m] and [c_n < n] is the element of exactly
    one thread of the grid, and a launched thread that does not return at
    once works on an element inside the matrix. *)
Theorem residual_threads_cover_the_result m n :
  0 < m -> 0 <= n -> m * n + 255 < 2 ^ 32 ->
  (forall c_m c_n, 0 <= c_m < m -> 0 <= c_n < n ->
     exists blockIdx threadIdx,
       (0 <= blockIdx < residual.grid_size m n /\
        0 <= threadIdx < residual.block_size /\
        residual.element m n (residual.tid blockIdx threadIdx) = Some (c_m, c_n)) /\
       forall b t,
         0 <= b < residual.grid_size m n -> 0 <= t < residual.block_size ->
         residual.element m n (residual.tid b t) = Some (c_m, c_n) ->
         b = blockIdx /\ t = threadIdx) /\
  (forall b t c_m c_n,
     0 <= b < residual.grid_size m n -> 0 <= t < residual.block_size ->
     residual.element m n (residual.tid b t) = Some (c_m, c_n) ->
     0 <= c_m < m /\ 0 <= c_n < n).
Proof.
  intros Hm Hn Hb.
  assert (H0 : 0 <= m * n) by nia.
  destruct (residual_grid_size_exact m n H0 Hb) as [_ Hg].
  assert (Helem : forall x, 0 <= x ->
            residual.element m n x =
            if m * n <=? x then None else Some (x mod m, x / m)).
  { intros x Hx. unfold residual.element. by rewrite (u32_id (m * n)) by lia. }
  split.
  - intros c_m c_n Hcm Hcn.
    set (x := c_m + c_n * m).
    assert (Hx : 0 <= x < m * n) by (unfold x; nia).
    assert (Hxm : x mod m = c_m)
      by (unfold x; rewrite Z.mod_add by lia; apply Z.mod_small; lia).
    assert (Hxd : x / m = c_n)
      by (unfold x; rewrite Z.div_add by lia; rewrite Z.div_small by lia; lia).
    pose proof (Z.div_mod x 256 ltac:(lia)) as Hdm.
    pose proof (Z.mod_pos_bound x 256 ltac:(lia)) as Hmod.
    assert (Hdiv : 0 <= x / 256) by (apply Z.div_pos; lia).
    exists (x / 256), (x mod 256).
    assert (Hbi : 0 <= x / 256 < residual.grid_size m n) by lia.
    assert (Hti : 0 <= x mod 256 < residual.block_size) by exact Hmod.
    split.
    + split; [exact Hbi|]. split; [exact Hti|].
      rewrite (residual_tid_exact m n) by done. rewrite <- Hdm.
      rewrite Helem by lia. destruct (Z.leb_spec (m * n) x); [lia|].
      by rewrite Hxm, Hxd.
    + intros b t Hb' Ht' He.
      rewrite (residual_tid_exact m n) in He by done.
      unfold residual.block_size in Ht'.
      rewrite Helem in He by lia.
      destruct (Z.leb_spec (m * n) (256 * b + t)); [done|].
      injection He as Hem Hed.
      pose proof (Z.div_mod (256 * b + t) m ltac:(lia)) as Hdm'.
      rewrite Hem, Hed in Hdm'.
      assert (256 * b + t = x) by (unfold x; lia). lia.
  - intros b t c_m c_n Hb' Ht' He.
    rewrite (residual_tid_exact m n) in He by done.
    unfold residual.block_size in Ht'.
    rewrite Helem in He by lia.
    destruct (Z.leb_spec (m * n) (256 * b + t)); [done|].
    injection He as <- <-.
    split; [apply Z.mod_pos_bound; lia|].
    split; [apply Z.div_pos; lia|apply Z.div_lt_upper_bound; lia].
Qed.

Lemma residual_threads_cover_the_result_witness :
  0 < 3 /\
  exists blockIdx threadIdx,
    residual.element 3 5 (residual.tid blockIdx threadIdx) = Some (1, 2).
Proof.
  assert (Hm : 0 < 3) by lia.
  assert (Hn : 0 <= 5) by lia.
  assert (Hb : 3 * 5 + 255 < 2 ^ 32) by lia.
  split; [exact Hm|].
  destruct (proj1 (residual_threads_cover_the_result 3 5 Hm Hn Hb) 1 2)
    as (b & t & (_ & _ & He) & _); [lia..|].
  exists b, t. exact He.
Defined.

(** X20.  The indices of one thread.  For 32-bit dimensions the index into
    the non-transposed A ([c_m + ik * lda]) and into the transposed B
    ([c_n + ik * ldb]) is the exact value, computed in 64 bits.  The index
    into a transposed A ([ik + c_m * lda]), into a non-transposed B
    ([ik + c_n * ldb]) and into C ([c_m + c_n * ldc]) multiplies two
    [unsigned] values first: it is the exact value if and only if that
    product (for C, the whole sum) fits 32 bits. *)
Theorem residual_indices_exact_iff_product_fits op c_m c_n ik ld :
  0 <= c_m < 2 ^ 32 -> 0 <= c_n < 2 ^ 32 -> 0 <= ik < 2 ^ 32 -> 0 <= ld < 2 ^ 32 ->
  op <> CUBLAS_OP_N ->
  residual.a_index CUBLAS_OP_N c_m ik ld = c_m + ik * ld /\
  residual.b_index op c_n ik ld = c_n + ik * ld /\
  (residual.a_index op c_m ik ld = ik + c_m * ld <-> c_m * ld < 2 ^ 32) /\
  (residual.b_index CUBLAS_OP_N c_n ik ld = ik + c_n * ld <-> c_n * ld < 2 ^ 32) /\
  (residual.c_index c_m c_n ld = c_m + c_n * ld <-> c_m + c_n * ld < 2 ^ 32).
Proof.
  intros Hcm Hcn Hik Hld Hop.
  assert (Hwide : forall x y, 0 <= x < 2 ^ 32 -> 0 <= y < 2 ^ 32 ->
            u64 (x + u64 (y * ld)) = x + y * ld).
  { intros x y Hx Hy. rewrite (u64_id (y * ld)) by nia. apply u64_id. nia. }
  assert (Hnarrow : forall x y, 0 <= x < 2 ^ 32 -> 0 <= y < 2 ^ 32 ->
            (u64 (x + u32 (y * ld)) = x + y * ld <-> y * ld < 2 ^ 32)).
  { intros x y Hx Hy.
    pose proof (Z.mod_pos_bound (y * ld) (2 ^ 32) ltac:(lia)) as Hr.
    fold (u32 (y * ld)) in Hr. rewrite u64_id by lia. split.
    - intros E. lia.
    - intros Hfit. rewrite u32_id by nia. reflexivity. }
  split; [apply Hwide; done|].
  split; [destruct op; try done; apply Hwide; done|].
  split; [destruct op; try done; apply Hnarrow; done|].
  split; [apply Hnarrow; done|].
  unfold residual.c_index.
  pose proof (Z.mod_pos_bound (c_m + u32 (c_n * ld)) (2 ^ 32) ltac:(lia)) as Hr.
  fold (u32 (c_m + u32 (c_n * ld))) in Hr.
  split; [intros E; lia|].
  intros Hfit. rewrite (u32_id (c_n * ld)) by nia. apply u32_id. nia.
Qed.

Lemma residual_indices_exact_iff_product_fits_witness :
  CUBLAS_OP_T <> CUBLAS_OP_N /\
  residual.a_index CUBLAS_OP_T 65536 1 65536 <> 1 + 65536 * 65536 /\
  residual.a_index CUBLAS_OP_N 65536 65536 65536 = 65536 + 65536 * 65536.
Proof.
  assert (Hop : CUBLAS_OP_T <> CUBLAS_OP_N) by discriminate.
  assert (H1 : 0 <= 65536 < 2 ^ 32) by lia.
  assert (H2 : 0 <= 1 < 2 ^ 32) by lia.
  split; [exact Hop|]. split.
  - intros E.
    apply (proj1 (proj1 (proj2 (proj2
             (residual_indices_exact_iff_product_fits CUBLAS_OP_T 65536 65536 1 65536
                H1 H1 H2 H1 Hop))))) in E. lia.
  - exact (proj1 (residual_indices_exact_iff_product_fits CUBLAS_OP_T 65536 65536 65536
                    65536 H1 H1 H1 H1 Hop)).
Defined.

(** ** The size list of the test program *)

Lemma u32_u64 x : u32 (u64 x) = u32 x.
Proof.
  unfold u32, u64. change (2 ^ 64) with (2 ^ 32 * 2 ^ 32).
  rewrite Z.rem_mul_r by lia.
  rewrite (Z.mul_comm (2 ^ 32)), Z.mod_add by lia. apply Z.mod_mod. lia.
Qed.

Lemma N_list_loop_progression is_seq (f : Z -> Z) max_N interval :
  0 < interval -> max_N + interval < 2 ^ 32 ->
  (forall N, 0 <= N <= max_N -> gemm_test.pushed is_seq N = Some (f N)) ->
  forall (count : nat) N acc fuel,
    0 <= N ->
    Z.of_nat count = (if N <=? max_N then (max_N - N) / interval + 1 else 0) ->
    (count < fuel)%nat ->
    gemm_test.N_list_loop is_seq max_N interval fuel N acc =
    gemm_test.finished
      (acc ++ ((fun i => f (N + i * interval)) <$> seqZ 0 (Z.of_nat count))).
Proof.
  intros Hi Hmax Hf. induction count as [|count IH]; intros N acc fuel HN Hcount Hfuel;
    (destruct fuel as [|fuel]; [lia|]); cbn [gemm_test.N_list_loop].
  - destruct (Z.leb_spec N max_N) as [Hle|Hgt].
    + pose proof (Z.div_pos (max_N - N) interval ltac:(lia) ltac:(lia)). lia.
    + cbn. by rewrite app_nil_r.
  - destruct (Z.leb_spec N max_N) as [Hle|Hgt]; [|lia].
    rewrite Hf by lia. rewrite u32_u64, u32_id by lia.
    rewrite (IH (N + interval) (acc ++ [f N]) fuel); [|lia| |lia].
    + f_equal. rewrite <- app_assoc. f_equal.
      rewrite (seqZ_cons 0 (Z.of_nat (S count))) by lia.
      rewrite fmap_cons, Z.mul_0_l, Z.add_0_r.
      cbn [app]. f_equal.
      replace (Z.pred (Z.of_nat (S count))) with (Z.of_nat count) by lia.
      replace (Z.succ 0) with (1 + 0) by lia.
      rewrite <- (fmap_add_seqZ 1 0), <- list_fmap_compose.
      apply list_fmap_ext. intros _ i _. cbn. f_equal. lia.
    + destruct (Z.leb_spec (N + interval) max_N) as [Hle'|Hgt'].
      * replace (max_N - N) with ((max_N - (N + interval)) + 1 * interval) in Hcount by lia.
        rewrite Z.div_add in Hcount by lia. lia.
      * rewrite Z.div_small in Hcount by lia. lia.
Qed.

(** X21.  The size loop of [gemm_test] and [gemm_strided_batch_test]: for
    a positive step, a 32-bit [min_N] and [max_N + interval] below
    [2 ^ 32] the loop ends after [(max_N - min_N) / interval + 1]
    iterations when [min_N <= max_N] and after none otherwise.  In
    sequence mode [N_list] is the arithmetic progression
    [min_N, min_N + interval, ...] of the values up to [max_N]; in
    power mode, for [max_N] below 64, it holds two to the power of each of
    them. *)
Theorem N_list_is_the_progression min_N max_N interval :
  0 < interval -> 0 <= min_N < 2 ^ 32 -> max_N + interval < 2 ^ 32 ->
  let count := if min_N <=? max_N then (max_N - min_N) / interval + 1 else 0 in
  forall fuel, (Z.to_nat count < fuel)%nat ->
    gemm_test.N_list true min_N max_N interval fuel =
    gemm_test.finished ((fun i => min_N + i * interval) <$> seqZ 0 count) /\
    (max_N < 64 ->
     gemm_test.N_list false min_N max_N interval fuel =
     gemm_test.finished ((fun i => 2 ^ (min_N + i * interval)) <$> seqZ 0 count)).
Proof.
  intros Hi Hmin Hmax count fuel Hfuel. unfold gemm_test.N_list.
  assert (Hc : 0 <= count).
  { unfold count. destruct (Z.leb_spec min_N max_N); [|lia].
    pose proof (Z.div_pos (max_N - min_N) interval ltac:(lia) ltac:(lia)). lia. }
  rewrite u32_id by lia. split; [|intros H64].
  - rewrite (N_list_loop_progression true (fun N => N) max_N interval Hi Hmax)
      with (count := Z.to_nat count); [|done|lia| |lia].
    + by rewrite Z2Nat.id by lia.
    + by rewrite Z2Nat.id by lia.
  - rewrite (N_list_loop_progression false (fun N => 2 ^ N) max_N interval Hi Hmax)
      with (count := Z.to_nat count); [| |lia| |lia].
    + by rewrite Z2Nat.id by lia.
    + intros N HN. unfold gemm_test.pushed.
      destruct (Z.ltb_spec N 64); [|lia]. by rewrite Z.shiftl_1_l.
    + by rewrite Z2Nat.id by lia.
Qed.

Lemma N_list_is_the_progression_witness :
  0 < 256 /\
  gemm_test.N_list true 1024 2048 256 6 = gemm_test.finished [1024; 1280; 1536; 1792; 2048].
Proof.
  assert (Hi : 0 < 256) by lia.
  assert (Hmin : 0 <= 1024 < 2 ^ 32) by lia.
  assert (Hmax : 2048 + 256 < 2 ^ 32) by lia.
  assert (Hfuel : (Z.to_nat (if 1024 <=? 2048 then (2048 - 1024) / 256 + 1 else 0) < 6)%nat)
    by (vm_compute; lia).
  split; [exact Hi|].
  rewrite (proj1 (N_list_is_the_progression 1024 2048 256 Hi Hmin Hmax 6%nat Hfuel)).
  vm_compute. reflexivity.
Defined.

Lemma N_list_loop_stuck max_N interval N :
  0 <= N < 2 ^ 32 ->
  2 ^ 32 - 1 <= max_N \/ (u32 interval = 0 /\ N <= max_N) ->
  forall fuel acc,
    gemm_test.N_list_loop true max_N interval fuel N acc = gemm_test.out_of_fuel.
Proof.
  intros HN Hstuck fuel. revert N HN Hstuck.
  induction fuel as [|fuel IH]; intros N HN Hstuck acc; [reflexivity|].
  cbn [gemm_test.N_list_loop gemm_test.pushed].
  destruct (Z.leb_spec N max_N) as [_|Hgt]; [|lia].
  apply IH.
  - apply Z.mod_pos_bound. lia.
  - destruct Hstuck as [Hbig|[Hzero Hle]].
    + left. exact Hbig.
    + right. split; [exact Hzero|].
      rewrite u32_u64. unfold u32 in *.
      rewrite Z.add_mod, Hzero, Z.add_0_r, Z.mod_mod by lia.
      rewrite Z.mod_small by lia. exact Hle.
Qed.

(** X22.  The size loop need not end.  Its counter is an [unsigned] that
    is compared with the [std::size_t] bound: when [max_N] is
    [2 ^ 32 - 1] or more the comparison holds for every value of the
    counter, and when the step is a multiple of [2 ^ 32] (zero, say) the
    counter never moves; in sequence mode the loop then pushes values for
    ever, however many iterations it is given. *)
Theorem N_list_never_ends min_N max_N interval :
  2 ^ 32 - 1 <= max_N \/ (u32 interval = 0 /\ u32 min_N <= max_N) ->
  forall fuel,
    gemm_test.N_list true min_N max_N interval fuel = gemm_test.out_of_fuel.
Proof.
  intros Hstuck fuel. unfold gemm_test.N_list.
  apply N_list_loop_stuck; [apply Z.mod_pos_bound; lia|exact Hstuck].
Qed.

Lemma N_list_never_ends_witness :
  (2 ^ 32 - 1 <= 4096 \/ (u32 0 = 0 /\ u32 1024 <= 4096)) /\
  gemm_test.N_list true 1024 4096 0 1000 = gemm_test.out_of_fuel.
Proof.
  assert (H : 2 ^ 32 - 1 <= 4096 \/ (u32 0 = 0 /\ u32 1024 <= 4096))
    by (right; split; [reflexivity|vm_compute; discriminate]).
  split; [exact H|].
  exact (N_list_never_ends 1024 4096 0 H 1000%nat).
Defined.

(** ** The command line of the test program *)

Ltac case_string x lit :=
  let E := fresh "E" in
  destruct (String.eqb x lit) eqn:E;
  [apply String.eqb_eq in E; subst x|].

Ltac case_command x :=
  case_string x "log"%string;
  [|case_string x "sgemm_exp_stats"%string;
  [|case_string x "cgemm_exp_stats"%string;
  [|case_string x "sgemm_strided_batch_exp_stats"%string;
  [|case_string x "cgemm_strided_batch_exp_stats"%string;
  [|case_string x "sgemm"%string;
  [|case_string x "cgemm"%string;
  [|case_string x "sgemm_strided_batch"%string;
  [|case_string x "cgemm_strided_batch"%string;
  [|case_string x "cublas_sgemm"%string;
  [|case_string x "cublas_cgemm"%string;
  [|case_string x "cublas_sgemm_strided_batch"%string;
  [|case_string x "cublas_cgemm_strided_batch"%string]]]]]]]]]]]].

Ltac case_mode x :=
  case_string x "exp2"%string; [|case_string x "seq"%string].

Lemma main_long argv a0 a1 a2 a3 a4 a5 a6 rest :
  argv = a0 :: a1 :: a2 :: a3 :: a4 :: a5 :: a6 :: rest ->
  test_main.main argv <> None.
Proof.
  intros ->. unfold test_main.main, test_main.print_usage.
  set (argc := Z.of_nat (length (a0 :: a1 :: a2 :: a3 :: a4 :: a5 :: a6 :: rest))).
  assert (Hargc : 7 <= argc) by (unfold argc; cbn [length]; lia).
  clearbody argc.
  repeat match goal with
         | |- context [argc <? ?k] =>
             let k' := eval cbv in k in
             replace (argc <? k) with false by (symmetry; apply Z.ltb_ge; lia)
         end.
  cbn [lookup list_lookup mbind option_bind].
  case_command a1; cbn; try done; case_mode a2; cbn; done.
Qed.

(** X23.  [main] of the test program guards the size-sweep commands with
    an argument count that is one too small: it accepts [argc = 5] for
    [sgemm], [cgemm], [cublas_sgemm] and [cublas_cgemm] but then reads
    [argv[5]], and accepts [argc = 6] for the four strided-batch commands
    but then reads [argv[6]].  These, and an empty [argv], are the only
    command lines on which [main] reads the null pointer [argv[argc]];
    the guards of [log] and of the exp-stats commands are exact. *)
Theorem main_reads_argv_argc_iff (argv : list string) :
  test_main.main argv = None <->
  argv = [] \/
  exists command a2,
    argv !! 1%nat = Some command /\ argv !! 2%nat = Some a2 /\
    (a2 = "exp2"%string \/ a2 = "seq"%string) /\
    (command ∈ test_main.sweep_commands /\ length argv = 5%nat \/
     command ∈ test_main.strided_batch_sweep_commands /\ length argv = 6%nat).
Proof.
  split.
  - intros H.
    destruct argv as [|a0 [|a1 [|a2 [|a3 [|a4 [|a5 [|a6 rest]]]]]]];
      [by left|try discriminate H..|by eapply main_long in H].
    + (* argc = 2 *)
      exfalso. revert H. unfold test_main.main, test_main.print_usage. cbn.
      case_command a1; cbn; done.
    + (* argc = 3 *)
      exfalso. revert H. unfold test_main.main, test_main.print_usage. cbn.
      case_command a1; cbn; try done; case_mode a2; cbn; done.
    + exfalso. revert H. unfold test_main.main, test_main.print_usage. cbn.
      case_command a1; cbn; try done; case_mode a2; cbn; done.
    + (* argc = 5 *)
      right. exists a1, a2. split; [done|]. split; [done|].
      revert H. unfold test_main.main, test_main.print_usage. cbn.
      case_command a1; cbn; try done; case_mode a2; cbn; try done; intros _;
        (split; [by auto|]); left; (split; [|done]);
        unfold test_main.sweep_commands; set_solver.
    + (* argc = 6 *)
      right. exists a1, a2. split; [done|]. split; [done|].
      revert H. unfold test_main.main, test_main.print_usage. cbn.
      case_command a1; cbn; try done; case_mode a2; cbn; try done; intros _;
        (split; [by auto|]); right; (split; [|done]);
        unfold test_main.strided_batch_sweep_commands; set_solver.
  - intros [->|(command & a2 & H1 & H2 & Hmode & Hcmd)]; [reflexivity|].
    destruct Hcmd as [[Hin Hlen]|[Hin Hlen]].
    + destruct argv as [|a0 [|a1 [|a2' [|a3 [|a4 [|a5 rest]]]]]]; try discriminate Hlen.
      injection H1 as ->. injection H2 as ->.
      unfold test_main.sweep_commands in Hin.
      repeat (apply elem_of_cons in Hin as [->|Hin]);
        [destruct Hmode as [->| ->]; reflexivity..|by apply elem_of_nil in Hin].
    + destruct argv as [|a0 [|a1 [|a2' [|a3 [|a4 [|a5 [|a6 rest]]]]]]];
        try discriminate Hlen.
      injection H1 as ->. injection H2 as ->.
      unfold test_main.strided_batch_sweep_commands in Hin.
      repeat (apply elem_of_cons in Hin as [->|Hin]);
        [destruct Hmode as [->| ->]; reflexivity..|by apply elem_of_nil in Hin].
Qed.

(** * The selection rule, batch decomposition and the shared statistics slot *)

(** ** Calls on a populated row return *)

Lemma gemm_returns K T h op_A op_B m n k alpha a lda b ldb beta c ldc compute_mode used :
  1 <= num_kernel_candidates h < 2 ^ 32 ->
  candidates_ok (gemm_module h) (gen_module_code K T op_A op_B compute_mode)
    (num_kernel_candidates h) ->
  exists i g grid,
    gemm_select h (gen_module_code K T op_A op_B compute_mode) m n = Some (i, g) /\
    gemm_grid_size g m n = Some grid /\
    gemm K T h op_A op_B m n k alpha a lda b ldb beta c ldc compute_mode used =
    Some (CUBLAS_STATUS_SUCCESS,
          after h (gemm_buffer_id h) (counter_init_disabled h)
            ((if gemm_advances h then [init_counter_op (gemm_buffer_id h)] else []) ++
             [gemm_launch T g grid m n k alpha a lda b ldb beta c ldc h (gemm_buffer_id h)] ++
             (if exp_stats_enabled h then [download_exp_stats_op (gemm_buffer_id h)] else [])),
          report_module_id used i).
Proof.
  intros Hnum Hok.
  destruct (gemm_select_total h _ m n Hnum Hok) as [[i g] Hsel].
  pose proof (gemm_select_rule _ _ _ _ _ _ Hnum Hsel) as Hrule.
  destruct (selected_tile_sides _ _ _ _ _ _ _ (proj1 Hnum) Hok Hrule) as [Hm Hn].
  destruct (gemm_grid_size_total g m n Hm Hn) as [grid Hgrid].
  exists i, g, grid. split; [exact Hsel|]. split; [exact Hgrid|].
  rewrite gemm_eq, Hsel. cbn [mbind option_bind]. rewrite Hgrid. reflexivity.
Qed.

Lemma gemm_stridedBatch_batched_returns K T h op_A op_B m n k alpha a lda stridea
    b ldb strideb beta c ldc stridec batch_count compute_mode used :
  1 <= num_kernel_candidates h < 2 ^ 32 ->
  candidates_ok (gemm_stridedBatch_module h) (gen_module_code K T op_A op_B compute_mode)
    (num_kernel_candidates h) ->
  u64 (m * n) <= 2 ^ 24 ->
  exists i g num_blocks,
    gemm_stridedBatch_select h (gen_module_code K T op_A op_B compute_mode)
      m n batch_count = Some (i, g) /\
    num_blocks_per_gemm g m n = Some num_blocks /\
    gemm_stridedBatch K T h op_A op_B m n k alpha a lda stridea b ldb strideb
      beta c ldc stridec batch_count compute_mode used =
    Some (CUBLAS_STATUS_SUCCESS,
          after h (gemm_stridedBatch_buffer_id h) (counter_init_disabled h)
            ((if exp_stats_enabled h
              then [init_counter_op (gemm_stridedBatch_buffer_id h)] else []) ++
             [gemm_stridedBatch_launch T g num_blocks m n k alpha a lda stridea
                b ldb strideb beta c ldc stridec batch_count h
                (gemm_stridedBatch_buffer_id h)] ++
             (if exp_stats_enabled h
              then [download_exp_stats_op (gemm_stridedBatch_buffer_id h)] else [])),
          report_module_id used i).
Proof.
  intros Hnum Hokb Hmn.
  destruct (gemm_stridedBatch_select_total h _ m n batch_count Hnum Hokb) as [[i g] Hsel].
  pose proof (gemm_stridedBatch_select_rule _ _ _ _ _ _ _ Hnum Hsel) as Hrule.
  destruct (selected_tile_sides _ _ _ _ _ _ _ (proj1 Hnum) Hokb Hrule) as [Hm Hn].
  destruct (num_blocks_per_gemm_total g m n Hm Hn) as [num_blocks Hnb].
  exists i, g, num_blocks. split; [exact Hsel|]. split; [exact Hnb|].
  rewrite gemm_stridedBatch_batched_eq by exact Hmn.
  rewrite Hsel. cbn [mbind option_bind]. rewrite Hnb. reflexivity.
Qed.

Lemma gemm_stridedBatch_decomposed_returns K T h op_A op_B m n k alpha a lda stridea
    b ldb strideb beta c ldc stridec batch_count compute_mode used :
  1 <= num_kernel_candidates h < 2 ^ 32 ->
  candidates_ok (gemm_module h) (gen_module_code K T op_A op_B compute_mode)
    (num_kernel_candidates h) ->
  2 ^ 24 < u64 (m * n) ->
  0 < batch_count ->
  exists i g grid,
    gemm_select h (gen_module_code K T op_A op_B compute_mode) m n = Some (i, g) /\
    gemm_grid_size g m n = Some grid /\
    gemm_stridedBatch K T h op_A op_B m n k alpha a lda stridea b ldb strideb
      beta c ldc stridec batch_count compute_mode used =
    Some (CUBLAS_STATUS_SUCCESS,
          after h (gemm_buffer_id h) false
            (decomposed_ops T g grid m n k alpha a lda stridea b ldb strideb
               beta c ldc stridec batch_count h),
          report_module_id used i).
Proof.
  intros Hnum Hok Hmn Hbc.
  destruct (gemm_returns K T h op_A op_B m n k alpha a lda b ldb beta c ldc
              compute_mode used Hnum Hok) as (i & g & grid & Hsel & Hgrid & _).
  exists i, g, grid. split; [exact Hsel|]. split; [exact Hgrid|].
  rewrite gemm_stridedBatch_decomposed_eq by done.
  rewrite Hsel. cbn [mbind option_bind]. rewrite Hgrid. reflexivity.
Qed.

(** ** Variant selection (C1) *)

(** The claim of C1 fails for a batched call above the decomposition
    cut-off: on a device with 132 multiprocessors the threshold is 4224; a
    batch of two 4096 x 4097 problems has the estimate 4097 per item and
    8194 for the batch, so the rule with the estimate multiplied by
    [batch_count] picks stage 0, but the call reports stage 1, the choice
    of the non-batched rule. *)
Lemma decomposed_batch_reports_the_non_batched_stage :
  2 ^ 24 < u64 (4096 * 4097) /\
  (fun r => r.2) <$> example.sgemm_stridedBatch cases.wide 4096 4097 2 = Some (Some 1) /\
  (exists g,
     selected_by_rule
       (fun i => gemm_stridedBatch_module cases.wide !! (example.code, i))
       (gemm_stridedBatch_work 4096 4097 2) (occupancy_threshold cases.wide)
       (num_kernel_candidates cases.wide) 0%nat g) /\
  (forall g,
     ~ selected_by_rule
         (fun i => gemm_stridedBatch_module cases.wide !! (example.code, i))
         (gemm_stridedBatch_work 4096 4097 2) (occupancy_threshold cases.wide)
         (num_kernel_candidates cases.wide) 1%nat g).
Proof.
  split; [vm_compute; reflexivity|]. split; [vm_compute; reflexivity|]. split.
  - eexists. split; [vm_compute; reflexivity|]. split; [intros j Hj; lia|].
    right. split; [vm_compute; reflexivity|].
    exists 8194. split; vm_compute; reflexivity.
  - intros g (_ & Hbefore & _).
    destruct (Hbefore 0%nat) as (g0 & w0 & Hg0 & Hw0 & Hle); [lia|].
    vm_compute in Hg0. injection Hg0 as <-.
    vm_compute in Hw0. injection Hw0 as <-.
    vm_compute in Hle. by apply Hle.
Qed.

(** C1, amended.  On a handle whose rows for the signature are populated
    with usable variants, every call returns [CUBLAS_STATUS_SUCCESS],
    launches the variant picked by the rule and stores the index of the
    picked stage through [used_kernel_modeule_id] when that pointer is not
    null.  The rule picks the last stage by default, otherwise the first
    stage of [0 .. num_kernel_candidates-2] whose estimate is strictly
    above [num_sms * 32].  The estimate is [m*n / (smem_m*smem_n)] for a
    non-batched call and for a batched call above the cut-off [2^24],
    which is decomposed into [batch_count] non-batched calls (with no
    item nothing is selected or reported); it is that quantity multiplied
    by [batch_count] for a batched call at or below the cut-off.  The estimates and the threshold are the plain arithmetic
    expressions as long as nothing wraps. *)
Theorem variant_selection K T h op_A op_B m n k alpha a lda stridea b ldb strideb
    beta c ldc stridec batch_count compute_mode used :
  1 <= num_kernel_candidates h < 2 ^ 32 ->
  candidates_ok (gemm_module h) (gen_module_code K T op_A op_B compute_mode)
    (num_kernel_candidates h) ->
  candidates_ok (gemm_stridedBatch_module h) (gen_module_code K T op_A op_B compute_mode)
    (num_kernel_candidates h) ->
  (exists i g grid,
      selected_by_rule
        (fun i => gemm_module h !! (gen_module_code K T op_A op_B compute_mode, i))
        (gemm_work m n) (occupancy_threshold h) (num_kernel_candidates h) i g /\
      gemm_grid_size g m n = Some grid /\
      gemm K T h op_A op_B m n k alpha a lda b ldb beta c ldc compute_mode used =
      Some (CUBLAS_STATUS_SUCCESS,
            after h (gemm_buffer_id h) (counter_init_disabled h)
              ((if gemm_advances h then [init_counter_op (gemm_buffer_id h)] else []) ++
               [gemm_launch T g grid m n k alpha a lda b ldb beta c ldc h
                  (gemm_buffer_id h)] ++
               (if exp_stats_enabled h
                then [download_exp_stats_op (gemm_buffer_id h)] else [])),
            match used with Some _ => Some (Z.of_nat i) | None => None end)) /\
  (u64 (m * n) <= 2 ^ 24 ->
   exists i g num_blocks,
      selected_by_rule
        (fun i => gemm_stridedBatch_module h
                    !! (gen_module_code K T op_A op_B compute_mode, i))
        (gemm_stridedBatch_work m n batch_count) (occupancy_threshold h)
        (num_kernel_candidates h) i g /\
      num_blocks_per_gemm g m n = Some num_blocks /\
      gemm_stridedBatch K T h op_A op_B m n k alpha a lda stridea b ldb strideb
        beta c ldc stridec batch_count compute_mode used =
      Some (CUBLAS_STATUS_SUCCESS,
            after h (gemm_stridedBatch_buffer_id h) (counter_init_disabled h)
              ((if exp_stats_enabled h
                then [init_counter_op (gemm_stridedBatch_buffer_id h)] else []) ++
               [gemm_stridedBatch_launch T g num_blocks m n k alpha a lda stridea
                  b ldb strideb beta c ldc stridec batch_count h
                  (gemm_stridedBatch_buffer_id h)] ++
               (if exp_stats_enabled h
                then [download_exp_stats_op (gemm_stridedBatch_buffer_id h)] else [])),
            match used with Some _ => Some (Z.of_nat i) | None => None end)) /\
  (2 ^ 24 < u64 (m * n) -> 0 < batch_count ->
   exists i g grid,
      selected_by_rule
        (fun i => gemm_module h !! (gen_module_code K T op_A op_B compute_mode, i))
        (gemm_work m n) (occupancy_threshold h) (num_kernel_candidates h) i g /\
      gemm_grid_size g m n = Some grid /\
      gemm_stridedBatch K T h op_A op_B m n k alpha a lda stridea b ldb strideb
        beta c ldc stridec batch_count compute_mode used =
      Some (CUBLAS_STATUS_SUCCESS,
            after h (gemm_buffer_id h) false
              (decomposed_ops T g grid m n k alpha a lda stridea b ldb strideb
                 beta c ldc stridec batch_count h),
            match used with Some _ => Some (Z.of_nat i) | None => None end)) /\
  (2 ^ 24 < u64 (m * n) -> batch_count <= 0 ->
   gemm_stridedBatch K T h op_A op_B m n k alpha a lda stridea b ldb strideb
     beta c ldc stridec batch_count compute_mode used =
   Some (CUBLAS_STATUS_SUCCESS, after h (current_buffer_id h) false [], used)) /\
  (forall g,
      0 <= m * n < 2 ^ 64 ->
      0 < cumpsgemm.smem_m g * cumpsgemm.smem_n g < 2 ^ 32 ->
      gemm_work m n g = Some (m * n / (cumpsgemm.smem_m g * cumpsgemm.smem_n g)) /\
      (0 <= m * n / (cumpsgemm.smem_m g * cumpsgemm.smem_n g) * batch_count < 2 ^ 64 ->
       gemm_stridedBatch_work m n batch_count g =
       Some (m * n / (cumpsgemm.smem_m g * cumpsgemm.smem_n g) * batch_count))) /\
  (0 <= num_sms h * 32 < 2 ^ 32 -> occupancy_threshold h = num_sms h * 32).
Proof.
  intros Hnum Hok Hokb.
  assert (Hgemm : exists i g grid,
      selected_by_rule
        (fun i => gemm_module h !! (gen_module_code K T op_A op_B compute_mode, i))
        (gemm_work m n) (occupancy_threshold h) (num_kernel_candidates h) i g /\
      gemm_grid_size g m n = Some grid /\
      gemm_select h (gen_module_code K T op_A op_B compute_mode) m n = Some (i, g)).
  { destruct (gemm_select_total h _ m n Hnum Hok) as [[i g] Hsel].
    pose proof (gemm_select_rule _ _ _ _ _ _ Hnum Hsel) as Hrule.
    destruct (selected_tile_sides _ _ _ _ _ _ _ (proj1 Hnum) Hok Hrule) as [Hm Hn].
    destruct (gemm_grid_size_total g m n Hm Hn) as [grid Hgrid].
    by exists i, g, grid. }
  split; [|split; [|split; [|split; [|split]]]].
  - destruct Hgemm as (i & g & grid & Hrule & Hgrid & Hsel).
    exists i, g, grid. split; [exact Hrule|]. split; [exact Hgrid|].
    rewrite gemm_eq, Hsel. cbn [mbind option_bind]. rewrite Hgrid. reflexivity.
  - intros Hmn.
    destruct (gemm_stridedBatch_select_total h _ m n batch_count Hnum Hokb) as [[i g] Hsel].
    pose proof (gemm_stridedBatch_select_rule _ _ _ _ _ _ _ Hnum Hsel) as Hrule.
    destruct (selected_tile_sides _ _ _ _ _ _ _ (proj1 Hnum) Hokb Hrule) as [Hm Hn].
    destruct (num_blocks_per_gemm_total g m n Hm Hn) as [num_blocks Hnb].
    exists i, g, num_blocks. split; [exact Hrule|]. split; [exact Hnb|].
    rewrite gemm_stridedBatch_batched_eq by exact Hmn.
    rewrite Hsel. cbn [mbind option_bind]. rewrite Hnb. reflexivity.
  - intros Hmn Hbc. destruct Hgemm as (i & g & grid & Hrule & Hgrid & Hsel).
    exists i, g, grid. split; [exact Hrule|]. split; [exact Hgrid|].
    rewrite gemm_stridedBatch_decomposed_eq by done.
    rewrite Hsel. cbn [mbind option_bind]. rewrite Hgrid. reflexivity.
  - intros Hmn Hbc. by apply gemm_stridedBatch_decomposed_empty.
  - intros g Hmn Hg. split; [by apply gemm_work_exact|].
    intros Hb. by apply gemm_stridedBatch_work_exact.
  - intros Hs. by apply u32_id.
Qed.

Lemma variant_selection_witness :
  1 <= num_kernel_candidates example.handle < 2 ^ 32 /\
  (exists i h',
     example.sgemm example.handle 64 2048 =
     Some (CUBLAS_STATUS_SUCCESS, h', Some (Z.of_nat i))) /\
  (exists i h',
     example.sgemm_stridedBatch example.handle 64 2048 2 =
     Some (CUBLAS_STATUS_SUCCESS, h', Some (Z.of_nat i))) /\
  (exists i h',
     example.sgemm_stridedBatch example.handle 4096 4097 2 =
     Some (CUBLAS_STATUS_SUCCESS, h', Some (Z.of_nat i))).
Proof.
  assert (Hnum : 1 <= num_kernel_candidates example.handle < 2 ^ 32) by (cbn; lia).
  pose proof (example_candidates_ok handle_gemm_module) as Hok.
  pose proof (example_candidates_ok handle_gemm_stridedBatch_module) as Hokb.
  split; [exact Hnum|].
  destruct (variant_selection example.K float_t example.handle CUBLAS_OP_N CUBLAS_OP_N
              64 2048 8 example.one 0 64 10 100 8 20 example.zero 200 64 30 2
              CUMPSGEMM_FP16TCEC (Some 7) Hnum Hok Hokb)
    as ((i & g & grid & _ & _ & Hgemm) & Hbatched & _).
  destruct Hbatched as (ib & gb & nb & _ & _ & Hb); [vm_compute; discriminate|].
  destruct (variant_selection example.K float_t example.handle CUBLAS_OP_N CUBLAS_OP_N
              4096 4097 8 example.one 0 4096 10 100 8 20 example.zero 200 4096 30 2
              CUMPSGEMM_FP16TCEC (Some 7) Hnum Hok Hokb)
    as (_ & _ & Hdecomposed & _).
  destruct Hdecomposed as (id & gd & gridd & _ & _ & Hd); [vm_compute; reflexivity|lia|].
  split; [|split].
  - exists i. eexists. exact Hgemm.
  - exists ib. eexists. exact Hb.
  - exists id. eexists. exact Hd.
Defined.

(** ** Batch decomposition (C2) *)




(** ** Monotonicity of the selection (C4) *)

Lemma select_loop_antitone_on candidates exceeds1 exceeds2 remaining module_id
    d1 d2 i1 g1 i2 g2 :
  (forall j g, candidates j = Some g ->
     exceeds1 g = Some true -> exceeds2 g = Some true) ->
  select_loop candidates exceeds1 remaining module_id d1 = Some (i1, g1) ->
  select_loop candidates exceeds2 remaining module_id d2 = Some (i2, g2) ->
  (i2 <= i1)%nat.
Proof.
  intros Hmono. revert module_id.
  induction remaining as [|remaining IH]; intros module_id H1 H2; simpl in H1, H2.
  - injection H1 as <- <-. injection H2 as <- <-. lia.
  - destruct (candidates module_id) as [module|] eqn:Hc; [|done]. simpl in H1, H2.
    destruct (exceeds1 module) as [[]|] eqn:E1; simpl in H1; [| |done].
    + rewrite (Hmono _ _ Hc E1) in H2. simpl in H2.
      injection H1 as <- <-. injection H2 as <- <-. lia.
    + destruct (exceeds2 module) as [[]|]; simpl in H2; [| |done].
      * injection H2 as <- <-. apply select_loop_bound in H1. lia.
      * eauto.
Qed.

Lemma gemm_select_antitone h code m1 n1 m2 n2 i1 g1 i2 g2 :
  u64 (m1 * n1) <= u64 (m2 * n2) ->
  gemm_select h code m1 n1 = Some (i1, g1) ->
  gemm_select h code m2 n2 = Some (i2, g2) ->
  (i2 <= i1)%nat.
Proof.
  intros Hle. unfold gemm_select.
  destruct (gemm_module h !! (code, _)) as [d|]; [|done]. cbn.
  apply select_loop_antitone. intros g. unfold gemm_exceeds.
  destruct (gemm_work m1 n1 g) as [w1|] eqn:H1; [|done]. cbn. intros [= Hw].
  destruct (gemm_work_mono m1 n1 m2 n2 g w1 Hle H1) as (w2 & -> & ? & ?). cbn.
  f_equal. lia.
Qed.

Lemma gemm_stridedBatch_select_antitone h code m1 n1 m2 n2 batch_count i1 g1 i2 g2 :
  u64 (m1 * n1) <= u64 (m2 * n2) ->
  0 <= batch_count ->
  (forall j g w,
     gemm_stridedBatch_module h !! (code, j) = Some g ->
     gemm_work m2 n2 g = Some w -> w * batch_count < 2 ^ 64) ->
  gemm_stridedBatch_select h code m1 n1 batch_count = Some (i1, g1) ->
  gemm_stridedBatch_select h code m2 n2 batch_count = Some (i2, g2) ->
  (i2 <= i1)%nat.
Proof.
  intros Hle Hb Hno. unfold gemm_stridedBatch_select.
  destruct (gemm_stridedBatch_module h !! (code, _)) as [d|]; [|done]. cbn.
  apply select_loop_antitone_on. intros j g Hg.
  unfold gemm_stridedBatch_exceeds, gemm_stridedBatch_work.
  destruct (gemm_work m1 n1 g) as [w1|] eqn:H1; [|done]. cbn. intros [= Hw].
  destruct (gemm_work_mono m1 n1 m2 n2 g w1 Hle H1) as (w2 & Hw2 & ? & ?).
  pose proof (Hno j g w2 Hg Hw2) as Hfit. rewrite Hw2. cbn.
  f_equal. rewrite (u64_id (w2 * batch_count)) by nia.
  assert (u64 (w1 * batch_count) <= w1 * batch_count)
    by (apply Z.mod_le; [nia|lia]).
  apply Z.ltb_lt in Hw. apply Z.ltb_lt. nia.
Qed.

(** The amended direction needs both of its provisos.  Across the cut-off
    the stage a strided-batch call reports moves later: on 132
    multiprocessors a batch of two 4096 x 4096 problems is launched as one
    batch and reports stage 0, the larger 4096 x 4097 is decomposed and
    reports stage 1.  And where the estimate times [batch_count] wraps, a
    larger problem selects a later stage: with a batch count of 2^63 the
    estimate 1 of a 64 x 64 problem selects stage 0, the estimate 2 of a
    64 x 128 problem wraps to 0 and selects stage 1. *)
Remark reported_stage_is_not_monotone_without_provisos :
  u64 (4096 * 4096) <= 2 ^ 24 < u64 (4096 * 4097) /\
  (fun r => r.2) <$> example.sgemm_stridedBatch cases.wide 4096 4096 2 = Some (Some 0) /\
  (fun r => r.2) <$> example.sgemm_stridedBatch cases.wide 4096 4097 2 = Some (Some 1) /\
  fst <$> gemm_stridedBatch_select example.handle example.code 64 64 (2 ^ 63) = Some 0%nat /\
  fst <$> gemm_stridedBatch_select example.handle example.code 64 128 (2 ^ 63) = Some 1%nat.
Proof.
  split; [vm_compute; split; [discriminate|reflexivity]|].
  repeat split; vm_compute; reflexivity.
Qed.

(** C4, amended.  For a fixed handle, signature and all other arguments, a
    larger 64-bit product [m*n] never makes a call select or report a
    later stage of the registration order: the stage stays or moves
    toward stage 0.  This holds for [gemm]; for [gemm_stridedBatch] when
    both problems are at or below the cut-off 2^24 and the estimate of
    every registered stage for the larger problem times [batch_count]
    stays below 2^64; and for [gemm_stridedBatch] when both problems are
    above the cut-off. *)
Theorem larger_problem_never_selects_later_stage K T h op_A op_B m1 n1 m2 n2 k alpha
    a lda stridea b ldb strideb beta c ldc stridec batch_count compute_mode used :
  1 <= num_kernel_candidates h < 2 ^ 32 ->
  candidates_ok (gemm_module h) (gen_module_code K T op_A op_B compute_mode)
    (num_kernel_candidates h) ->
  candidates_ok (gemm_stridedBatch_module h) (gen_module_code K T op_A op_B compute_mode)
    (num_kernel_candidates h) ->
  u64 (m1 * n1) <= u64 (m2 * n2) ->
  (exists i1 g1 h1 i2 g2 h2,
     gemm_select h (gen_module_code K T op_A op_B compute_mode) m1 n1 = Some (i1, g1) /\
     gemm_select h (gen_module_code K T op_A op_B compute_mode) m2 n2 = Some (i2, g2) /\
     gemm K T h op_A op_B m1 n1 k alpha a lda b ldb beta c ldc compute_mode used =
     Some (CUBLAS_STATUS_SUCCESS, h1, report_module_id used i1) /\
     gemm K T h op_A op_B m2 n2 k alpha a lda b ldb beta c ldc compute_mode used =
     Some (CUBLAS_STATUS_SUCCESS, h2, report_module_id used i2) /\
     (i2 <= i1)%nat) /\
  (u64 (m2 * n2) <= 2 ^ 24 ->
   0 <= batch_count ->
   (forall j g w,
      gemm_stridedBatch_module h !! (gen_module_code K T op_A op_B compute_mode, j)
        = Some g ->
      gemm_work m2 n2 g = Some w -> w * batch_count < 2 ^ 64) ->
   exists i1 g1 h1 i2 g2 h2,
     gemm_stridedBatch_select h (gen_module_code K T op_A op_B compute_mode)
       m1 n1 batch_count = Some (i1, g1) /\
     gemm_stridedBatch_select h (gen_module_code K T op_A op_B compute_mode)
       m2 n2 batch_count = Some (i2, g2) /\
     gemm_stridedBatch K T h op_A op_B m1 n1 k alpha a lda stridea b ldb strideb
       beta c ldc stridec batch_count compute_mode used =
     Some (CUBLAS_STATUS_SUCCESS, h1, report_module_id used i1) /\
     gemm_stridedBatch K T h op_A op_B m2 n2 k alpha a lda stridea b ldb strideb
       beta c ldc stridec batch_count compute_mode used =
     Some (CUBLAS_STATUS_SUCCESS, h2, report_module_id used i2) /\
     (i2 <= i1)%nat) /\
  (2 ^ 24 < u64 (m1 * n1) ->
   0 < batch_count ->
   exists i1 g1 h1 i2 g2 h2,
     gemm_select h (gen_module_code K T op_A op_B compute_mode) m1 n1 = Some (i1, g1) /\
     gemm_select h (gen_module_code K T op_A op_B compute_mode) m2 n2 = Some (i2, g2) /\
     gemm_stridedBatch K T h op_A op_B m1 n1 k alpha a lda stridea b ldb strideb
       beta c ldc stridec batch_count compute_mode used =
     Some (CUBLAS_STATUS_SUCCESS, h1, report_module_id used i1) /\
     gemm_stridedBatch K T h op_A op_B m2 n2 k alpha a lda stridea b ldb strideb
       beta c ldc stridec batch_count compute_mode used =
     Some (CUBLAS_STATUS_SUCCESS, h2, report_module_id used i2) /\
     (i2 <= i1)%nat).
Proof.
  intros Hnum Hok Hokb Hle. split; [|split].
  - destruct (gemm_returns K T h op_A op_B m1 n1 k alpha a lda b ldb beta c ldc
                compute_mode used Hnum Hok) as (i1 & g1 & grid1 & Hs1 & _ & Hc1).
    destruct (gemm_returns K T h op_A op_B m2 n2 k alpha a lda b ldb beta c ldc
                compute_mode used Hnum Hok) as (i2 & g2 & grid2 & Hs2 & _ & Hc2).
    eexists i1, g1, _, i2, g2, _.
    split; [exact Hs1|]. split; [exact Hs2|]. split; [exact Hc1|]. split; [exact Hc2|].
    exact (gemm_select_antitone _ _ _ _ _ _ _ _ _ _ Hle Hs1 Hs2).
  - intros Hmn Hb Hno.
    assert (Hmn1 : u64 (m1 * n1) <= 2 ^ 24) by lia.
    destruct (gemm_stridedBatch_batched_returns K T h op_A op_B m1 n1 k alpha a lda stridea
                b ldb strideb beta c ldc stridec batch_count compute_mode used
                Hnum Hokb Hmn1) as (i1 & g1 & nb1 & Hs1 & _ & Hc1).
    destruct (gemm_stridedBatch_batched_returns K T h op_A op_B m2 n2 k alpha a lda stridea
                b ldb strideb beta c ldc stridec batch_count compute_mode used
                Hnum Hokb Hmn) as (i2 & g2 & nb2 & Hs2 & _ & Hc2).
    eexists i1, g1, _, i2, g2, _.
    split; [exact Hs1|]. split; [exact Hs2|]. split; [exact Hc1|]. split; [exact Hc2|].
    exact (gemm_stridedBatch_select_antitone _ _ _ _ _ _ _ _ _ _ _ Hle Hb Hno Hs1 Hs2).
  - intros Hmn Hbc.
    assert (Hmn2 : 2 ^ 24 < u64 (m2 * n2)) by lia.
    destruct (gemm_stridedBatch_decomposed_returns K T h op_A op_B m1 n1 k alpha a lda
                stridea b ldb strideb beta c ldc stridec batch_count compute_mode used
                Hnum Hok Hmn Hbc) as (i1 & g1 & grid1 & Hs1 & _ & Hc1).
    destruct (gemm_stridedBatch_decomposed_returns K T h op_A op_B m2 n2 k alpha a lda
                stridea b ldb strideb beta c ldc stridec batch_count compute_mode used
                Hnum Hok Hmn2 Hbc) as (i2 & g2 & grid2 & Hs2 & _ & Hc2).
    eexists i1, g1, _, i2, g2, _.
    split; [exact Hs1|]. split; [exact Hs2|]. split; [exact Hc1|]. split; [exact Hc2|].
    exact (gemm_select_antitone _ _ _ _ _ _ _ _ _ _ Hle Hs1 Hs2).
Qed.

Lemma example_row_stages module_list code j g :
  table_of module_list example.handle !! (code, j) = Some g -> (j < 2)%nat.
Proof.
  intros Hg. destruct (decide (j < 2)%nat) as [|Hj]; [done|]. exfalso.
  unfold example.handle in Hg. rewrite registrations_untouched in Hg.
  - by destruct module_list.
  - intros r Hin Hslot.
    destruct (registered_is_registration_for r Hin)
      as (ml' & T' & a' & b' & mode' & stage' & V' & Hs' & ->).
    rewrite registration_for_slot in Hslot by done.
    injection Hslot as _ _ ->. lia.
Qed.

Lemma larger_problem_never_selects_later_stage_witness :
  u64 (2048 * 4096) <= u64 (4096 * 4096) /\
  exists i1 i2,
    fst <$> gemm_stridedBatch_select example.handle example.code 2048 4096 (2 ^ 45)
      = Some i1 /\
    fst <$> gemm_stridedBatch_select example.handle example.code 4096 4096 (2 ^ 45)
      = Some i2 /\
    (i2 <= i1)%nat.
Proof.
  assert (Hnum : 1 <= num_kernel_candidates example.handle < 2 ^ 32) by (cbn; lia).
  pose proof (example_candidates_ok handle_gemm_module) as Hok.
  pose proof (example_candidates_ok handle_gemm_stridedBatch_module) as Hokb.
  assert (Hle : u64 (2048 * 4096) <= u64 (4096 * 4096)) by (vm_compute; discriminate).
  split; [exact Hle|].
  destruct (larger_problem_never_selects_later_stage example.K float_t example.handle
              CUBLAS_OP_N CUBLAS_OP_N 2048 4096 4096 4096 8 example.one 0 4096 10 100 8 20
              example.zero 200 4096 30 (2 ^ 45) CUMPSGEMM_FP16TCEC (Some 7)
              Hnum Hok Hokb Hle) as (_ & Hbatched & _).
  destruct Hbatched as (i1 & g1 & h1 & i2 & g2 & h2 & Hs1 & Hs2 & _ & _ & Hi).
  - vm_compute. discriminate.
  - lia.
  - intros j g w Hg Hw.
    pose proof (example_row_stages handle_gemm_stridedBatch_module _ j g Hg) as Hj.
    destruct j as [|[|j]]; [| |lia];
      vm_compute in Hg; injection Hg as <-; vm_compute in Hw; injection Hw as <-;
      vm_compute; reflexivity.
  - exists i1, i2. change example.code with
      (gen_module_code example.K float_t CUBLAS_OP_N CUBLAS_OP_N CUMPSGEMM_FP16TCEC).
    rewrite Hs1, Hs2. split; [reflexivity|]. split; [reflexivity|exact Hi].
Defined.

(** ** The shared statistics slot of a decomposed batch (C5) *)





(** ** Compute modes outside the tensor-core modes *)

(** X11.  A compute mode outside the four tensor-core modes (cuBLAS
    pass-through, dry run, auto) sets no bit of the key: the key is the one
    made of the two operations and the element type alone.  The dispatcher
    reads the mode nowhere else, so any two such modes make [gemm] and
    [gemm_stridedBatch] behave identically.  Neither function rejects such
    a mode: a call that returns returns [CUBLAS_STATUS_SUCCESS], and on a
    handle whose row for that key is populated the call does return,
    having selected a variant and launched it like any other call. *)
Theorem pass_through_modes_dispatch_alike K T h op_A op_B compute_mode compute_mode'
    m n k alpha a lda stridea b ldb strideb beta c ldc stridec batch_count used :
  valid_compute_mode compute_mode = false ->
  valid_compute_mode compute_mode' = false ->
  gen_module_code K T op_A op_B compute_mode =
  Z.lor (Z.lor (match op_A with
                | CUBLAS_OP_N => kernel_module_code.op_a_col_major K
                | CUBLAS_OP_T => kernel_module_code.op_a_row_major K
                | CUBLAS_OP_C => kernel_module_code.op_a_conjugate K
                | _ => 0
                end)
               (match op_B with
                | CUBLAS_OP_N => kernel_module_code.op_b_col_major K
                | CUBLAS_OP_T => kernel_module_code.op_b_row_major K
                | CUBLAS_OP_C => kernel_module_code.op_b_conjugate K
                | _ => 0
                end))
        (match T with
         | float_t => kernel_module_code.s K
         | cuComplex_t => kernel_module_code.c K
         end) /\
  gen_module_code K T op_A op_B compute_mode =
  gen_module_code K T op_A op_B compute_mode' /\
  gemm K T h op_A op_B m n k alpha a lda b ldb beta c ldc compute_mode used =
  gemm K T h op_A op_B m n k alpha a lda b ldb beta c ldc compute_mode' used /\
  gemm_stridedBatch K T h op_A op_B m n k alpha a lda stridea b ldb strideb
    beta c ldc stridec batch_count compute_mode used =
  gemm_stridedBatch K T h op_A op_B m n k alpha a lda stridea b ldb strideb
    beta c ldc stridec batch_count compute_mode' used /\
  (forall st h' used',
     gemm K T h op_A op_B m n k alpha a lda b ldb beta c ldc compute_mode used =
     Some (st, h', used') \/
     gemm_stridedBatch K T h op_A op_B m n k alpha a lda stridea b ldb strideb
       beta c ldc stridec batch_count compute_mode used = Some (st, h', used') ->
     st = CUBLAS_STATUS_SUCCESS) /\
  (1 <= num_kernel_candidates h < 2 ^ 32 ->
   candidates_ok (gemm_module h) (gen_module_code K T op_A op_B compute_mode)
     (num_kernel_candidates h) ->
   candidates_ok (gemm_stridedBatch_module h) (gen_module_code K T op_A op_B compute_mode)
     (num_kernel_candidates h) ->
   (exists i g grid,
      gemm_select h (gen_module_code K T op_A op_B compute_mode) m n = Some (i, g) /\
      gemm_grid_size g m n = Some grid /\
      gemm K T h op_A op_B m n k alpha a lda b ldb beta c ldc compute_mode used =
      Some (CUBLAS_STATUS_SUCCESS,
            after h (gemm_buffer_id h) (counter_init_disabled h)
              ((if gemm_advances h then [init_counter_op (gemm_buffer_id h)] else []) ++
               [gemm_launch T g grid m n k alpha a lda b ldb beta c ldc h
                  (gemm_buffer_id h)] ++
               (if exp_stats_enabled h
                then [download_exp_stats_op (gemm_buffer_id h)] else [])),
            report_module_id used i)) /\
   (exists h' used',
      gemm_stridedBatch K T h op_A op_B m n k alpha a lda stridea b ldb strideb
        beta c ldc stridec batch_count compute_mode used =
      Some (CUBLAS_STATUS_SUCCESS, h', used'))).
Proof.
  intros V V'.
  assert (E : gen_module_code K T op_A op_B compute_mode =
              gen_module_code K T op_A op_B compute_mode')
    by (destruct compute_mode; try discriminate V;
        destruct compute_mode'; try discriminate V'; reflexivity).
  split; [|split; [exact E|split; [by apply gemm_code_only|split; [|split]]]].
  - destruct compute_mode; try discriminate V;
      destruct T, op_A, op_B; unfold gen_module_code;
      rewrite ?Z.lor_0_l, ?Z.lor_0_r; reflexivity.
  - unfold gemm_stridedBatch. rewrite E.
    rewrite (gemm_stridedBatch_loop_code_only K T op_A op_B compute_mode
               op_A op_B compute_mode') by exact E.
    reflexivity.
  - intros st h' used' [H|H];
      [by eapply gemm_status|by eapply gemm_stridedBatch_status].
  - intros Hnum Hok Hokb. split.
    + by apply gemm_returns.
    + by apply gemm_stridedBatch_total.
Qed.

Lemma pass_through_modes_dispatch_alike_witness :
  valid_compute_mode CUMPSGEMM_CUBLAS = false /\
  gemm example.K float_t example.handle CUBLAS_OP_N CUBLAS_OP_N 64 2112 8
    example.one 0 64 100 8 example.zero 200 64 CUMPSGEMM_CUBLAS (Some 7) =
  gemm example.K float_t example.handle CUBLAS_OP_N CUBLAS_OP_N 64 2112 8
    example.one 0 64 100 8 example.zero 200 64 CUMPSGEMM_DRY_RUN (Some 7) /\
  exists h' used',
    gemm example.K float_t example.handle CUBLAS_OP_N CUBLAS_OP_N 64 2112 8
      example.one 0 64 100 8 example.zero 200 64 CUMPSGEMM_CUBLAS (Some 7) =
    Some (CUBLAS_STATUS_SUCCESS, h', used').
Proof.
  assert (V : valid_compute_mode CUMPSGEMM_CUBLAS = false) by reflexivity.
  assert (V' : valid_compute_mode CUMPSGEMM_DRY_RUN = false) by reflexivity.
  assert (Hnum : 1 <= num_kernel_candidates example.handle < 2 ^ 32) by (cbn; lia).
  pose proof (example_candidates_ok handle_gemm_module) as Hok.
  pose proof (example_candidates_ok handle_gemm_stridedBatch_module) as Hokb.
  split; [exact V|].
  destruct (pass_through_modes_dispatch_alike example.K float_t example.handle
              CUBLAS_OP_N CUBLAS_OP_N CUMPSGEMM_CUBLAS CUMPSGEMM_DRY_RUN
              64 2112 8 example.one 0 64 0 100 8 0 example.zero 200 64 0 0
              (Some 7) V V') as (_ & _ & Hsame & _ & _ & Hruns).
  split; [exact Hsame|].
  destruct (Hruns Hnum Hok Hokb) as [(i & g & grid & _ & _ & Hcall) _].
  eexists _, _. exact Hcall.
Defined.
